(** * playersData/pdata.py: the players-data store

    A shallow embedding of [dist/ba_root/mods/playersData/pdata.py] and the
    properties of its profile, role, custom-data and whitelist operations.

    Python values are embedded as follows.
    - A [dict] with string keys is an association list in insertion order
      (iteration order is observable through [get_player_roles]).
    - The per-profile and per-role dicts have a fixed set of keys and are
      records whose fields carry the keys' names.
    - The role table is a mutable object that several names can refer to
      ([CacheData.roles] and the local [roles] of each function), so role
      tables live in a heap and are handled through locations.
    - A function is a state transformer over [World] that either returns a
      value or raises; the state reached when an exception is raised is
      kept, as in Python. *)

From Stdlib Require Import ZArith Lia.
From stdpp Require Import base list strings.

Local Open Scope string_scope.
Local Open Scope list_scope.

(** ** Python dicts and lists of strings *)

Module Py.

Abbreviation dict V := (list (string * V)) (only parsing).

Fixpoint dict_get {V} (k : string) (d : dict V) : option V :=
  match d with
  | [] => None
  | (k', v) :: d' => if String.eqb k k' then Some v else dict_get k d'
  end.

(** [k in d] *)
Definition dict_mem {V} (k : string) (d : dict V) : bool :=
  match dict_get k d with Some _ => true | None => false end.

(** [d[k] = v]: an existing key keeps its position, a new key goes last. *)
Fixpoint dict_set {V} (k : string) (v : V) (d : dict V) : dict V :=
  match d with
  | [] => [(k, v)]
  | (k', v') :: d' =>
      if String.eqb k k' then (k, v) :: d' else (k', v') :: dict_set k v d'
  end.

(** [d.pop(k)]: [None] stands for the [KeyError] of an absent key. *)
Fixpoint dict_pop {V} (k : string) (d : dict V) : option (dict V) :=
  match d with
  | [] => None
  | (k', v') :: d' =>
      if String.eqb k k' then Some d'
      else option_map (cons (k', v')) (dict_pop k d')
  end.

(** [for k in d] visits the keys in insertion order. *)
Definition dict_keys {V} (d : dict V) : list string := map fst d.

(** [d == {}] and [not d] *)
Definition dict_is_empty {V} (d : dict V) : bool :=
  match d with [] => true | _ :: _ => false end.

(** [x in l] for a list of strings *)
Definition list_mem (x : string) (l : list string) : bool :=
  existsb (String.eqb x) l.

(** [l.remove(x)] drops the first occurrence of [x]; [None] stands for
    the [ValueError] raised when there is none. *)
Fixpoint list_remove (x : string) (l : list string) : option (list string) :=
  match l with
  | [] => None
  | y :: l' =>
      if String.eqb x y then Some l' else option_map (cons y) (list_remove x l')
  end.

(** [s in t] for two strings: [s] occurs in [t] as a substring. *)
Fixpoint str_contains (s t : string) : bool :=
  if String.prefix s t then true
  else match t with
       | EmptyString => false
       | String _ t' => str_contains s t'
       end.

Inductive exn : Type := KeyError | ValueError | AttributeError | TypeError.

Inductive outcome (A : Type) : Type :=
| Ret (a : A)
| Raise (e : exn).
Arguments Ret {A} a.
Arguments Raise {A} e.

End Py.
Import Py.

(** ** The documents *)

(** A clock reading of [time.time()]; readings are stored, never computed
    with. *)
Definition timestamp : Type := Z.

(** The value under a profile's ["display_string"] key: [add_profile] and
    [update_display_string] store what they are given (annotated [str]),
    [update_profile] appends to it as to a list. *)
Inductive display : Type :=
| DStr (s : string)
| DList (l : list string).

(** An entry of profiles.json, as [add_profile] builds it. *)
Record Profile : Type := mkProfile {
  display_string : display;
  profiles : list string;
  name : string;
  isBan : bool;
  isMuted : bool;
  accountAge : Z;
  registerOn : timestamp;
  canStartKickVote : bool;
  spamCount : Z;
  lastSpam : timestamp;
  totaltimeplayer : Z;
  lastseen : Z
}.

(** An entry of roles.json, as [create_role] builds it. *)
Record Role : Type := mkRole {
  tag : string;
  tagcolor : list Z;
  commands : list string;
  ids : list string
}.

(** An entry of [serverdata.clients]: the profile dict with the five keys
    [add_profile] adds to it. *)
Record Client : Type := mkClient {
  client_profile : Profile;
  warnCount : Z;
  lastWarned : timestamp;
  verified : bool;
  rejoincount : Z;
  lastJoin : timestamp
}.

(** custom.json: a key (["customeffects"], ["customtag"]) to a mapping from
    account id to a string. *)
Abbreviation Custom := (dict (dict string)) (only parsing).

(** A location of the heap of role tables. *)
Abbreviation loc := nat (only parsing).

(** ** The state the module runs in

    The four documents under [PLAYERS_DATA_PATH], the class attributes of
    [CacheData], the heap of role-table objects, [serverdata.clients], the
    clock and the standard output. *)
Record World : Type := mkWorld {
  profiles_json : option (dict Profile);
  roles_json : dict Role;
  custom_json : Custom;
  whitelist_json : list string;
  heap : list (dict Role);
  CacheData_roles : loc;
  CacheData_custom : Custom;
  CacheData_whitelist : list string;
  serverdata_clients : dict Client;
  clock : nat -> timestamp;
  ticks : nat;
  stdout : list string
}.

Definition set_profiles_json (x : option (dict Profile)) (w : World) : World :=
  mkWorld x (roles_json w) (custom_json w) (whitelist_json w) (heap w)
    (CacheData_roles w) (CacheData_custom w) (CacheData_whitelist w)
    (serverdata_clients w) (clock w) (ticks w) (stdout w).

Definition set_roles_json (x : dict Role) (w : World) : World :=
  mkWorld (profiles_json w) x (custom_json w) (whitelist_json w) (heap w)
    (CacheData_roles w) (CacheData_custom w) (CacheData_whitelist w)
    (serverdata_clients w) (clock w) (ticks w) (stdout w).

Definition set_custom_json (x : Custom) (w : World) : World :=
  mkWorld (profiles_json w) (roles_json w) x (whitelist_json w) (heap w)
    (CacheData_roles w) (CacheData_custom w) (CacheData_whitelist w)
    (serverdata_clients w) (clock w) (ticks w) (stdout w).

Definition set_heap (x : list (dict Role)) (w : World) : World :=
  mkWorld (profiles_json w) (roles_json w) (custom_json w) (whitelist_json w) x
    (CacheData_roles w) (CacheData_custom w) (CacheData_whitelist w)
    (serverdata_clients w) (clock w) (ticks w) (stdout w).

Definition set_CacheData_roles (x : loc) (w : World) : World :=
  mkWorld (profiles_json w) (roles_json w) (custom_json w) (whitelist_json w)
    (heap w) x (CacheData_custom w) (CacheData_whitelist w)
    (serverdata_clients w) (clock w) (ticks w) (stdout w).

Definition set_CacheData_custom (x : Custom) (w : World) : World :=
  mkWorld (profiles_json w) (roles_json w) (custom_json w) (whitelist_json w)
    (heap w) (CacheData_roles w) x (CacheData_whitelist w)
    (serverdata_clients w) (clock w) (ticks w) (stdout w).

Definition set_CacheData_whitelist (x : list string) (w : World) : World :=
  mkWorld (profiles_json w) (roles_json w) (custom_json w) (whitelist_json w)
    (heap w) (CacheData_roles w) (CacheData_custom w) x
    (serverdata_clients w) (clock w) (ticks w) (stdout w).

Definition set_serverdata_clients (x : dict Client) (w : World) : World :=
  mkWorld (profiles_json w) (roles_json w) (custom_json w) (whitelist_json w)
    (heap w) (CacheData_roles w) (CacheData_custom w) (CacheData_whitelist w)
    x (clock w) (ticks w) (stdout w).

Definition set_ticks (x : nat) (w : World) : World :=
  mkWorld (profiles_json w) (roles_json w) (custom_json w) (whitelist_json w)
    (heap w) (CacheData_roles w) (CacheData_custom w) (CacheData_whitelist w)
    (serverdata_clients w) (clock w) x (stdout w).

Definition set_stdout (x : list string) (w : World) : World :=
  mkWorld (profiles_json w) (roles_json w) (custom_json w) (whitelist_json w)
    (heap w) (CacheData_roles w) (CacheData_custom w) (CacheData_whitelist w)
    (serverdata_clients w) (clock w) (ticks w) x.

(** ** Computations *)

Definition M (A : Type) : Type := World -> outcome A * World.

Definition ret {A} (a : A) : M A := fun w => (Ret a, w).

Definition raise {A} (e : exn) : M A := fun w => (Raise e, w).

Definition bind {A B} (m : M A) (k : A -> M B) : M B :=
  fun w =>
    match m w with
    | (Ret a, w') => k a w'
    | (Raise e, w') => (Raise e, w')
    end.

Definition gets {A} (f : World -> A) : M A := fun w => (Ret (f w), w).

Definition modify (f : World -> World) : M unit := fun w => (Ret tt, f w).

Declare Scope py_scope.
Delimit Scope py_scope with py.
Notation "'let*' x ':=' m 'in' k" := (bind m (fun x => k))
  (at level 10, x name, m at level 100, k at level 200) : py_scope.
Notation "m ';;;' k" := (bind m (fun _ => k))
  (at level 100, k at level 200, right associativity) : py_scope.
Local Open Scope py_scope.

(** [for x in l: body x] *)
Fixpoint for_each {A} (l : list A) (body : A -> M unit) : M unit :=
  match l with
  | [] => ret tt
  | x :: l' => body x ;;; for_each l' body
  end.

(** The result and the final state of a run. *)
Definition result {A} (r : outcome A * World) : outcome A := fst r.
Definition final {A} (r : outcome A * World) : World := snd r.

(** [for x in l: acc = body acc x], for a loop that updates a local. *)
Fixpoint for_acc {A S} (l : list A) (body : S -> A -> M S) (acc : S) : M S :=
  match l with
  | [] => ret acc
  | x :: l' => let* acc' := body acc x in for_acc l' body acc'
  end.

(** [d[k]] raises [KeyError] on an absent key. *)
Definition getitem {V} (k : string) (d : dict V) : M V :=
  match dict_get k d with
  | Some v => ret v
  | None => raise KeyError
  end.

Definition print (s : string) : M unit :=
  modify (fun w => set_stdout (stdout w ++ [s]) w).

Definition time_time : M timestamp :=
  fun w => (Ret (clock w (ticks w)), set_ticks (S (ticks w)) w).

(** Role-table objects. A location that was never allocated reads as the
    empty table and a write to it is lost; the locations the module hands
    out are always allocated. *)
Definition table_at (l : loc) (w : World) : dict Role :=
  default [] (heap w !! l).

Definition deref (l : loc) : M (dict Role) := gets (table_at l).

Definition assign (l : loc) (t : dict Role) : M unit :=
  modify (fun w => set_heap (<[l := t]> (heap w)) w).

(** ** OpenJson *)

(** Modelled from the spec: [tools.file_handle.OpenJson] is not among the
    sources. Following the spec's DocumentStore, [load] yields the current
    content of the document as a fresh object, [dump] overwrites the
    document, and [format] is treated as [dump]. *)
Module OpenJson.

Definition load_profiles : M (option (dict Profile)) := gets profiles_json.

Definition dump_profiles (d : dict Profile) : M unit :=
  modify (set_profiles_json (Some d)).

Definition load_roles : M loc :=
  fun w => (Ret (length (heap w)), set_heap (heap w ++ [roles_json w]) w).

Definition format_roles (d : dict Role) : M unit := modify (set_roles_json d).

Definition load_custom : M Custom := gets custom_json.

Definition dump_custom (d : Custom) : M unit := modify (set_custom_json d).

Definition load_whitelist : M (list string) := gets whitelist_json.

End OpenJson.

(** ** Profiles *)

Definition with_display_string (x : display) (p : Profile) : Profile :=
  mkProfile x (profiles p) (name p) (isBan p) (isMuted p) (accountAge p)
    (registerOn p) (canStartKickVote p) (spamCount p) (lastSpam p)
    (totaltimeplayer p) (lastseen p).

Definition with_profiles (x : list string) (p : Profile) : Profile :=
  mkProfile (display_string p) x (name p) (isBan p) (isMuted p) (accountAge p)
    (registerOn p) (canStartKickVote p) (spamCount p) (lastSpam p)
    (totaltimeplayer p) (lastseen p).

Definition with_name (x : string) (p : Profile) : Profile :=
  mkProfile (display_string p) (profiles p) x (isBan p) (isMuted p)
    (accountAge p) (registerOn p) (canStartKickVote p) (spamCount p)
    (lastSpam p) (totaltimeplayer p) (lastseen p).

(** [p["display_string"]] and [p["profiles"]], for the functions whose
    parameters carry the same names as these keys. *)
Definition item_display_string (p : Profile) : display := display_string p.
Definition item_profiles (p : Profile) : list string := profiles p.

(** [account_id in profiles] and [profiles[account_id] = ...] on the [None]
    that a null document loads as raise [TypeError]. *)
Definition get_info (account_id : string) : M (option Profile) :=
  let* loaded := OpenJson.load_profiles in
  match loaded with
  | None => raise TypeError
  | Some profiles =>
      if dict_mem account_id profiles
      then let* p := getitem account_id profiles in ret (Some p)
      else ret None
  end.

Definition get_profiles : M (option (dict Profile)) := OpenJson.load_profiles.

Definition commit_profiles (profiles : dict Profile) : M unit :=
  OpenJson.dump_profiles profiles.

Definition add_profile (account_id display_string current_name : string)
    (account_age : Z) : M unit :=
  let* loaded := OpenJson.load_profiles in
  match loaded with
  | None => raise TypeError
  | Some profiles =>
      let* register_on := time_time in
      let* last_spam := time_time in
      let profiles :=
        dict_set account_id
          (mkProfile (DStr display_string) [] current_name false false
             account_age register_on true 0%Z last_spam 0%Z 0%Z)
          profiles in
      commit_profiles profiles ;;;
      let* p := getitem account_id profiles in
      let* last_warned := time_time in
      let* last_join := time_time in
      modify (fun w =>
        set_serverdata_clients
          (dict_set account_id (mkClient p 0%Z last_warned false 1%Z last_join)
             (serverdata_clients w)) w)
  end.

Definition update_display_string (account_id display_string : string) : M unit :=
  let* loaded := get_profiles in
  match loaded with
  | None => raise TypeError
  | Some profiles =>
      if dict_mem account_id profiles then
        let* p := getitem account_id profiles in
        commit_profiles
          (dict_set account_id (with_display_string (DStr display_string) p)
             profiles)
      else ret tt
  end.

Definition update_profile (account_id : string) (display_string : option string)
    (allprofiles : option (list string)) (name : option string) : M unit :=
  let* loaded := OpenJson.load_profiles in
  match loaded with
  | None => ret tt
  | Some profiles =>
      let* profiles :=
        match display_string with
        | Some ds =>
            if dict_mem account_id profiles then
              let* p := getitem account_id profiles in
              match item_display_string p with
              | DList l =>
                  if list_mem ds l then ret profiles
                  else ret (dict_set account_id
                              (with_display_string (DList (l ++ [ds])) p)
                              profiles)
              | DStr s =>
                  if str_contains ds s then ret profiles
                  else raise AttributeError
              end
            else ret profiles
        | None => ret profiles
        end in
      let* profiles :=
        match allprofiles with
        | Some l =>
            for_acc l
              (fun profiles profile =>
                 let* p := getitem account_id profiles in
                 if list_mem profile (item_profiles p) then ret profiles
                 else ret (dict_set account_id
                             (with_profiles (item_profiles p ++ [profile]) p)
                             profiles))
              profiles
        | None => ret profiles
        end in
      let* profiles :=
        match name with
        | Some n =>
            let* p := getitem account_id profiles in
            ret (dict_set account_id (with_name n p) profiles)
        | None => ret profiles
        end in
      commit_profiles profiles
  end.

(** ** Roles *)

Definition with_tag (x : string) (r : Role) : Role :=
  mkRole x (tagcolor r) (commands r) (ids r).

Definition with_commands (x : list string) (r : Role) : Role :=
  mkRole (tag r) (tagcolor r) x (ids r).

Definition with_ids (x : list string) (r : Role) : Role :=
  mkRole (tag r) (tagcolor r) (commands r) x.

(** [data] is the object the caller holds; what is written is its content
    at the time of the call. *)
Definition commit_roles (data : loc) : M unit :=
  let* d := deref data in
  if dict_is_empty d then ret tt else OpenJson.format_roles d.

Definition get_roles : M loc :=
  let* cached := gets CacheData_roles in
  let* t := deref cached in
  if dict_is_empty t then
    let* roles := OpenJson.load_roles in
    modify (set_CacheData_roles roles) ;;;
    ret roles
  else gets CacheData_roles.

Definition create_role (role : string) : M unit :=
  let* roles := get_roles in
  let* t := deref roles in
  if dict_mem role t then ret tt
  else
    assign roles (dict_set role (mkRole role [1; 1; 1]%Z [] []) t) ;;;
    modify (set_CacheData_roles roles) ;;;
    commit_roles roles.

Definition add_player_role (role account_id : string) : M unit :=
  let* roles := get_roles in
  let* t := deref roles in
  if dict_mem role t then
    let* r := getitem role t in
    if negb (list_mem account_id (ids r)) then
      assign roles (dict_set role (with_ids (ids r ++ [account_id]) r) t) ;;;
      modify (set_CacheData_roles roles) ;;;
      commit_roles roles
    else ret tt
  else print "no role such".

Definition remove_player_role (role account_id : string) : M string :=
  let* roles := get_roles in
  let* t := deref roles in
  if dict_mem role t then
    let* r := getitem role t in
    match list_remove account_id (ids r) with
    | None => raise ValueError
    | Some l =>
        assign roles (dict_set role (with_ids l r) t) ;;;
        modify (set_CacheData_roles roles) ;;;
        commit_roles roles ;;;
        ret ("removed from " +:+ role)
    end
  else ret "role not exists".

Definition add_command_role (role command : string) : M string :=
  let* roles := get_roles in
  let* t := deref roles in
  if dict_mem role t then
    let* r := getitem role t in
    if negb (list_mem command (commands r)) then
      assign roles (dict_set role (with_commands (commands r ++ [command]) r) t) ;;;
      modify (set_CacheData_roles roles) ;;;
      commit_roles roles ;;;
      ret ("command added to " +:+ role)
    else ret "command not exists"
  else ret "command not exists".

Definition get_player_roles (account_id : string) : M (list string) :=
  let* roles := get_roles in
  let* t := deref roles in
  for_acc (dict_keys t)
    (fun have_roles role =>
       let* now := deref roles in
       let* r := getitem role now in
       if list_mem account_id (ids r) then ret (have_roles ++ [role])
       else ret have_roles)
    [].

(** [CacheData.roles["top5"]["ids"] = topper_list] goes through the class
    attribute, [commit_roles(roles)] through the local taken at entry. *)
Definition update_toppers (topper_list : list string) : M unit :=
  let* roles := get_roles in
  let* t := deref roles in
  (if negb (dict_mem "top5" t) then create_role "top5" else ret tt) ;;;
  let* cached := gets CacheData_roles in
  let* ct := deref cached in
  let* r := getitem "top5" ct in
  assign cached (dict_set "top5" (with_ids topper_list r) ct) ;;;
  commit_roles roles.

(** ** Custom effects and tags

    The local [custom] of the functions below is either the object
    [CacheData.custom] refers to or a freshly loaded one, and it is stored
    into [CacheData.custom] before anything reads the class attribute
    again, so the table is passed by value. *)

Definition get_custom : M Custom :=
  let* cached := gets CacheData_custom in
  if dict_is_empty cached then OpenJson.load_custom
  else gets CacheData_custom.

Definition commit_c : M unit :=
  let* cached := gets CacheData_custom in
  OpenJson.dump_custom cached.

Definition set_effect (effect accout_id : string) : M unit :=
  let* custom := get_custom in
  let* effects := getitem "customeffects" custom in
  modify (set_CacheData_custom
            (dict_set "customeffects" (dict_set accout_id effect effects) custom)) ;;;
  commit_c.

Definition set_tag (tag account_id : string) : M unit :=
  let* custom := get_custom in
  let* tags := getitem "customtag" custom in
  modify (set_CacheData_custom
            (dict_set "customtag" (dict_set account_id tag tags) custom)) ;;;
  commit_c.

Definition remove_effect (account_id : string) : M unit :=
  let* custom := get_custom in
  let* effects := getitem "customeffects" custom in
  match dict_pop account_id effects with
  | None => raise KeyError
  | Some effects' =>
      modify (set_CacheData_custom (dict_set "customeffects" effects' custom)) ;;;
      commit_c
  end.

Definition remove_tag (account_id : string) : M unit :=
  let* custom := get_custom in
  let* tags := getitem "customtag" custom in
  match dict_pop account_id tags with
  | None => raise KeyError
  | Some tags' =>
      modify (set_CacheData_custom (dict_set "customtag" tags' custom)) ;;;
      commit_c
  end.

(** ** Whitelist *)

Definition load_white_list : M unit :=
  let* data := OpenJson.load_whitelist in
  for_each data
    (fun account_id =>
       modify (fun w =>
         set_CacheData_whitelist (CacheData_whitelist w ++ [account_id]) w)).

(** ** Running several calls *)

Fixpoint repeat_call {A} (n : nat) (m : M A) : M unit :=
  match n with
  | O => ret tt
  | S n' => m ;;; repeat_call n' m
  end.

(** The world of a process that has just imported the module: the class
    attributes of [CacheData] hold their empty initial values. *)
Definition boot (profiles : option (dict Profile)) (roles : dict Role)
    (custom : Custom) (whitelist : list string) : World :=
  mkWorld profiles roles custom whitelist [[]] 0 [] [] [] (fun n => Z.of_nat n) 0 [].

(** ** The other functions of the module *)

Definition with_isBan (x : bool) (p : Profile) : Profile :=
  mkProfile (display_string p) (profiles p) (name p) x (isMuted p)
    (accountAge p) (registerOn p) (canStartKickVote p) (spamCount p)
    (lastSpam p) (totaltimeplayer p) (lastseen p).

Definition with_isMuted (x : bool) (p : Profile) : Profile :=
  mkProfile (display_string p) (profiles p) (name p) (isBan p) x
    (accountAge p) (registerOn p) (canStartKickVote p) (spamCount p)
    (lastSpam p) (totaltimeplayer p) (lastseen p).

Definition with_spamCount (x : Z) (p : Profile) : Profile :=
  mkProfile (display_string p) (profiles p) (name p) (isBan p) (isMuted p)
    (accountAge p) (registerOn p) (canStartKickVote p) x
    (lastSpam p) (totaltimeplayer p) (lastseen p).

Definition with_lastSpam (x : timestamp) (p : Profile) : Profile :=
  mkProfile (display_string p) (profiles p) (name p) (isBan p) (isMuted p)
    (accountAge p) (registerOn p) (canStartKickVote p) (spamCount p)
    x (totaltimeplayer p) (lastseen p).

(** What [_thread.start_new_thread(f, args)] hands to the new thread: the
    call of [f] on [args], which the thread makes at some later time. A function
    that starts threads returns the jobs it started; when each one runs is
    up to whoever runs them. *)
Definition job : Type := M unit.

Definition ban_player (account_id : string) : M (list job) :=
  let* loaded := get_profiles in
  match loaded with
  | None => raise TypeError
  | Some profiles =>
      if dict_mem account_id profiles then
        let* p := getitem account_id profiles in
        ret [commit_profiles (dict_set account_id (with_isBan true p) profiles)]
      else ret []
  end.

Definition mute (account_id : string) : M (list job) :=
  let* loaded := get_profiles in
  match loaded with
  | None => raise TypeError
  | Some profiles =>
      if dict_mem account_id profiles then
        let* p := getitem account_id profiles in
        ret [commit_profiles (dict_set account_id (with_isMuted true p) profiles)]
      else ret []
  end.

Definition unmute (account_id : string) : M (list job) :=
  let* loaded := get_profiles in
  match loaded with
  | None => raise TypeError
  | Some profiles =>
      if dict_mem account_id profiles then
        let* p := getitem account_id profiles in
        ret [commit_profiles (dict_set account_id (with_isMuted false p) profiles)]
      else ret []
  end.

Definition update_spam (account_id : string) (spam_count : Z)
    (last_spam : timestamp) : M unit :=
  let* loaded := get_profiles in
  match loaded with
  | None => raise TypeError
  | Some profiles =>
      if dict_mem account_id profiles then
        let* p := getitem account_id profiles in
        let profiles := dict_set account_id (with_spamCount spam_count p) profiles in
        let* p := getitem account_id profiles in
        commit_profiles (dict_set account_id (with_lastSpam last_spam p) profiles)
      else ret tt
  end.

(** The status returned after a removal is the one of [add_command_role]:
    the source returns ["command added to " + role] here as well. *)
Definition remove_command_role (role command : string) : M string :=
  let* roles := get_roles in
  let* t := deref roles in
  if dict_mem role t then
    let* r := getitem role t in
    if list_mem command (commands r) then
      match list_remove command (commands r) with
      | None => raise ValueError
      | Some l =>
          assign roles (dict_set role (with_commands l r) t) ;;;
          modify (set_CacheData_roles roles) ;;;
          commit_roles roles ;;;
          ret ("command added to " +:+ role)
      end
    else ret "command not exists"
  else ret "command not exists".

Definition change_role_tag (role tag : string) : M string :=
  let* roles := get_roles in
  let* t := deref roles in
  if dict_mem role t then
    let* r := getitem role t in
    assign roles (dict_set role (with_tag tag r) t) ;;;
    modify (set_CacheData_roles roles) ;;;
    commit_roles roles ;;;
    ret "tag changed"
  else ret "role not exists".

(** * Vocabulary of the properties *)

(** The entries a value under ["display_string"] records. *)
Definition history (d : display) : list string :=
  match d with
  | DStr s => [s]
  | DList l => l
  end.

(** [update_display_string] read as an append: for an account that is
    present, the entries recorded before the call are still recorded after
    it, together with the new string. *)
Definition update_display_string_appends : Prop :=
  forall (account_id s : string) (w : World) (stored : dict Profile) (p : Profile),
    profiles_json w = Some stored ->
    dict_get account_id stored = Some p ->
    exists (stored' : dict Profile) (p' : Profile),
      profiles_json (final (update_display_string account_id s w)) = Some stored' /\
      dict_get account_id stored' = Some p' /\
      s ∈ history (display_string p') /\
      forall old, old ∈ history (display_string p) ->
                  old ∈ history (display_string p').

(** The role table as [get_roles] sees it: the object [CacheData.roles]
    refers to, or the content of roles.json when that object is empty. *)
Definition role_table (w : World) : dict Role :=
  let cached := table_at (CacheData_roles w) w in
  if dict_is_empty cached then roles_json w else cached.

(** What a caller can observe of a world: the documents, the role table,
    the other caches, the client registry, the clock position and the
    output. Locations and unreachable objects are left out. *)
Definition observe (w : World) :=
  (profiles_json w, roles_json w, custom_json w, whitelist_json w,
   role_table w, CacheData_custom w, CacheData_whitelist w,
   serverdata_clients w, ticks w, stdout w).

(** Reduce the projections of an updated world, and nothing else. *)
Ltac world_simpl :=
  cbn [profiles_json roles_json custom_json whitelist_json heap
       CacheData_roles CacheData_custom CacheData_whitelist
       serverdata_clients clock ticks stdout
       set_profiles_json set_roles_json set_custom_json set_heap
       set_CacheData_roles set_CacheData_custom set_CacheData_whitelist
       set_serverdata_clients set_ticks set_stdout fst snd].

(** What one call of [add_player_role] does to a role table. *)
Definition add_member (role account_id : string) (t : dict Role) : dict Role :=
  match dict_get role t with
  | Some r =>
      if list_mem account_id (ids r) then t
      else dict_set role (with_ids (ids r ++ [account_id]) r) t
  | None => t
  end.

(** Every entry of a role table has duplicate-free ids. *)
Definition ids_unique (t : dict Role) : Prop :=
  Forall (fun entry => NoDup (ids (snd entry))) t.

(** A sequence of [add_player_role(role, account_id)] calls. *)
Definition add_player_roles (calls : list (string * string)) : M unit :=
  for_each calls (fun call => add_player_role (fst call) (snd call)).

(** The names of the roles of [t] whose ids contain [account_id], in the
    order in which [t] lists them. *)
Definition roles_holding (account_id : string) (t : dict Role) : list string :=
  map fst (List.filter (fun entry => list_mem account_id (ids (snd entry))) t).

(** The role named "top5" as [create_role] makes it. *)
Definition top5_default : Role := mkRole "top5" [1; 1; 1]%Z [] [].

(** What [update_toppers] is meant to do to a role table: make sure "top5"
    is there, then give it the new ids. *)
Definition with_top5 (t : dict Role) : dict Role :=
  if dict_mem "top5" t then t else dict_set "top5" top5_default t.

Definition set_toppers (topper_list : list string) (t : dict Role) : dict Role :=
  match dict_get "top5" (with_top5 t) with
  | Some r => dict_set "top5" (with_ids topper_list r) (with_top5 t)
  | None => with_top5 t
  end.

(** The custom table as [get_custom] sees it. *)
Definition custom_table (w : World) : Custom :=
  if dict_is_empty (CacheData_custom w) then custom_json w
  else CacheData_custom w.

(** The functions of the module that read or assign [CacheData.custom]. *)
Inductive custom_call : Type :=
| GetCustom
| SetEffect (effect accout_id : string)
| SetTag (tag account_id : string)
| RemoveEffect (account_id : string)
| RemoveTag (account_id : string)
| CommitC.

Definition call_custom (c : custom_call) : M unit :=
  match c with
  | GetCustom => get_custom ;;; ret tt
  | SetEffect effect accout_id => set_effect effect accout_id
  | SetTag tag account_id => set_tag tag account_id
  | RemoveEffect account_id => remove_effect account_id
  | RemoveTag account_id => remove_tag account_id
  | CommitC => commit_c
  end.

Definition is_set (c : custom_call) : bool :=
  match c with
  | SetEffect _ _ | SetTag _ _ => true
  | _ => false
  end.

Definition is_write (c : custom_call) : bool :=
  match c with
  | SetEffect _ _ | SetTag _ _ | RemoveEffect _ | RemoveTag _ => true
  | GetCustom | CommitC => false
  end.

(** [n] successive calls of [get_custom], with what each returned. *)
Fixpoint get_custom_times (n : nat) : M (list Custom) :=
  match n with
  | O => ret []
  | S n' =>
      let* c := get_custom in
      let* cs := get_custom_times n' in
      ret (c :: cs)
  end.

(** [set_effect] and [set_tag] read as the only calls that populate the
    cache: starting from an empty [CacheData.custom], a call after which it
    is not empty is a call of one of the two. *)
Definition only_set_calls_populate : Prop :=
  forall (c : custom_call) (w : World),
    CacheData_custom w = [] ->
    CacheData_custom (final (call_custom c w)) <> [] ->
    is_set c = true.

(** What each role function does to a role table. *)
Definition create_in (role : string) (t : dict Role) : dict Role :=
  if dict_mem role t then t
  else dict_set role (mkRole role [1; 1; 1]%Z [] []) t.

Definition remove_member (role account_id : string) (t : dict Role) : dict Role :=
  match dict_get role t with
  | Some r =>
      match list_remove account_id (ids r) with
      | Some l => dict_set role (with_ids l r) t
      | None => t
      end
  | None => t
  end.

Definition add_command (role command : string) (t : dict Role) : dict Role :=
  match dict_get role t with
  | Some r =>
      if list_mem command (commands r) then t
      else dict_set role (with_commands (commands r ++ [command]) r) t
  | None => t
  end.

Definition remove_command (role command : string) (t : dict Role) : dict Role :=
  match dict_get role t with
  | Some r =>
      match list_remove command (commands r) with
      | Some l => dict_set role (with_commands l r) t
      | None => t
      end
  | None => t
  end.

Definition retag (role tag : string) (t : dict Role) : dict Role :=
  match dict_get role t with
  | Some r => dict_set role (with_tag tag r) t
  | None => t
  end.

(** The calls a user of the role functions can make. *)
Inductive role_call : Type :=
| CreateRole (role : string)
| AddPlayerRole (role account_id : string)
| RemovePlayerRole (role account_id : string)
| AddCommandRole (role command : string)
| RemoveCommandRole (role command : string)
| ChangeRoleTag (role tag : string)
| GetPlayerRoles (account_id : string)
| UpdateToppers (topper_list : list string).

Definition call_role (c : role_call) : M unit :=
  match c with
  | CreateRole role => create_role role
  | AddPlayerRole role account_id => add_player_role role account_id
  | RemovePlayerRole role account_id =>
      remove_player_role role account_id ;;; ret tt
  | AddCommandRole role command => add_command_role role command ;;; ret tt
  | RemoveCommandRole role command =>
      remove_command_role role command ;;; ret tt
  | ChangeRoleTag role tag => change_role_tag role tag ;;; ret tt
  | GetPlayerRoles account_id => get_player_roles account_id ;;; ret tt
  | UpdateToppers topper_list => update_toppers topper_list
  end.

Definition table_after (c : role_call) (t : dict Role) : dict Role :=
  match c with
  | CreateRole role => create_in role t
  | AddPlayerRole role account_id => add_member role account_id t
  | RemovePlayerRole role account_id => remove_member role account_id t
  | AddCommandRole role command => add_command role command t
  | RemoveCommandRole role command => remove_command role command t
  | ChangeRoleTag role tag => retag role tag t
  | GetPlayerRoles _ => t
  | UpdateToppers topper_list => set_toppers topper_list t
  end.

Definition is_update_toppers (c : role_call) : bool :=
  match c with
  | UpdateToppers _ => true
  | _ => false
  end.

(** The world after a caller made the calls one after the other, going on
    after a call that raised. *)
Fixpoint after_calls (calls : list role_call) (w : World) : World :=
  match calls with
  | [] => w
  | c :: calls' => after_calls calls' (final (call_role c w))
  end.

(** A role function took the world from [w] to [w'] with [t'] as the new
    role table: either [t'] was written to roles.json, or the table and
    roles.json are what they were; nothing outside the role store moved. *)
Definition role_step (w w' : World) (t' : dict Role) : Prop :=
  role_table w' = t' /\
  (roles_json w' = t' \/ (t' = role_table w /\ roles_json w' = roles_json w)) /\
  profiles_json w' = profiles_json w /\ custom_json w' = custom_json w /\
  whitelist_json w' = whitelist_json w /\
  CacheData_custom w' = CacheData_custom w /\
  CacheData_whitelist w' = CacheData_whitelist w.

(** [profiles[account_id]["profiles"]] after the loop of [update_profile]
    over [allprofiles]. *)
Definition merge_profiles (allprofiles known : list string) : list string :=
  fold_left (fun acc x => if list_mem x acc then acc else acc ++ [x])
    allprofiles known.

(** Every entry of a role table has duplicate-free ids and duplicate-free
    commands. *)
Definition members_and_commands_unique (t : dict Role) : Prop :=
  Forall (fun entry => NoDup (ids (snd entry)) /\ NoDup (commands (snd entry))) t.

(** A call that brings no duplicates of its own: [update_toppers] stores
    the list it is given as it is. *)
Definition brings_no_duplicates (c : role_call) : Prop :=
  match c with
  | UpdateToppers topper_list => NoDup topper_list
  | _ => True
  end.

(** [profiles[account_id]["display_string"]], a list, after the first
    branch of [update_profile]. *)
Definition history_with (display_string : option string)
    (known : list string) : list string :=
  match display_string with
  | Some ds => if list_mem ds known then known else known ++ [ds]
  | None => known
  end.

(** The entry [update_profile] leaves for an account whose stored display
    strings are the list [known]. *)
Definition updated_profile (display_string : option string)
    (allprofiles : option (list string)) (new_name : option string)
    (known : list string) (p : Profile) : Profile :=
  mkProfile (DList (history_with display_string known))
    (merge_profiles (default [] allprofiles) (profiles p))
    (default (name p) new_name) (isBan p) (isMuted p) (accountAge p)
    (registerOn p) (canStartKickVote p) (spamCount p) (lastSpam p)
    (totaltimeplayer p) (lastseen p).

(** Run the jobs of started threads one after the other. *)
Fixpoint run_jobs (jobs : list job) : M unit :=
  match jobs with
  | [] => ret tt
  | j :: jobs' => j ;;; run_jobs jobs'
  end.

(** The calls a user of the module can make: every function of pdata.py.
    The job of a thread started by [ban_player], [mute] or [unmute] is a
    call of [commit_profiles]. *)
Inductive module_call : Type :=
| CallCustom (c : custom_call)
| CallRole (c : role_call)
| GetInfo (account_id : string)
| GetProfiles
| CommitProfiles (document : dict Profile)
| AddProfile (account_id shown current_name : string) (account_age : Z)
| UpdateDisplayString (account_id shown : string)
| UpdateProfile (account_id : string) (shown : option string)
    (allprofiles : option (list string)) (new_name : option string)
| BanPlayer (account_id : string)
| Mute (account_id : string)
| Unmute (account_id : string)
| UpdateSpam (account_id : string) (spam_count : Z) (last_spam : timestamp)
| CommitRoles (data : loc)
| GetRoles
| LoadWhiteList.

(** The world a call leaves, whether it returned or raised. *)
Definition call_module (c : module_call) (w : World) : World :=
  match c with
  | CallCustom c => final (call_custom c w)
  | CallRole c => final (call_role c w)
  | GetInfo account_id => final (get_info account_id w)
  | GetProfiles => final (get_profiles w)
  | CommitProfiles document => final (commit_profiles document w)
  | AddProfile account_id shown current_name account_age =>
      final (add_profile account_id shown current_name account_age w)
  | UpdateDisplayString account_id shown =>
      final (update_display_string account_id shown w)
  | UpdateProfile account_id shown allprofiles new_name =>
      final (update_profile account_id shown allprofiles new_name w)
  | BanPlayer account_id => final (ban_player account_id w)
  | Mute account_id => final (mute account_id w)
  | Unmute account_id => final (unmute account_id w)
  | UpdateSpam account_id spam_count last_spam =>
      final (update_spam account_id spam_count last_spam w)
  | CommitRoles data => final (commit_roles data w)
  | GetRoles => final (get_roles w)
  | LoadWhiteList => final (load_white_list w)
  end.

(** The world after a caller made the calls one after the other, going on
    after a call that raised. *)
Fixpoint after_module_calls (calls : list module_call) (w : World) : World :=
  match calls with
  | [] => w
  | c :: calls' => after_module_calls calls' (call_module c w)
  end.

(** A call that is neither [set_effect] nor [remove_effect] for the
    account. *)
Definition spares_effect (account_id : string) (c : module_call) : Prop :=
  match c with
  | CallCustom (SetEffect _ a) | CallCustom (RemoveEffect a) => a <> account_id
  | _ => True
  end.

(** A call that is neither [set_tag] nor [remove_tag] for the account. *)
Definition spares_tag (account_id : string) (c : module_call) : Prop :=
  match c with
  | CallCustom (SetTag _ a) | CallCustom (RemoveTag a) => a <> account_id
  | _ => True
  end.

(** [CacheData.custom] maps the account to the string under the key. *)
Definition cached_under (key account_id value : string) (w : World) : Prop :=
  exists entries,
    dict_get key (CacheData_custom w) = Some entries /\
    dict_get account_id entries = Some value.

(** A computation that leaves [CacheData.custom] as it is, whether it
    returns or raises. *)
Definition keeps_custom_cache {A} (m : M A) : Prop :=
  forall w, CacheData_custom (final (m w)) = CacheData_custom w.

(** * Properties *)

(** ** Dicts and lists *)

Section Dicts.
Context {V : Type}.
Implicit Types (k : string) (v : V) (d : dict V).

Lemma dict_get_set_eq k v d : dict_get k (dict_set k v d) = Some v.
Proof.
  induction d as [|[k' v'] d IH]; simpl.
  - by rewrite String.eqb_refl.
  - destruct (String.eqb k k') eqn:E; simpl; rewrite ?String.eqb_refl, ?E; done.
Qed.

Lemma dict_get_set_ne k k' v d :
  k <> k' -> dict_get k' (dict_set k v d) = dict_get k' d.
Proof.
  intros Hne. induction d as [|[k0 v0] d IH]; simpl.
  - destruct (String.eqb_spec k' k); congruence.
  - destruct (String.eqb_spec k k0) as [->|Hk]; simpl.
    + destruct (String.eqb_spec k' k0); congruence.
    + destruct (String.eqb_spec k' k0); congruence.
Qed.

Lemma dict_mem_get k d : dict_mem k d = true <-> exists v, dict_get k d = Some v.
Proof.
  unfold dict_mem. destruct (dict_get k d); split; try done; eauto.
  intros [v ?]; done.
Qed.

Lemma dict_mem_false k d : dict_mem k d = false <-> dict_get k d = None.
Proof. unfold dict_mem. destruct (dict_get k d); split; done. Qed.

Lemma dict_set_not_empty k v d : dict_is_empty (dict_set k v d) = false.
Proof. destruct d as [|[k' v'] d]; simpl; [done|]. by destruct (String.eqb k k'). Qed.

Lemma dict_get_elem k v d : dict_get k d = Some v -> (k, v) ∈ d.
Proof.
  induction d as [|[k' v'] d IH]; simpl; [done|].
  destruct (String.eqb_spec k k') as [->|Hk].
  - intros [= ->]. left.
  - intros H. right. auto.
Qed.

(** Assigning to a key replaces one entry or adds one. *)
Lemma dict_set_Forall (P : string * V -> Prop) k v d :
  Forall P d -> P (k, v) -> Forall P (dict_set k v d).
Proof.
  intros Hd Hv. induction Hd as [|[k' v'] d Hx Hd IH]; simpl.
  - by constructor.
  - destruct (String.eqb k k'); constructor; auto.
Qed.

(** Assigning to a key that is present keeps the iteration order. *)
Lemma dict_set_keys k v d :
  dict_mem k d = true -> dict_keys (dict_set k v d) = dict_keys d.
Proof.
  unfold dict_mem. induction d as [|[k' v'] d IH]; simpl; [done|].
  destruct (String.eqb_spec k k') as [->|Hk]; simpl; [done|].
  intros H. by rewrite IH.
Qed.

(** Assigning to a key that is absent puts it last. *)
Lemma dict_set_keys_new k v d :
  dict_mem k d = false -> dict_keys (dict_set k v d) = dict_keys d ++ [k].
Proof.
  unfold dict_mem. induction d as [|[k' v'] d IH]; simpl; [done|].
  destruct (String.eqb_spec k k') as [->|Hk]; simpl; [done|].
  intros H. by rewrite IH.
Qed.

Lemma dict_get_keys k d : dict_mem k d = true <-> k ∈ dict_keys d.
Proof.
  unfold dict_mem. induction d as [|[k' v'] d IH]; simpl.
  - split; [done|]. intros H. inversion H.
  - destruct (String.eqb_spec k k') as [->|Hk].
    + split; [|done]. intros _. left.
    + rewrite IH. split.
      * intros H. by right.
      * intros H. inversion H; subst; [done|]. assumption.
Qed.
(** Assignment keeps the keys of a dict distinct. *)
Lemma dict_set_keys_NoDup k v d :
  NoDup (dict_keys d) -> NoDup (dict_keys (dict_set k v d)).
Proof.
  intros Hnd. destruct (dict_mem k d) eqn:Hk.
  - by rewrite dict_set_keys.
  - rewrite dict_set_keys_new by done.
    apply NoDup_app. split; [done|]. split; [|apply NoDup_singleton].
    intros x Hx Hx'. apply list_elem_of_singleton in Hx' as ->.
    apply dict_get_keys in Hx. congruence.
Qed.

End Dicts.

Lemma list_mem_elem x l : list_mem x l = true <-> x ∈ l.
Proof.
  unfold list_mem. induction l as [|y l IH]; simpl.
  - split; [done|]. intros H. inversion H.
  - destruct (String.eqb_spec x y) as [->|Hxy]; simpl.
    + split; [|done]. intros _. left.
    + rewrite IH. split.
      * intros H. by right.
      * intros H. inversion H; subst; [done|]. assumption.
Qed.

Lemma list_mem_not_elem x l : list_mem x l = false <-> x ∉ l.
Proof.
  rewrite <- list_mem_elem. destruct (list_mem x l); split; done.
Qed.

Lemma list_remove_None x l : list_remove x l = None <-> x ∉ l.
Proof.
  induction l as [|y l IH]; simpl.
  - split; [|done]. intros _ H. inversion H.
  - destruct (String.eqb_spec x y) as [->|Hxy].
    + split; [done|]. intros H. destruct H. left.
    + destruct (list_remove x l) eqn:E; simpl.
      * split; [done|]. intros H. exfalso.
        assert (x ∉ l) as Hl by (intros Hin; apply H; by right).
        apply IH in Hl. done.
      * split; [|done]. intros _ H. inversion H; subst; [done|].
        by apply (proj1 IH).
Qed.

(** Removing from a duplicate-free list leaves no occurrence behind. *)
Lemma list_remove_NoDup x l l' :
  NoDup l -> list_remove x l = Some l' -> (x ∉ l') /\ NoDup l'.
Proof.
  intros Hl. revert l'. induction Hl as [|y l Hy Hl IH]; simpl; [done|].
  intros l'. destruct (String.eqb_spec x y) as [->|Hxy].
  - intros [= ->]. done.
  - destruct (list_remove x l) as [l0|] eqn:E; simpl; [|done].
    intros [= <-]. destruct (IH l0 eq_refl) as [Hx Hnd]. split.
    + intros H. inversion H; subst; done.
    + constructor; [|done]. intros Hin. apply Hy.
      clear -E Hin. revert l0 E Hin. induction l as [|z l IHl]; simpl; [done|].
      intros l0. destruct (String.eqb_spec x z) as [->|Hxz].
      * intros [= ->] Hin. by right.
      * destruct (list_remove x l) as [l1|] eqn:E1; simpl; [|done].
        intros [= <-] Hin. inversion Hin; subst; [left|right]. eauto.
Qed.

Lemma getitem_Some {V} (k : string) (d : dict V) (v : V) (w : World) :
  dict_get k d = Some v -> getitem k d w = (Ret v, w).
Proof. unfold getitem. by intros ->. Qed.

Lemma getitem_None {V} (k : string) (d : dict V) (w : World) :
  dict_get k d = None -> getitem k d w = (Raise KeyError, w).
Proof. unfold getitem. by intros ->. Qed.

(** ** Profiles *)

(** C6. For every account id, when profiles.json holds a mapping,
    [add_profile] followed by [get_info] for the same id returns a profile
    whose [isBan] and [isMuted] are [False], whose [canStartKickVote] is
    [True] and whose [spamCount] is 0. *)
Theorem add_profile_then_get_info
    (account_id display_string current_name : string) (account_age : Z)
    (w : World) (stored : dict Profile)
    (Hdoc : profiles_json w = Some stored) :
  exists (p : Profile) (w' : World),
    (add_profile account_id display_string current_name account_age ;;;
     get_info account_id) w = (Ret (Some p), w') /\
    isBan p = false /\ isMuted p = false /\
    canStartKickVote p = true /\ spamCount p = 0%Z.
Proof.
  unfold add_profile, get_info, bind, OpenJson.load_profiles, gets,
    commit_profiles, OpenJson.dump_profiles, modify, time_time.
  rewrite Hdoc. simpl.
  unfold getitem, dict_mem. rewrite !dict_get_set_eq. simpl.
  rewrite dict_get_set_eq.
  eexists _, _. split; [reflexivity|]. simpl. done.
Qed.

Lemma add_profile_then_get_info_witness :
  profiles_json (boot (Some []) [] [] []) = Some [] /\
  exists (p : Profile) (w' : World),
    (add_profile "pb-1" "Alice" "al" 30 ;;; get_info "pb-1")
      (boot (Some []) [] [] []) = (Ret (Some p), w') /\
    isBan p = false /\ isMuted p = false /\
    canStartKickVote p = true /\ spamCount p = 0%Z.
Proof.
  split; [reflexivity|].
  apply (add_profile_then_get_info "pb-1" "Alice" "al" 30
           (boot (Some []) [] [] []) []).
  reflexivity.
Defined.

(** What [update_display_string] does to a loaded profile document. *)
Lemma update_display_string_run (account_id s : string) (w : World)
    (stored : dict Profile) :
  profiles_json w = Some stored ->
  update_display_string account_id s w =
    match dict_get account_id stored with
    | Some p =>
        (Ret tt,
         set_profiles_json
           (Some (dict_set account_id (with_display_string (DStr s) p) stored)) w)
    | None => (Ret tt, w)
    end.
Proof.
  intros Hdoc.
  unfold update_display_string, get_profiles, bind, OpenJson.load_profiles, gets.
  rewrite Hdoc. unfold dict_mem, getitem.
  destruct (dict_get account_id stored) as [p|]; reflexivity.
Qed.

(** C2, refuted as written. After [add_profile] records "Alice" for pb-1,
    [update_display_string("pb-1", "Bob")] leaves "Bob" alone under
    ["display_string"]: the earlier entry is gone. *)
Lemma update_display_string_drops_history : ~ update_display_string_appends.
Proof.
  intros Happ.
  pose (w := final (add_profile "pb-1" "Alice" "al" 30 (boot (Some []) [] [] []))).
  destruct (Happ "pb-1" "Bob" w
              [("pb-1", mkProfile (DStr "Alice") [] "al" false false 30%Z 0%Z
                          true 0%Z 1%Z 0%Z 0%Z)]
              (mkProfile (DStr "Alice") [] "al" false false 30%Z 0%Z
                 true 0%Z 1%Z 0%Z 0%Z) eq_refl eq_refl)
    as (stored' & p' & Hdoc & Hget & _ & Hold).
  vm_compute in Hdoc. injection Hdoc as <-.
  vm_compute in Hget. injection Hget as <-.
  specialize (Hold "Alice"). simpl in Hold.
  assert ("Alice" ∈ ["Bob"]) as Hin by (apply Hold; left).
  apply list_elem_of_In in Hin. simpl in Hin.
  destruct Hin as [Hin|[]]. discriminate Hin.
Qed.

(** C2, amended. For an account id present in the profile document,
    [update_display_string(id, s)] replaces the value under
    ["display_string"] by [s] alone, leaves every other field and every
    other account as they were, and writes the document back; for an id
    that is absent it changes nothing. *)
Theorem update_display_string_overwrites
    (account_id s : string) (w : World) (stored : dict Profile)
    (Hdoc : profiles_json w = Some stored) :
  (forall p, dict_get account_id stored = Some p ->
     exists w',
       update_display_string account_id s w = (Ret tt, w') /\
       profiles_json w' =
         Some (dict_set account_id (with_display_string (DStr s) p) stored) /\
       (exists p', get_info account_id w' = (Ret (Some p'), w') /\
                   display_string p' = DStr s /\
                   with_display_string (display_string p) p' = p) /\
       (forall other, other <> account_id ->
          result (get_info other w') = result (get_info other w))) /\
  (dict_get account_id stored = None ->
     update_display_string account_id s w = (Ret tt, w)).
Proof.
  rewrite (update_display_string_run account_id s w stored Hdoc). split.
  - intros p Hp. rewrite Hp. eexists. split; [reflexivity|].
    split; [reflexivity|]. split.
    + exists (with_display_string (DStr s) p).
      unfold get_info, bind, OpenJson.load_profiles, gets. simpl.
      unfold dict_mem, getitem. rewrite dict_get_set_eq. simpl.
      split; [reflexivity|]. split; [reflexivity|]. by destruct p.
    + intros other Hne.
      unfold get_info, bind, OpenJson.load_profiles, gets. simpl.
      rewrite Hdoc. unfold dict_mem, getitem.
      rewrite dict_get_set_ne by congruence.
      destruct (dict_get other stored); reflexivity.
  - intros Hp. by rewrite Hp.
Qed.

Lemma update_display_string_overwrites_witness :
  let w := set_profiles_json
             (Some [("pb-1", mkProfile (DList ["Alice"]) [] "al" false false
                               30%Z 0%Z true 0%Z 1%Z 0%Z 0%Z)])
             (boot None [] [] []) in
  profiles_json w =
    Some [("pb-1", mkProfile (DList ["Alice"]) [] "al" false false
                     30%Z 0%Z true 0%Z 1%Z 0%Z 0%Z)] /\
  exists w', update_display_string "pb-1" "Bob" w = (Ret tt, w') /\
             profiles_json w' =
               Some [("pb-1", mkProfile (DStr "Bob") [] "al" false false
                                30%Z 0%Z true 0%Z 1%Z 0%Z 0%Z)].
Proof.
  intros w. split; [reflexivity|].
  destruct (proj1 (update_display_string_overwrites "pb-1" "Bob" w _ eq_refl)
              _ eq_refl) as (w' & Hrun & Hdoc & _).
  exists w'. split; [exact Hrun|exact Hdoc].
Defined.

(** C10. When profiles.json loads as a mapping that lacks the account id,
    [update_profile] called with a display string only returns normally and
    writes the loaded mapping back as it was, whereas a call with a
    non-empty [allprofiles] or with a [name] raises [KeyError] and writes
    nothing: only the display-string branch tests [account_id in profiles]. *)
Theorem update_profile_absent_account
    (account_id : string) (w : World) (stored : dict Profile)
    (Hdoc : profiles_json w = Some stored)
    (Habsent : dict_get account_id stored = None) :
  (forall ds,
     update_profile account_id (Some ds) None None w =
       (Ret tt, set_profiles_json (Some stored) w)) /\
  (forall display_string first rest name,
     update_profile account_id display_string (Some (first :: rest)) name w =
       (Raise KeyError, w)) /\
  (forall display_string allprofiles n,
     update_profile account_id display_string allprofiles (Some n) w =
       (Raise KeyError, w)).
Proof.
  assert (dict_mem account_id stored = false) as Hmem
    by (by apply dict_mem_false).
  repeat split.
  - intros ds. unfold update_profile, bind, OpenJson.load_profiles, gets.
    rewrite Hdoc, Hmem. reflexivity.
  - intros ds first rest nm.
    unfold update_profile, bind, OpenJson.load_profiles, gets.
    rewrite Hdoc. destruct ds as [ds|]; rewrite ?Hmem; simpl;
      unfold bind; rewrite (getitem_None _ _ _ Habsent); reflexivity.
  - intros ds ap n.
    unfold update_profile, bind, OpenJson.load_profiles, gets.
    rewrite Hdoc.
    destruct ds as [ds|]; rewrite ?Hmem; simpl;
      destruct ap as [[|first rest]|]; simpl; unfold bind;
      rewrite (getitem_None _ _ _ Habsent); reflexivity.
Qed.

Lemma update_profile_absent_account_witness :
  let w := boot (Some []) [] [] [] in
  profiles_json w = Some [] /\
  dict_get "pb-9" ([] : dict Profile) = None /\
  update_profile "pb-9" (Some "Bob") None None w = (Ret tt, w) /\
  update_profile "pb-9" None (Some ["kid"]) None w = (Raise KeyError, w) /\
  update_profile "pb-9" None None (Some "bob") w = (Raise KeyError, w).
Proof.
  intros w.
  pose proof (update_profile_absent_account "pb-9" w [] eq_refl eq_refl)
    as (Hds & Hall & Hname).
  split; [reflexivity|]. split; [reflexivity|].
  split; [exact (Hds "Bob")|].
  split; [exact (Hall None "kid" [] None)|exact (Hname None None "bob")].
Defined.

(** An empty [allprofiles] runs no iteration of the loop, so it does not
    raise for an absent account. *)
Lemma update_profile_absent_account_empty_list
    (account_id : string) (ds : option string) (w : World)
    (stored : dict Profile) :
  profiles_json w = Some stored ->
  dict_get account_id stored = None ->
  update_profile account_id ds (Some []) None w =
    (Ret tt, set_profiles_json (Some stored) w).
Proof.
  intros Hdoc Habsent.
  unfold update_profile, bind, OpenJson.load_profiles, gets.
  rewrite Hdoc. destruct ds; [|reflexivity].
  by rewrite (proj2 (dict_mem_false _ _) Habsent).
Qed.

(** ** Whitelist *)

Lemma load_white_list_loop (data : list string) (w : World) :
  for_each data
    (fun account_id =>
       modify (fun w =>
         set_CacheData_whitelist (CacheData_whitelist w ++ [account_id]) w)) w =
    (Ret tt, set_CacheData_whitelist (CacheData_whitelist w ++ data) w).
Proof.
  revert w. induction data as [|x data IH]; intros w; simpl.
  - unfold ret. rewrite app_nil_r. by destruct w.
  - unfold bind, modify. rewrite IH. simpl.
    by rewrite <- app_assoc.
Qed.

Lemma load_white_list_run (w : World) :
  load_white_list w =
    (Ret tt,
     set_CacheData_whitelist (CacheData_whitelist w ++ whitelist_json w) w).
Proof.
  unfold load_white_list, bind, OpenJson.load_whitelist, gets.
  apply load_white_list_loop.
Qed.

(** C9. Every call of [load_white_list] appends all entries of
    whitelist.json to [CacheData.whitelist], whatever it already holds:
    [n] calls over a document of [k] entries add [n * k] entries (so a
    whitelist that was empty holds [n * k]), and no call changes anything
    but [CacheData.whitelist]; the documents are left as they were. *)
Theorem load_white_list_repeats (n : nat) (w : World) :
  exists w',
    repeat_call n load_white_list w = (Ret tt, w') /\
    w' = set_CacheData_whitelist
           (CacheData_whitelist w ++ concat (replicate n (whitelist_json w))) w /\
    length (CacheData_whitelist w') =
      length (CacheData_whitelist w) + n * length (whitelist_json w) /\
    profiles_json w' = profiles_json w /\ roles_json w' = roles_json w /\
    custom_json w' = custom_json w /\ whitelist_json w' = whitelist_json w.
Proof.
  assert (repeat_call n load_white_list w =
            (Ret tt,
             set_CacheData_whitelist
               (CacheData_whitelist w ++ concat (replicate n (whitelist_json w))) w))
    as Hrun.
  { revert w. induction n as [|n IH]; intros w; simpl.
    - unfold ret. rewrite app_nil_r. by destruct w.
    - unfold bind. rewrite load_white_list_run, IH. simpl.
      by rewrite <- app_assoc. }
  eexists. split; [exact Hrun|]. split; [reflexivity|]. simpl.
  split; [|done].
  rewrite length_app. f_equal. clear Hrun.
  induction n as [|n IH]; simpl; [done|]. rewrite length_app. lia.
Qed.

(** ** Roles *)

(** [get_roles] returns an allocated object that holds the role table and
    that [CacheData.roles] refers to from then on. *)
Lemma get_roles_run (w : World) :
  exists (h : list (dict Role)) (l : loc),
    get_roles w = (Ret l, set_CacheData_roles l (set_heap h w)) /\
    h !! l = Some (role_table w).
Proof.
  unfold get_roles, role_table, bind, gets, deref, table_at. simpl.
  destruct (heap w !! CacheData_roles w) as [[|kv t]|] eqn:E; simpl.
  - exists (heap w ++ [roles_json w]), (length (heap w)).
    split; [reflexivity|]. by apply list_lookup_middle.
  - exists (heap w), (CacheData_roles w). split; [|exact E]. by destruct w.
  - exists (heap w ++ [roles_json w]), (length (heap w)).
    split; [reflexivity|]. by apply list_lookup_middle.
Qed.

Lemma role_table_located (h : list (dict Role)) (l : loc) (t : dict Role)
    (w : World) :
  h !! l = Some t -> dict_is_empty t = false ->
  role_table (set_CacheData_roles l (set_heap h w)) = t.
Proof.
  intros Hl Ht. unfold role_table, table_at. world_simpl. rewrite Hl. simpl.
  by rewrite Ht.
Qed.

Lemma role_table_get_roles (h : list (dict Role)) (l : loc) (w : World) :
  h !! l = Some (role_table w) ->
  role_table (set_CacheData_roles l (set_heap h w)) = role_table w.
Proof.
  intros Hl. destruct (dict_is_empty (role_table w)) eqn:Ht.
  - unfold role_table at 1, table_at. world_simpl. rewrite Hl. simpl.
    rewrite Ht. destruct (role_table w) eqn:Hrt; [|done].
    unfold role_table in Hrt.
    by destruct (dict_is_empty (table_at (CacheData_roles w) w)) eqn:Hc;
      [|rewrite Hrt in Hc].
  - by apply role_table_located.
Qed.

(** Looking the table up does not change what can be observed. *)
Lemma observe_get_roles (h : list (dict Role)) (l : loc) (w : World) :
  h !! l = Some (role_table w) ->
  observe (set_CacheData_roles l (set_heap h w)) = observe w.
Proof.
  intros Hl. unfold observe. rewrite (role_table_get_roles h l w Hl).
  reflexivity.
Qed.

(** Storing a non-empty table into the object, pointing [CacheData.roles]
    at it and committing it makes it both the role table and the content of
    roles.json. *)
Lemma store_and_commit (h : list (dict Role)) (l : loc) (t t' : dict Role)
    (w : World) :
  h !! l = Some t -> dict_is_empty t' = false ->
  exists w',
    (assign l t' ;;; modify (set_CacheData_roles l) ;;; commit_roles l)
      (set_CacheData_roles l (set_heap h w)) = (Ret tt, w') /\
    role_table w' = t' /\ roles_json w' = t' /\
    profiles_json w' = profiles_json w /\ custom_json w' = custom_json w /\
    whitelist_json w' = whitelist_json w /\
    CacheData_custom w' = CacheData_custom w /\
    CacheData_whitelist w' = CacheData_whitelist w /\
    stdout w' = stdout w.
Proof.
  intros Hl Ht'.
  assert ((<[l:=t']> h) !! l = Some t') as Hins
    by (apply list_lookup_insert_eq; by eapply lookup_lt_Some).
  unfold assign, commit_roles, deref, bind, modify, gets, table_at. world_simpl.
  rewrite Hins. simpl. rewrite Ht'. unfold OpenJson.format_roles, modify.
  eexists. split; [reflexivity|]. world_simpl.
  split; [|done]. unfold role_table, table_at. world_simpl. rewrite Hins. simpl.
  by rewrite Ht'.
Qed.

Lemma list_remove_Some_perm x l l' :
  list_remove x l = Some l' -> l ≡ₚ x :: l'.
Proof.
  revert l'. induction l as [|y l IH]; simpl; [done|].
  intros l'. destruct (String.eqb_spec x y) as [->|Hxy].
  - by intros [= ->].
  - destruct (list_remove x l) as [l0|]; simpl; [|done].
    intros [= <-]. rewrite (IH l0 eq_refl). apply Permutation_swap.
Qed.

(** C3. With the role table [t] of the current world:
    - if [role] is in [t] and [account_id] is among its ids,
      [remove_player_role] removes one occurrence of it (the only one when
      the ids are duplicate-free), makes the result the role table and the
      content of roles.json, and returns ["removed from " + role];
    - if [role] is not in [t], it returns ["role not exists"] and changes
      nothing observable;
    - if [role] is in [t] and [account_id] is not among its ids, it raises
      [ValueError] instead of returning a status, and changes nothing
      observable. *)
Theorem remove_player_role_cases (role account_id : string) (w : World) :
  (forall r, dict_get role (role_table w) = Some r -> account_id ∈ ids r ->
     exists remaining w',
       remove_player_role role account_id w =
         (Ret ("removed from " +:+ role), w') /\
       role_table w' = dict_set role (with_ids remaining r) (role_table w) /\
       roles_json w' = role_table w' /\
       ids r ≡ₚ account_id :: remaining /\
       (NoDup (ids r) -> account_id ∉ remaining)) /\
  (dict_get role (role_table w) = None ->
     exists w',
       remove_player_role role account_id w = (Ret "role not exists", w') /\
       observe w' = observe w) /\
  (forall r, dict_get role (role_table w) = Some r -> account_id ∉ ids r ->
     exists w',
       remove_player_role role account_id w = (Raise ValueError, w') /\
       observe w' = observe w).
Proof.
  destruct (get_roles_run w) as (h & l & Hget & Hl).
  repeat split.
  - intros r Hr Hin.
    destruct (list_remove account_id (ids r)) as [remaining|] eqn:Hrm;
      [|by apply list_remove_None in Hrm].
    destruct (store_and_commit h l _
                (dict_set role (with_ids remaining r) (role_table w)) w Hl
                (dict_set_not_empty _ _ _))
      as (w' & Hrun & Htab & Hjson & _).
    exists remaining, w'.
    split; [|split; [exact Htab|split; [congruence|split]]].
    + unfold remove_player_role, bind at 1. rewrite Hget.
      unfold bind at 1, deref, gets, table_at. world_simpl. rewrite Hl. simpl.
      rewrite (proj2 (dict_mem_get _ _) (ex_intro _ r Hr)).
      unfold bind at 1. rewrite (getitem_Some _ _ _ _ Hr), Hrm.
      unfold bind in Hrun |- *. simpl in Hrun |- *.
      destruct (commit_roles l _) as [[[]|e] w2]; [|done].
      by injection Hrun as <-.
    + by apply list_remove_Some_perm.
    + intros Hnd. by destruct (list_remove_NoDup _ _ _ Hnd Hrm).
  - intros Hr. eexists. split.
    + unfold remove_player_role, bind. rewrite Hget.
      unfold deref, gets, table_at. world_simpl. rewrite Hl. simpl.
      by rewrite (proj2 (dict_mem_false _ _) Hr).
    + by apply observe_get_roles.
  - intros r Hr Hin. eexists. split.
    + unfold remove_player_role, bind. rewrite Hget.
      unfold deref, gets, table_at. world_simpl. rewrite Hl. simpl.
      rewrite (proj2 (dict_mem_get _ _) (ex_intro _ r Hr)).
      rewrite (getitem_Some _ _ _ _ Hr).
      by rewrite (proj2 (list_remove_None _ _) Hin).
    + by apply observe_get_roles.
Qed.

Lemma remove_player_role_cases_witness :
  let w := boot (Some [])
             [("mods", mkRole "mods" [1; 1; 1]%Z [] ["pb-1"; "pb-2"])] [] [] in
  dict_get "mods" (role_table w) =
    Some (mkRole "mods" [1; 1; 1]%Z [] ["pb-1"; "pb-2"]) /\
  ("pb-1" ∈ ["pb-1"; "pb-2"]) /\
  dict_get "fake" (role_table w) = None /\
  ("pb-9" ∉ ["pb-1"; "pb-2"]) /\
  result (remove_player_role "mods" "pb-1" w) = Ret "removed from mods" /\
  result (remove_player_role "fake" "pb-1" w) = Ret "role not exists" /\
  result (remove_player_role "mods" "pb-9" w) = Raise ValueError.
Proof.
  intros w.
  assert ("pb-1" ∈ ["pb-1"; "pb-2"]) as Hin by (apply list_mem_elem; reflexivity).
  assert ("pb-9" ∉ ["pb-1"; "pb-2"]) as Hout
    by (apply list_mem_not_elem; reflexivity).
  pose proof (remove_player_role_cases "mods" "pb-1" w) as (Hremoved & _ & _).
  pose proof (remove_player_role_cases "fake" "pb-1" w) as (_ & Hunknown & _).
  pose proof (remove_player_role_cases "mods" "pb-9" w) as (_ & _ & Hraises).
  split; [reflexivity|]. split; [exact Hin|]. split; [reflexivity|].
  split; [exact Hout|]. split; [|split].
  - destruct (Hremoved _ eq_refl Hin) as (remaining & w' & Hrun & _).
    by rewrite Hrun.
  - destruct (Hunknown eq_refl) as (w' & Hrun & _). by rewrite Hrun.
  - destruct (Hraises _ eq_refl Hout) as (w' & Hrun & _). by rewrite Hrun.
Defined.

(** C4. With the role table [t] of the current world, [add_command_role]
    appends the command to the role's commands exactly when the role is in
    [t] and does not list the command yet; it then returns
    ["command added to " + role], and the new table is both the role table
    and the content of roles.json. When the role is not in [t], and when
    the role lists the command already, it returns the same
    ["command not exists"] and changes nothing observable. *)
Theorem add_command_role_cases (role command : string) (w : World) :
  (forall r, dict_get role (role_table w) = Some r -> command ∉ commands r ->
     exists w',
       add_command_role role command w =
         (Ret ("command added to " +:+ role), w') /\
       role_table w' =
         dict_set role (with_commands (commands r ++ [command]) r)
           (role_table w) /\
       roles_json w' = role_table w') /\
  (dict_get role (role_table w) = None ->
     exists w',
       add_command_role role command w = (Ret "command not exists", w') /\
       observe w' = observe w) /\
  (forall r, dict_get role (role_table w) = Some r -> command ∈ commands r ->
     exists w',
       add_command_role role command w = (Ret "command not exists", w') /\
       observe w' = observe w).
Proof.
  destruct (get_roles_run w) as (h & l & Hget & Hl).
  repeat split.
  - intros r Hr Hnew.
    destruct (store_and_commit h l _
                (dict_set role (with_commands (commands r ++ [command]) r)
                   (role_table w)) w Hl (dict_set_not_empty _ _ _))
      as (w' & Hrun & Htab & Hjson & _).
    exists w'. split; [|split; [exact Htab|congruence]].
    unfold add_command_role, bind at 1. rewrite Hget.
    unfold bind at 1, deref, gets, table_at. world_simpl. rewrite Hl. simpl.
    rewrite (proj2 (dict_mem_get _ _) (ex_intro _ r Hr)).
    unfold bind at 1. rewrite (getitem_Some _ _ _ _ Hr).
    rewrite (proj2 (list_mem_not_elem _ _) Hnew). simpl.
    unfold bind in Hrun |- *. simpl in Hrun |- *.
    destruct (commit_roles l _) as [[[]|e] w2]; [|done].
    by injection Hrun as <-.
  - intros Hr. eexists. split.
    + unfold add_command_role, bind. rewrite Hget.
      unfold deref, gets, table_at. world_simpl. rewrite Hl. simpl.
      by rewrite (proj2 (dict_mem_false _ _) Hr).
    + by apply observe_get_roles.
  - intros r Hr Hin. eexists. split.
    + unfold add_command_role, bind. rewrite Hget.
      unfold deref, gets, table_at. world_simpl. rewrite Hl. simpl.
      rewrite (proj2 (dict_mem_get _ _) (ex_intro _ r Hr)).
      rewrite (getitem_Some _ _ _ _ Hr).
      by rewrite (proj2 (list_mem_elem _ _) Hin).
    + by apply observe_get_roles.
Qed.

Lemma add_command_role_cases_witness :
  let w := boot (Some [])
             [("mods", mkRole "mods" [1; 1; 1]%Z ["ban"] [])] [] [] in
  dict_get "mods" (role_table w) = Some (mkRole "mods" [1; 1; 1]%Z ["ban"] []) /\
  ("kick" ∉ ["ban"]) /\
  dict_get "fake" (role_table w) = None /\
  ("ban" ∈ ["ban"]) /\
  result (add_command_role "mods" "kick" w) = Ret "command added to mods" /\
  result (add_command_role "fake" "kick" w) = Ret "command not exists" /\
  result (add_command_role "mods" "ban" w) = Ret "command not exists".
Proof.
  intros w.
  assert ("ban" ∈ ["ban"]) as Hin by (apply list_mem_elem; reflexivity).
  assert ("kick" ∉ ["ban"]) as Hout by (apply list_mem_not_elem; reflexivity).
  pose proof (add_command_role_cases "mods" "kick" w) as (Hadded & _ & _).
  pose proof (add_command_role_cases "fake" "kick" w) as (_ & Hunknown & _).
  pose proof (add_command_role_cases "mods" "ban" w) as (_ & _ & Hpresent).
  split; [reflexivity|]. split; [exact Hout|]. split; [reflexivity|].
  split; [exact Hin|]. split; [|split].
  - destruct (Hadded _ eq_refl Hout) as (w' & Hrun & _). by rewrite Hrun.
  - destruct (Hunknown eq_refl) as (w' & Hrun & _). by rewrite Hrun.
  - destruct (Hpresent _ eq_refl Hin) as (w' & Hrun & _). by rewrite Hrun.
Defined.

(** The scenario of the specification: after [create_role("mods")],
    adding "kick" to "mods" reports success and adding it to "fake" reports
    the not-found wording. *)
Example add_command_role_scenario :
  result ((create_role "mods" ;;;
           let* a := add_command_role "mods" "kick" in
           let* b := add_command_role "fake" "kick" in
           ret (a, b)) (boot (Some []) [] [] []))
  = Ret ("command added to mods", "command not exists").
Proof. reflexivity. Qed.

Lemma add_member_ids_unique role account_id t :
  ids_unique t -> ids_unique (add_member role account_id t).
Proof.
  intros Ht. unfold add_member.
  destruct (dict_get role t) as [r|] eqn:Hr; [|done].
  destruct (list_mem account_id (ids r)) eqn:Hin; [done|].
  apply dict_set_Forall; [done|]. simpl.
  apply dict_get_elem in Hr.
  pose proof (proj1 (Forall_forall _ _) Ht _ Hr) as Hnd. simpl in Hnd.
  apply NoDup_app. split; [done|]. split; [|apply NoDup_singleton].
  intros x Hx Hx'. apply list_elem_of_singleton in Hx' as ->.
  by apply list_mem_not_elem in Hin.
Qed.

(** [add_player_role] always returns, turns the role table into
    [add_member] of it, and leaves roles.json either as it was or equal to
    the new role table. *)
Lemma add_player_role_run (role account_id : string) (w : World) :
  exists w',
    add_player_role role account_id w = (Ret tt, w') /\
    role_table w' = add_member role account_id (role_table w) /\
    (roles_json w' = roles_json w \/ roles_json w' = role_table w').
Proof.
  destruct (get_roles_run w) as (h & l & Hget & Hl).
  unfold add_player_role, bind at 1. rewrite Hget.
  unfold bind at 1, deref, gets, table_at. world_simpl. rewrite Hl. simpl.
  unfold add_member, dict_mem.
  destruct (dict_get role (role_table w)) as [r|] eqn:Hr.
  - unfold bind at 1. rewrite (getitem_Some _ _ _ _ Hr).
    destruct (list_mem account_id (ids r)) eqn:Hin; simpl.
    + eexists. split; [reflexivity|]. split; [|by left].
      by apply role_table_get_roles.
    + destruct (store_and_commit h l _
                  (dict_set role (with_ids (ids r ++ [account_id]) r)
                     (role_table w)) w Hl (dict_set_not_empty _ _ _))
        as (w' & Hrun & Htab & Hjson & _).
      exists w'. split; [exact Hrun|]. split; [exact Htab|]. right. congruence.
  - eexists. split; [reflexivity|]. split; [|by left].
    unfold role_table, table_at. world_simpl.
    change (role_table (set_CacheData_roles l (set_heap h w)) = role_table w).
    by apply role_table_get_roles.
Qed.

(** C7. Started on a role table whose entries all have duplicate-free ids,
    any finite sequence of [add_player_role] calls runs to the end and
    leaves a role table whose entries all have duplicate-free ids, however
    often a pair is repeated; if roles.json was duplicate-free as well, it
    still is. *)
Theorem add_player_roles_no_duplicates
    (calls : list (string * string)) (w : World)
    (Hunique : ids_unique (role_table w)) :
  exists w',
    add_player_roles calls w = (Ret tt, w') /\
    ids_unique (role_table w') /\
    (ids_unique (roles_json w) -> ids_unique (roles_json w')).
Proof.
  revert w Hunique. induction calls as [|[role account_id] calls IH];
    intros w Hunique; simpl.
  - exists w. done.
  - destruct (add_player_role_run role account_id w) as (w1 & Hrun & Htab & Hjson).
    assert (ids_unique (role_table w1)) as Hunique1
      by (rewrite Htab; by apply add_member_ids_unique).
    destruct (IH w1 Hunique1) as (w' & Hrest & Hfinal & Hstored).
    exists w'. unfold add_player_roles in *. simpl. unfold bind at 1. simpl.
    rewrite Hrun. split; [exact Hrest|]. split; [exact Hfinal|].
    intros Hdoc. apply Hstored. destruct Hjson as [-> | ->]; done.
Qed.

Lemma add_player_roles_no_duplicates_witness :
  let w := boot (Some [])
             [("mods", mkRole "mods" [1; 1; 1]%Z [] ["pb-1"])] [] [] in
  ids_unique (role_table w) /\
  exists w',
    add_player_roles
      [("mods", "pb-2"); ("mods", "pb-2"); ("mods", "pb-1"); ("vip", "pb-2")] w
      = (Ret tt, w') /\
    ids_unique (role_table w').
Proof.
  intros w.
  assert (ids_unique (role_table w)) as Hunique.
  { repeat constructor. intros H. inversion H. }
  split; [exact Hunique|].
  destruct (add_player_roles_no_duplicates
              [("mods", "pb-2"); ("mods", "pb-2"); ("mods", "pb-1"); ("vip", "pb-2")]
              w Hunique) as (w' & Hrun & Hfinal & _).
  exists w'. split; [exact Hrun|exact Hfinal].
Defined.

(** One iteration of the loop of [get_player_roles]. *)
Lemma get_player_roles_iteration (account_id role : string) (l : loc)
    (t : dict Role) (have_roles : list string) (w : World) :
  table_at l w = t ->
  (let* now := deref l in
   let* r := getitem role now in
   if list_mem account_id (ids r) then ret (have_roles ++ [role])
   else ret have_roles) w =
  match dict_get role t with
  | Some r =>
      (Ret (if list_mem account_id (ids r) then have_roles ++ [role]
            else have_roles), w)
  | None => (Raise KeyError, w)
  end.
Proof.
  intros Ht. unfold bind, deref, gets, getitem, ret, raise. rewrite Ht.
  destruct (dict_get role t) as [r|]; [|done].
  by destruct (list_mem account_id (ids r)).
Qed.

(** The loop of [get_player_roles] over a run of keys of the table. *)
Lemma get_player_roles_loop (account_id : string) (l : loc) (t : dict Role)
    (keys have_roles : list string) (w : World) :
  table_at l w = t ->
  for_acc keys
    (fun have_roles role =>
       let* now := deref l in
       let* r := getitem role now in
       if list_mem account_id (ids r) then ret (have_roles ++ [role])
       else ret have_roles)
    have_roles w =
  match forallb (fun role => dict_mem role t) keys with
  | true =>
      (Ret (have_roles ++
            List.filter
              (fun role =>
                 match dict_get role t with
                 | Some r => list_mem account_id (ids r)
                 | None => false
                 end) keys), w)
  | false => (Raise KeyError, w)
  end.
Proof.
  intros Ht. revert have_roles.
  induction keys as [|role keys IH]; intros have_roles; simpl.
  - unfold ret. by rewrite app_nil_r.
  - unfold bind at 1.
    rewrite (get_player_roles_iteration account_id role l t have_roles w Ht).
    unfold dict_mem.
    destruct (dict_get role t) as [r|] eqn:Hr; simpl; [|done].
    rewrite IH. destruct (forallb _ keys); [|done].
    destruct (list_mem account_id (ids r)); [|done].
    by rewrite <- app_assoc.
Qed.

(** In a dict, whose keys are distinct, selecting keys by what they map to
    is selecting entries. *)
Lemma filter_keys_entries {V} (P : V -> bool) (t : dict V) :
  NoDup (dict_keys t) ->
  List.filter
    (fun k => match dict_get k t with Some v => P v | None => false end)
    (dict_keys t) =
  map fst (List.filter (fun entry => P (snd entry)) t).
Proof.
  induction t as [|[k v] t IH]; simpl; [done|].
  intros Hnd. apply NoDup_cons in Hnd as [Hk Hnd].
  rewrite String.eqb_refl.
  assert (List.filter
            (fun k0 =>
               match (if String.eqb k0 k then Some v else dict_get k0 t) with
               | Some v0 => P v0
               | None => false
               end) (dict_keys t) =
          List.filter
            (fun k0 => match dict_get k0 t with Some v0 => P v0 | None => false end)
            (dict_keys t)) as ->.
  { apply filter_ext_in. intros k0 Hin.
    destruct (String.eqb_spec k0 k) as [->|Hne]; [|done].
    destruct Hk. by apply list_elem_of_In. }
  rewrite (IH Hnd). by destruct (P v).
Qed.

Lemma forallb_keys_mem {V} (t : dict V) :
  forallb (fun k => dict_mem k t) (dict_keys t) = true.
Proof.
  apply forallb_forall. intros k Hk.
  apply dict_get_keys. by apply list_elem_of_In.
Qed.

(** C8. For every role table (a dict, so with distinct role names) and
    every account id, [get_player_roles] returns the names of exactly the
    roles whose ids contain the account id, in the order in which the table
    lists them (the empty list when no role contains it), and changes
    nothing observable. *)
Theorem get_player_roles_spec (account_id : string) (w : World)
    (Hkeys : NoDup (dict_keys (role_table w))) :
  exists w',
    get_player_roles account_id w =
      (Ret (roles_holding account_id (role_table w)), w') /\
    observe w' = observe w /\
    (forall role,
       role ∈ roles_holding account_id (role_table w) <->
       exists r, dict_get role (role_table w) = Some r /\ account_id ∈ ids r) /\
    ((forall role r, dict_get role (role_table w) = Some r ->
                     account_id ∉ ids r) ->
     roles_holding account_id (role_table w) = []).
Proof.
  destruct (get_roles_run w) as (h & l & Hget & Hl).
  assert (roles_holding account_id (role_table w) =
          List.filter
            (fun role =>
               match dict_get role (role_table w) with
               | Some r => list_mem account_id (ids r)
               | None => false
               end) (dict_keys (role_table w))) as Hsel.
  { unfold roles_holding.
    by rewrite (filter_keys_entries (fun r => list_mem account_id (ids r))). }
  assert (forall role,
            role ∈ roles_holding account_id (role_table w) <->
            exists r, dict_get role (role_table w) = Some r /\
                      account_id ∈ ids r) as Hchar.
  { intros role. rewrite Hsel, list_elem_of_In, filter_In, <- list_elem_of_In.
    split.
    - intros [_ Hsome]. destruct (dict_get role (role_table w)) as [r|]; [|done].
      exists r. split; [done|]. by apply list_mem_elem.
    - intros (r & Hr & Hin). split.
      + apply dict_get_keys. apply dict_mem_get. eauto.
      + rewrite Hr. by apply list_mem_elem. }
  eexists. split; [|split; [|split; [exact Hchar|]]].
  - unfold get_player_roles, bind at 1. rewrite Hget.
    unfold bind at 1, deref at 1, gets, table_at. world_simpl. rewrite Hl.
    simpl default.
    rewrite (get_player_roles_loop account_id l (role_table w)).
    + rewrite forallb_keys_mem. simpl. by rewrite Hsel.
    + unfold table_at. world_simpl. by rewrite Hl.
  - by apply observe_get_roles.
  - intros Hnone.
    destruct (roles_holding account_id (role_table w)) as [|role rest] eqn:E;
      [done|].
    assert (role ∈ role :: rest) as Hin by left.
    apply Hchar in Hin as (r & Hr & Hin). by destruct (Hnone role r Hr).
Qed.

Lemma get_player_roles_spec_witness :
  let w := boot (Some [])
             [("vip", mkRole "vip" [1; 1; 1]%Z [] ["pb-1"; "pb-2"]);
              ("admin", mkRole "admin" [1; 1; 1]%Z [] ["pb-1"]);
              ("mods", mkRole "mods" [1; 1; 1]%Z [] ["pb-3"; "pb-1"])] [] [] in
  NoDup (dict_keys (role_table w)) /\
  exists w',
    get_player_roles "pb-1" w = (Ret ["vip"; "admin"; "mods"], w') /\
    observe w' = observe w.
Proof.
  intros w.
  assert (NoDup (dict_keys (role_table w))) as Hkeys.
  { change (NoDup ["vip"; "admin"; "mods"]).
    apply (bool_decide_unpack _). vm_compute. exact I. }
  split; [exact Hkeys|].
  destruct (get_player_roles_spec "pb-1" w Hkeys) as (w' & Hrun & Hobs & _).
  exists w'. split; [exact Hrun|exact Hobs].
Defined.

(** *** [update_toppers] *)

Lemma get_roles_hit (w : World) :
  dict_is_empty (table_at (CacheData_roles w) w) = false ->
  get_roles w = (Ret (CacheData_roles w), w).
Proof. intros H. unfold get_roles, bind, deref, gets. by rewrite H. Qed.

Lemma get_roles_miss (w : World) :
  dict_is_empty (table_at (CacheData_roles w) w) = true ->
  get_roles w =
    (Ret (length (heap w)),
     set_CacheData_roles (length (heap w))
       (set_heap (heap w ++ [roles_json w]) w)).
Proof. intros H. unfold get_roles, bind, deref, gets. by rewrite H. Qed.

Lemma commit_roles_run (data : loc) (w : World) :
  commit_roles data w =
    (Ret tt,
     if dict_is_empty (table_at data w) then w
     else set_roles_json (table_at data w) w).
Proof.
  unfold commit_roles, bind, deref, gets.
  by destruct (dict_is_empty (table_at data w)).
Qed.

Lemma create_role_run (role : string) (w : World) :
  create_role role w =
    match get_roles w with
    | (Ret roles, w1) =>
        if dict_mem role (table_at roles w1) then (Ret tt, w1)
        else
          let t := dict_set role (mkRole role [1; 1; 1]%Z [] [])
                     (table_at roles w1) in
          let w2 := set_CacheData_roles roles
                      (set_heap (<[roles := t]> (heap w1)) w1) in
          (Ret tt,
           if dict_is_empty (table_at roles w2) then w2
           else set_roles_json (table_at roles w2) w2)
    | (Raise e, w1) => (Raise e, w1)
    end.
Proof.
  unfold create_role, bind at 1. destruct (get_roles w) as [[roles|e] w1]; [|done].
  unfold bind at 1, deref at 1, gets.
  destruct (dict_mem role (table_at roles w1)); [done|].
  unfold bind, assign, modify. by rewrite commit_roles_run.
Qed.

(** [update_toppers], statement by statement. *)
Lemma update_toppers_run (topper_list : list string) (w : World) :
  update_toppers topper_list w =
    match get_roles w with
    | (Ret roles, w1) =>
        match (if negb (dict_mem "top5" (table_at roles w1))
               then create_role "top5" w1 else (Ret tt, w1)) with
        | (Ret _, w2) =>
            match dict_get "top5" (table_at (CacheData_roles w2) w2) with
            | Some r =>
                let w3 :=
                  set_heap
                    (<[CacheData_roles w2 :=
                         dict_set "top5" (with_ids topper_list r)
                           (table_at (CacheData_roles w2) w2)]> (heap w2)) w2 in
                (Ret tt,
                 if dict_is_empty (table_at roles w3) then w3
                 else set_roles_json (table_at roles w3) w3)
            | None => (Raise KeyError, w2)
            end
        | (Raise e, w2) => (Raise e, w2)
        end
    | (Raise e, w1) => (Raise e, w1)
    end.
Proof.
  unfold update_toppers, bind at 1.
  destruct (get_roles w) as [[roles|e] w1]; [|done].
  unfold bind at 1, deref at 1, gets at 1. unfold bind at 1.
  assert ((if negb (dict_mem "top5" (table_at roles w1))
           then create_role "top5" else ret tt) w1 =
          (if negb (dict_mem "top5" (table_at roles w1))
           then create_role "top5" w1 else (Ret tt, w1))) as ->
    by (by destruct (dict_mem "top5" (table_at roles w1))).
  destruct (if negb (dict_mem "top5" (table_at roles w1))
            then create_role "top5" w1 else (Ret tt, w1)) as [[[]|e] w2];
    [|done].
  unfold bind at 1, gets at 1. unfold bind at 1, deref at 1, gets at 1.
  unfold bind at 1, getitem.
  destruct (dict_get "top5" (table_at (CacheData_roles w2) w2)) as [r|];
    [|done].
  unfold ret at 1, bind, assign, modify. by rewrite commit_roles_run.
Qed.

Lemma with_top5_get (t : dict Role) :
  exists r, dict_get "top5" (with_top5 t) = Some r /\
            (dict_get "top5" t = None -> r = top5_default) /\
            (forall r0, dict_get "top5" t = Some r0 -> r = r0).
Proof.
  unfold with_top5, dict_mem.
  destruct (dict_get "top5" t) as [r0|] eqn:E.
  - exists r0. rewrite E. split; [done|]. split; [done|]. by intros ? [= ->].
  - exists top5_default. rewrite dict_get_set_eq. done.
Qed.

Lemma set_toppers_ids (topper_list : list string) (t : dict Role) :
  exists r, dict_get "top5" (set_toppers topper_list t) = Some r /\
            ids r = topper_list.
Proof.
  unfold set_toppers. destruct (with_top5_get t) as (r & -> & _).
  exists (with_ids topper_list r). by rewrite dict_get_set_eq.
Qed.

Lemma dict_set_set {V} (k : string) (v v' : V) (d : dict V) :
  dict_set k v' (dict_set k v d) = dict_set k v' d.
Proof.
  induction d as [|[k0 v0] d IH]; simpl.
  - by rewrite String.eqb_refl.
  - destruct (String.eqb k k0) eqn:E; simpl.
    + by rewrite String.eqb_refl.
    + by rewrite E, IH.
Qed.

(** On tables, replacing the ids of "top5" twice by the same list is
    replacing them once. *)
Lemma set_toppers_idempotent (topper_list : list string) (t : dict Role) :
  set_toppers topper_list (set_toppers topper_list t) =
  set_toppers topper_list t.
Proof.
  destruct (set_toppers_ids topper_list t) as (r & Hr & Hids).
  unfold set_toppers at 1.
  assert (with_top5 (set_toppers topper_list t) = set_toppers topper_list t)
    as -> by (unfold with_top5, dict_mem; by rewrite Hr).
  rewrite Hr. unfold set_toppers in *.
  destruct (with_top5_get t) as (r0 & Hr0 & _). rewrite Hr0 in *.
  rewrite dict_get_set_eq in Hr. injection Hr as <-.
  by rewrite dict_set_set.
Qed.

(** When the role table is not empty, "top5" is created if it is missing, its ids become exactly
    [topper_list], and the resulting table is written to roles.json. *)
Lemma update_toppers_nonempty (topper_list : list string) (w : World) :
  dict_is_empty (role_table w) = false ->
  exists w',
    update_toppers topper_list w = (Ret tt, w') /\
    role_table w' = set_toppers topper_list (role_table w) /\
    roles_json w' = role_table w' /\
    dict_is_empty (role_table w') = false.
Proof.
  intros Hne. destruct (get_roles_run w) as (h & l & Hget & Hl).
  assert (l < length h) as Hlt by (by eapply lookup_lt_Some).
  remember (role_table w) as t eqn:Et. clear Et.
  rewrite update_toppers_run, Hget.
  unfold table_at at 1. world_simpl. rewrite Hl. simpl default.
  unfold set_toppers, with_top5, dict_mem.
  destruct (dict_get "top5" t) as [r|] eqn:Hr; simpl negb; cbv iota.
  - unfold table_at. world_simpl. rewrite Hl. simpl default. rewrite Hr.
    cbv zeta. world_simpl. rewrite list_lookup_insert_eq by done.
    simpl default. rewrite dict_set_not_empty.
    eexists. split; [reflexivity|].
    unfold role_table, table_at. world_simpl.
    rewrite list_lookup_insert_eq by done. simpl default.
    rewrite !dict_set_not_empty. done.
  - rewrite create_role_run.
    rewrite get_roles_hit;
      [|by unfold table_at; world_simpl; rewrite Hl; simpl default].
    unfold table_at. world_simpl. rewrite Hl. simpl default.
    unfold dict_mem. rewrite Hr. cbv zeta. world_simpl.
    rewrite !list_lookup_insert_eq by (by rewrite ?length_insert).
    simpl default. rewrite !dict_set_not_empty. world_simpl.
    rewrite !list_lookup_insert_eq by (by rewrite ?length_insert).
    simpl default. rewrite !dict_get_set_eq. world_simpl.
    rewrite !list_lookup_insert_eq by (by rewrite ?length_insert).
    simpl default. rewrite !dict_set_not_empty.
    eexists. split; [reflexivity|].
    unfold role_table, table_at. world_simpl.
    rewrite !list_lookup_insert_eq by (by rewrite ?length_insert).
    simpl default. rewrite !dict_set_not_empty. done.
Qed.

Lemma role_table_empty (w : World) :
  role_table w = [] ->
  dict_is_empty (table_at (CacheData_roles w) w) = true /\ roles_json w = [].
Proof.
  unfold role_table.
  destruct (dict_is_empty (table_at (CacheData_roles w) w)) eqn:E; [done|].
  intros H. by rewrite H in E.
Qed.

(** [update_toppers] on an empty role table: the final
    [commit_roles(roles)] is given the empty object loaded at entry, not
    the object [CacheData.roles] refers to by then, and writes nothing. *)
Lemma update_toppers_from_empty (topper_list : list string) (w : World) :
  role_table w = [] ->
  exists w',
    update_toppers topper_list w = (Ret tt, w') /\
    role_table w' = [("top5", with_ids topper_list top5_default)] /\
    roles_json w' = [("top5", top5_default)].
Proof.
  intros Hempty.
  destruct (role_table_empty w Hempty) as [Hcache Hdoc].
  assert (forall (h : list (dict Role)) x y,
            ((h ++ [x]) ++ [y]) !! length h = Some x) as Hfirst.
  { intros h x y. rewrite lookup_app_l by (rewrite length_app; simpl; lia).
    by apply list_lookup_middle. }
  assert (forall (h : list (dict Role)) x y,
            ((h ++ [x]) ++ [y]) !! length (h ++ [x]) = Some y) as Hsecond
    by (intros; by apply list_lookup_middle).
  rewrite update_toppers_run, (get_roles_miss w Hcache), Hdoc.
  unfold table_at at 1. world_simpl.
  rewrite list_lookup_middle by done. simpl default. simpl negb. cbv iota.
  rewrite create_role_run, get_roles_miss;
    [|by unfold table_at; world_simpl; rewrite list_lookup_middle].
  world_simpl. rewrite Hdoc. unfold role_table, table_at.
  repeat first
    [ progress world_simpl
    | rewrite list_lookup_insert_eq
        by (rewrite ?length_insert, ?length_app; simpl; lia)
    | rewrite list_lookup_insert_ne by (rewrite ?length_app; simpl; lia)
    | rewrite Hsecond
    | rewrite Hfirst
    | progress simpl default
    | progress unfold dict_mem
    | progress simpl dict_is_empty
    | progress simpl dict_get
    | progress simpl dict_set
    | progress cbv iota zeta ].
  eexists. split; [reflexivity|].
  repeat first
    [ progress world_simpl
    | rewrite list_lookup_insert_eq
        by (rewrite ?length_insert, ?length_app; simpl; lia)
    | progress simpl default
    | progress simpl dict_is_empty
    | progress cbv iota zeta ].
  done.
Qed.

(** Calling [update_toppers] a second time with the same list leaves the
    role table as the first call left it. Starting from a non-empty role
    table roles.json is left the same as well; starting from the empty one
    the second call changes roles.json, by writing the ids the first call
    did not write. *)
Lemma update_toppers_twice (topper_list : list string) (w : World) :
  exists w1 w2,
    update_toppers topper_list w = (Ret tt, w1) /\
    update_toppers topper_list w1 = (Ret tt, w2) /\
    role_table w2 = role_table w1 /\
    roles_json w2 = role_table w2 /\
    (exists r, dict_get "top5" (role_table w2) = Some r /\ ids r = topper_list) /\
    (dict_is_empty (role_table w) = false -> roles_json w2 = roles_json w1).
Proof.
  destruct (dict_is_empty (role_table w)) eqn:Hw.
  - assert (role_table w = []) as Hempty by (by destruct (role_table w)).
    destruct (update_toppers_from_empty topper_list w Hempty)
      as (w1 & Hrun1 & Htab1 & Hdoc1).
    assert (dict_is_empty (role_table w1) = false) as Hne1 by (by rewrite Htab1).
    destruct (update_toppers_nonempty topper_list w1 Hne1)
      as (w2 & Hrun2 & Htab2 & Hdoc2 & _).
    exists w1, w2. repeat split; try done.
    + rewrite Htab2, Htab1. reflexivity.
    + rewrite Htab2. apply set_toppers_ids.
  - destruct (update_toppers_nonempty topper_list w Hw)
      as (w1 & Hrun1 & Htab1 & Hdoc1 & Hne1).
    destruct (update_toppers_nonempty topper_list w1 Hne1)
      as (w2 & Hrun2 & Htab2 & Hdoc2 & _).
    assert (role_table w2 = role_table w1) as Hsame
      by (rewrite Htab2, Htab1; apply set_toppers_idempotent).
    exists w1, w2. repeat split; try done.
    + rewrite Htab2. apply set_toppers_ids.
    + intros _. congruence.
Qed.

(** C5, at the input where the code departs from it. When the role table
    is empty (roles.json holds an empty mapping and nothing is cached),
    [update_toppers] returns with "top5" in the role table and its ids
    equal to [topper_list], but roles.json holds "top5" as [create_role]
    wrote it, with no ids, so for a non-empty [topper_list] what is stored
    is not the role table. A second call with the same list leaves the
    role table as it is and only then writes it to roles.json. *)
Theorem update_toppers_empty_table (topper_list : list string) (w : World)
    (Hempty : role_table w = []) :
  exists w' w'',
    update_toppers topper_list w = (Ret tt, w') /\
    role_table w' = [("top5", with_ids topper_list top5_default)] /\
    roles_json w' = [("top5", top5_default)] /\
    (topper_list <> [] -> roles_json w' <> role_table w') /\
    update_toppers topper_list w' = (Ret tt, w'') /\
    role_table w'' = role_table w' /\
    roles_json w'' = role_table w''.
Proof.
  destruct (update_toppers_from_empty topper_list w Hempty)
    as (w' & Hrun & Htab & Hdoc).
  assert (dict_is_empty (role_table w') = false) as Hne by (by rewrite Htab).
  destruct (update_toppers_nonempty topper_list w' Hne)
    as (w'' & Hrun' & Htab' & Hdoc' & _).
  exists w', w''. repeat split; try done.
  - rewrite Htab, Hdoc. intros Hlist [= Hids]. by apply Hlist.
  - rewrite Htab', Htab. reflexivity.
Qed.

Lemma update_toppers_empty_table_witness :
  let w := boot (Some []) [] [] [] in
  role_table w = [] /\
  exists w',
    update_toppers ["a"; "b"; "c"] w = (Ret tt, w') /\
    role_table w' = [("top5", mkRole "top5" [1; 1; 1]%Z [] ["a"; "b"; "c"])] /\
    roles_json w' = [("top5", mkRole "top5" [1; 1; 1]%Z [] [])].
Proof.
  intros w. split; [reflexivity|].
  destruct (update_toppers_empty_table ["a"; "b"; "c"] w eq_refl)
    as (w' & w'' & Hrun & Htab & Hdoc & _).
  exists w'. split; [exact Hrun|]. split; [exact Htab|exact Hdoc].
Defined.

(** ** Custom effects and tags *)

Lemma get_custom_run (w : World) : get_custom w = (Ret (custom_table w), w).
Proof.
  unfold get_custom, custom_table, bind, gets, OpenJson.load_custom.
  by destruct (dict_is_empty (CacheData_custom w)).
Qed.

Lemma set_effect_run (effect accout_id : string) (w : World) :
  set_effect effect accout_id w =
    match dict_get "customeffects" (custom_table w) with
    | Some effects =>
        let c := dict_set "customeffects" (dict_set accout_id effect effects)
                   (custom_table w) in
        (Ret tt, set_custom_json c (set_CacheData_custom c w))
    | None => (Raise KeyError, w)
    end.
Proof.
  unfold set_effect, bind at 1. rewrite get_custom_run.
  unfold bind at 1, getitem.
  by destruct (dict_get "customeffects" (custom_table w)).
Qed.

Lemma set_tag_run (tag account_id : string) (w : World) :
  set_tag tag account_id w =
    match dict_get "customtag" (custom_table w) with
    | Some tags =>
        let c := dict_set "customtag" (dict_set account_id tag tags)
                   (custom_table w) in
        (Ret tt, set_custom_json c (set_CacheData_custom c w))
    | None => (Raise KeyError, w)
    end.
Proof.
  unfold set_tag, bind at 1. rewrite get_custom_run.
  unfold bind at 1, getitem.
  by destruct (dict_get "customtag" (custom_table w)).
Qed.

(** Once [CacheData.custom] is not empty, reads return it and change
    nothing. *)
Lemma get_custom_times_cached (n : nat) (w : World) :
  dict_is_empty (CacheData_custom w) = false ->
  get_custom_times n w = (Ret (replicate n (CacheData_custom w)), w).
Proof.
  intros Hc. induction n as [|n IH]; simpl; [done|].
  unfold bind at 1. rewrite get_custom_run. unfold bind. rewrite IH.
  unfold custom_table. by rewrite Hc.
Qed.

(** C1, refuted as written. With custom.json holding an effect for p0 and
    an empty [CacheData.custom], [remove_effect("p0")] leaves
    [CacheData.custom] non-empty, and it is neither [set_effect] nor
    [set_tag]. *)
Lemma remove_effect_populates_cache : ~ only_set_calls_populate.
Proof.
  intros Honly.
  specialize (Honly (RemoveEffect "p0")
                (boot (Some []) []
                   [("customeffects", [("p0", "ice")]); ("customtag", [])] [])
                eq_refl).
  simpl in Honly. discriminate Honly. vm_compute. discriminate.
Qed.

(** * Further properties *)

(** ** One call of a role function *)

Lemma role_step_unchanged (h : list (dict Role)) (l : loc) (w : World) :
  h !! l = Some (role_table w) ->
  role_step w (set_CacheData_roles l (set_heap h w)) (role_table w).
Proof.
  intros Hl. split; [by apply role_table_get_roles|].
  split; [by right|]. done.
Qed.

Lemma store_commit_ret {A} (v : A) (h : list (dict Role)) (l : loc)
    (t t' : dict Role) (w : World) :
  h !! l = Some t -> dict_is_empty t' = false ->
  exists w',
    (assign l t' ;;; modify (set_CacheData_roles l) ;;; commit_roles l ;;; ret v)
      (set_CacheData_roles l (set_heap h w)) = (Ret v, w') /\
    role_step w w' t'.
Proof.
  intros Hl Ht'.
  destruct (store_and_commit h l t t' w Hl Ht')
    as (w' & Hrun & Htab & Hjson & Hp & Hc & Hwl & Hcc & Hcw & _).
  exists w'. split.
  - unfold bind in Hrun |- *. simpl in Hrun |- *.
    destruct (commit_roles l _) as [[[]|e] w2]; [|done].
    by injection Hrun as <-.
  - split; [done|]. split; [by left|]. done.
Qed.

Lemma store_commit_step (h : list (dict Role)) (l : loc)
    (t t' : dict Role) (w : World) :
  h !! l = Some t -> dict_is_empty t' = false ->
  exists w',
    (assign l t' ;;; modify (set_CacheData_roles l) ;;; commit_roles l)
      (set_CacheData_roles l (set_heap h w)) = (Ret tt, w') /\
    role_step w w' t'.
Proof.
  intros Hl Ht'.
  destruct (store_and_commit h l t t' w Hl Ht')
    as (w' & Hrun & Htab & Hjson & Hp & Hc & Hwl & Hcc & Hcw & _).
  exists w'. split; [done|]. split; [done|]. split; [by left|]. done.
Qed.

(** Enter a role function: run its [get_roles] and read the table. *)
Ltac enter_role_function w h l Hget Hl :=
  destruct (get_roles_run w) as (h & l & Hget & Hl);
  unfold bind at 1; rewrite Hget;
  unfold bind at 1, deref at 1, gets at 1, table_at; world_simpl;
  rewrite ?Hl; simpl.

Lemma create_role_step (role : string) (w : World) :
  exists w',
    create_role role w = (Ret tt, w') /\
    role_step w w' (create_in role (role_table w)).
Proof.
  unfold create_role, create_in. enter_role_function w h l Hget Hl.
  destruct (dict_mem role (role_table w)).
  - eexists. split; [reflexivity|]. by apply role_step_unchanged.
  - by apply (store_commit_step h l (role_table w)), dict_set_not_empty.
Qed.

Lemma add_player_role_step (role account_id : string) (w : World) :
  exists w',
    add_player_role role account_id w = (Ret tt, w') /\
    role_step w w' (add_member role account_id (role_table w)).
Proof.
  unfold add_player_role, add_member, dict_mem.
  enter_role_function w h l Hget Hl.
  destruct (dict_get role (role_table w)) as [r|] eqn:Hr.
  - unfold bind at 1. rewrite (getitem_Some _ _ _ _ Hr).
    destruct (list_mem account_id (ids r)); simpl negb; cbv iota.
    + eexists. split; [reflexivity|]. by apply role_step_unchanged.
    + by apply (store_commit_step h l (role_table w)), dict_set_not_empty.
  - eexists. split; [reflexivity|].
    destruct (role_step_unchanged h l w Hl) as (Ht & Hj & Hrest).
    split; [exact Ht|]. split; [exact Hj|exact Hrest].
Qed.

Lemma remove_player_role_step (role account_id : string) (w : World) :
  exists w',
    remove_player_role role account_id w =
      (match dict_get role (role_table w) with
       | Some r =>
           match list_remove account_id (ids r) with
           | Some _ => Ret ("removed from " +:+ role)
           | None => Raise ValueError
           end
       | None => Ret "role not exists"
       end, w') /\
    role_step w w' (remove_member role account_id (role_table w)).
Proof.
  unfold remove_player_role, remove_member, dict_mem.
  enter_role_function w h l Hget Hl.
  destruct (dict_get role (role_table w)) as [r|] eqn:Hr.
  - unfold bind at 1. rewrite (getitem_Some _ _ _ _ Hr).
    destruct (list_remove account_id (ids r)) as [remaining|].
    + by apply (store_commit_ret _ h l (role_table w)), dict_set_not_empty.
    + eexists. split; [reflexivity|]. by apply role_step_unchanged.
  - eexists. split; [reflexivity|]. by apply role_step_unchanged.
Qed.

Lemma add_command_role_step (role command : string) (w : World) :
  exists w',
    add_command_role role command w =
      (match dict_get role (role_table w) with
       | Some r =>
           if list_mem command (commands r) then Ret "command not exists"
           else Ret ("command added to " +:+ role)
       | None => Ret "command not exists"
       end, w') /\
    role_step w w' (add_command role command (role_table w)).
Proof.
  unfold add_command_role, add_command, dict_mem.
  enter_role_function w h l Hget Hl.
  destruct (dict_get role (role_table w)) as [r|] eqn:Hr.
  - unfold bind at 1. rewrite (getitem_Some _ _ _ _ Hr).
    destruct (list_mem command (commands r)); simpl negb; cbv iota.
    + eexists. split; [reflexivity|]. by apply role_step_unchanged.
    + by apply (store_commit_ret _ h l (role_table w)), dict_set_not_empty.
  - eexists. split; [reflexivity|]. by apply role_step_unchanged.
Qed.

Lemma remove_command_role_step (role command : string) (w : World) :
  exists w',
    remove_command_role role command w =
      (match dict_get role (role_table w) with
       | Some r =>
           if list_mem command (commands r)
           then Ret ("command added to " +:+ role)
           else Ret "command not exists"
       | None => Ret "command not exists"
       end, w') /\
    role_step w w' (remove_command role command (role_table w)).
Proof.
  unfold remove_command_role, remove_command, dict_mem.
  enter_role_function w h l Hget Hl.
  destruct (dict_get role (role_table w)) as [r|] eqn:Hr.
  - unfold bind at 1. rewrite (getitem_Some _ _ _ _ Hr).
    destruct (list_mem command (commands r)) eqn:Hin.
    + destruct (list_remove command (commands r)) as [remaining|] eqn:Hrm.
      * by apply (store_commit_ret _ h l (role_table w)), dict_set_not_empty.
      * apply list_remove_None in Hrm. by apply list_mem_elem in Hin.
    + apply list_mem_not_elem, list_remove_None in Hin. rewrite Hin.
      eexists. split; [reflexivity|]. by apply role_step_unchanged.
  - eexists. split; [reflexivity|]. by apply role_step_unchanged.
Qed.

Lemma change_role_tag_step (role tag : string) (w : World) :
  exists w',
    change_role_tag role tag w =
      (match dict_get role (role_table w) with
       | Some _ => Ret "tag changed"
       | None => Ret "role not exists"
       end, w') /\
    role_step w w' (retag role tag (role_table w)).
Proof.
  unfold change_role_tag, retag, dict_mem.
  enter_role_function w h l Hget Hl.
  destruct (dict_get role (role_table w)) as [r|] eqn:Hr.
  - unfold bind at 1. rewrite (getitem_Some _ _ _ _ Hr).
    by apply (store_commit_ret _ h l (role_table w)), dict_set_not_empty.
  - eexists. split; [reflexivity|]. by apply role_step_unchanged.
Qed.

Lemma get_player_roles_step (account_id : string) (w : World) :
  exists w',
    get_player_roles account_id w =
      (Ret (List.filter
              (fun role =>
                 match dict_get role (role_table w) with
                 | Some r => list_mem account_id (ids r)
                 | None => false
                 end) (dict_keys (role_table w))), w') /\
    role_step w w' (role_table w).
Proof.
  unfold get_player_roles. enter_role_function w h l Hget Hl.
  rewrite (get_player_roles_loop account_id l (role_table w));
    [|by unfold table_at; world_simpl; rewrite Hl].
  rewrite forallb_keys_mem. eexists. split; [reflexivity|].
  by apply role_step_unchanged.
Qed.

Lemma final_then_ret {A} (m : M A) (w : World) :
  final ((m ;;; ret tt) w) = final (m w).
Proof. unfold bind, final. by destruct (m w) as [[a|e] w']. Qed.

Lemma set_toppers_empty (topper_list : list string) :
  set_toppers topper_list [] = [("top5", with_ids topper_list top5_default)].
Proof. reflexivity. Qed.

(** Every role function takes the role table to [table_after] of it. *)
Lemma call_role_table (c : role_call) (w : World) :
  role_table (final (call_role c w)) = table_after c (role_table w).
Proof.
  destruct c as [role | role account_id | role account_id | role command | role command
               | role new_tag | account_id | topper_list];
    simpl call_role; rewrite ?final_then_ret; simpl table_after.
  - destruct (create_role_step role w) as (w' & -> & Ht & _). exact Ht.
  - destruct (add_player_role_step role account_id w) as (w' & -> & Ht & _).
    exact Ht.
  - destruct (remove_player_role_step role account_id w) as (w' & -> & Ht & _).
    exact Ht.
  - destruct (add_command_role_step role command w) as (w' & -> & Ht & _).
    exact Ht.
  - destruct (remove_command_role_step role command w) as (w' & -> & Ht & _).
    exact Ht.
  - destruct (change_role_tag_step role new_tag w) as (w' & -> & Ht & _).
    exact Ht.
  - destruct (get_player_roles_step account_id w) as (w' & -> & Ht & _).
    exact Ht.
  - destruct (dict_is_empty (role_table w)) eqn:Hw.
    + assert (role_table w = []) as Hempty by (by destruct (role_table w)).
      destruct (update_toppers_from_empty topper_list w Hempty)
        as (w' & -> & Ht & _).
      rewrite Hempty, set_toppers_empty. exact Ht.
    + destruct (update_toppers_nonempty topper_list w Hw) as (w' & -> & Ht & _).
      exact Ht.
Qed.

(** Except for [update_toppers] on an empty role table, a role function
    either writes the new role table to roles.json or leaves both as they
    were. *)
Lemma call_role_storage (c : role_call) (w : World) :
  is_update_toppers c = false \/ dict_is_empty (role_table w) = false ->
  roles_json (final (call_role c w)) = role_table (final (call_role c w)) \/
  (role_table (final (call_role c w)) = role_table w /\
   roles_json (final (call_role c w)) = roles_json w).
Proof.
  assert (forall w' t', role_step w w' t' ->
            roles_json w' = role_table w' \/
            (role_table w' = role_table w /\ roles_json w' = roles_json w))
    as Hstep.
  { intros w' t' (Ht & [Hj | [Hsame Hj]] & _);
      [left|right; split]; congruence. }
  intros Hc.
  destruct c as [role | role account_id | role account_id | role command | role command
               | role new_tag | account_id | topper_list];
    simpl call_role; rewrite ?final_then_ret.
  - destruct (create_role_step role w) as (w' & -> & Hs). by eapply Hstep.
  - destruct (add_player_role_step role account_id w) as (w' & -> & Hs).
    by eapply Hstep.
  - destruct (remove_player_role_step role account_id w) as (w' & -> & Hs).
    by eapply Hstep.
  - destruct (add_command_role_step role command w) as (w' & -> & Hs).
    by eapply Hstep.
  - destruct (remove_command_role_step role command w) as (w' & -> & Hs).
    by eapply Hstep.
  - destruct (change_role_tag_step role new_tag w) as (w' & -> & Hs).
    by eapply Hstep.
  - destruct (get_player_roles_step account_id w) as (w' & -> & Hs).
    by eapply Hstep.
  - destruct Hc as [Hc|Hw]; [done|].
    destruct (update_toppers_nonempty topper_list w Hw) as (w' & -> & _ & Hj & _).
    by left.
Qed.

(** ** What the role functions do to tables *)

Lemma dict_set_new {V} (k : string) (v : V) (d : dict V) :
  dict_get k d = None -> dict_set k v d = d ++ [(k, v)].
Proof.
  induction d as [|[k' v'] d IH]; simpl; [done|].
  destruct (String.eqb k k'); [done|]. intros H. by rewrite IH.
Qed.

Lemma dict_set_same {V} (k : string) (v : V) (d : dict V) :
  dict_get k d = Some v -> dict_set k v d = d.
Proof.
  induction d as [|[k' v'] d IH]; simpl; [done|].
  destruct (String.eqb_spec k k') as [->|Hk].
  - by intros [= ->].
  - intros H. by rewrite IH.
Qed.

Lemma dict_set_keys_prefix {V} (k : string) (v : V) (d : dict V) :
  dict_keys d `prefix_of` dict_keys (dict_set k v d).
Proof.
  destruct (dict_mem k d) eqn:Hk.
  - by rewrite dict_set_keys.
  - rewrite dict_set_keys_new by done. by apply prefix_app_r.
Qed.

Lemma table_after_keys (c : role_call) (t : dict Role) :
  dict_keys t `prefix_of` dict_keys (table_after c t).
Proof.
  destruct c; simpl;
    unfold create_in, add_member, remove_member, add_command, remove_command,
      retag, set_toppers, with_top5;
    repeat match goal with
      | |- context [match ?x with _ => _ end] => destruct x
      end;
    try reflexivity; try apply dict_set_keys_prefix.
  etrans; apply dict_set_keys_prefix.
Qed.

Lemma after_calls_table (calls : list role_call) (w : World) :
  role_table (after_calls calls w) =
  fold_left (fun t c => table_after c t) calls (role_table w).
Proof.
  revert w. induction calls as [|c calls IH]; intros w; simpl; [done|].
  by rewrite IH, call_role_table.
Qed.

(** X1. Whatever calls are made, and whether or not some of them raise,
    the role names of the table stay where they are in the iteration
    order: no role function removes, renames or reorders a role; new names
    only come last. *)
Theorem roles_never_removed (calls : list role_call) (w : World) :
  dict_keys (role_table w) `prefix_of`
  dict_keys (role_table (after_calls calls w)).
Proof.
  rewrite after_calls_table. generalize (role_table w) as t.
  induction calls as [|c calls IH]; intros t; simpl; [done|].
  etrans; [apply (table_after_keys c)|apply IH].
Qed.

Lemma table_after_not_empty (c : role_call) (t : dict Role) :
  dict_is_empty t = false -> dict_is_empty (table_after c t) = false.
Proof.
  intros Ht. destruct (table_after_keys c t) as [more Hkeys].
  destruct t as [|entry t]; [done|].
  destruct (table_after c (entry :: t)); [done|done].
Qed.

(** X2. Write-through. From a world in which roles.json holds the role
    table, any calls of the role functions leave roles.json holding the
    role table, provided the table is not empty at the start or
    [update_toppers] is not among the calls; a call that raises leaves
    both as they were. *)
Theorem role_store_write_through (calls : list role_call) (w : World)
    (Hsync : roles_json w = role_table w)
    (Hsafe : dict_is_empty (role_table w) = false \/
             forallb (fun c => negb (is_update_toppers c)) calls = true) :
  roles_json (after_calls calls w) = role_table (after_calls calls w).
Proof.
  revert w Hsync Hsafe. induction calls as [|c calls IH];
    intros w Hsync Hsafe; simpl; [done|].
  apply IH.
  - destruct (call_role_storage c w) as [Hj | [Ht Hj]]; [|done|congruence].
    destruct Hsafe as [Hne | Hno]; [by right|left].
    simpl in Hno. apply andb_true_iff in Hno as [Hc _].
    by destruct (is_update_toppers c).
  - destruct Hsafe as [Hne | Hno].
    + left. rewrite call_role_table. by apply table_after_not_empty.
    + right. simpl in Hno. by apply andb_true_iff in Hno as [_ Hrest].
Qed.

Lemma role_store_write_through_witness :
  let w := boot (Some []) [] [] [] in
  roles_json w = role_table w /\
  (dict_is_empty (role_table w) = false \/
   forallb (fun c => negb (is_update_toppers c))
     [CreateRole "mods"; AddPlayerRole "mods" "pb-1";
      RemovePlayerRole "mods" "pb-9"; AddCommandRole "mods" "kick"] = true) /\
  roles_json
    (after_calls
       [CreateRole "mods"; AddPlayerRole "mods" "pb-1";
        RemovePlayerRole "mods" "pb-9"; AddCommandRole "mods" "kick"] w) =
  [("mods", mkRole "mods" [1; 1; 1]%Z ["kick"] ["pb-1"])].
Proof.
  intros w. split; [reflexivity|]. split; [by right|].
  rewrite (role_store_write_through
             [CreateRole "mods"; AddPlayerRole "mods" "pb-1";
              RemovePlayerRole "mods" "pb-9"; AddCommandRole "mods" "kick"] w
             eq_refl (or_intror eq_refl)).
  rewrite after_calls_table. reflexivity.
Defined.

Lemma list_remove_sublist x l l' : list_remove x l = Some l' -> NoDup l -> NoDup l'.
Proof. intros Hrm Hnd. by destruct (list_remove_NoDup x l l' Hnd Hrm). Qed.

Lemma table_after_unique (c : role_call) (t : dict Role) :
  brings_no_duplicates c ->
  members_and_commands_unique t ->
  members_and_commands_unique (table_after c t).
Proof.
  intros Hc Ht.
  assert (forall role r, dict_get role t = Some r ->
            NoDup (ids r) /\ NoDup (commands r)) as Hentry.
  { intros role r Hr. apply dict_get_elem in Hr.
    exact (proj1 (Forall_forall _ _) Ht _ Hr). }
  assert (forall x l, NoDup l -> list_mem x l = false -> NoDup (l ++ [x]))
    as Happend.
  { intros x l Hl Hx. apply NoDup_app. split; [done|].
    split; [|apply NoDup_singleton].
    intros y Hy Hy'. apply list_elem_of_singleton in Hy' as ->.
    by apply list_mem_not_elem in Hx. }
  destruct c as [role | role account_id | role account_id | role command
                 | role command | role new_tag | account_id | topper_list];
    simpl in *.
  - unfold create_in. destruct (dict_mem role t); [done|].
    apply dict_set_Forall; [done|]. simpl. split; constructor.
  - unfold add_member. destruct (dict_get role t) as [r|] eqn:Hr; [|done].
    destruct (list_mem account_id (ids r)) eqn:Hin; [done|].
    destruct (Hentry role r Hr). apply dict_set_Forall; [done|]. simpl. eauto.
  - unfold remove_member. destruct (dict_get role t) as [r|] eqn:Hr; [|done].
    destruct (list_remove account_id (ids r)) as [l|] eqn:Hrm; [|done].
    destruct (Hentry role r Hr). apply dict_set_Forall; [done|]. simpl.
    split; [by eapply list_remove_sublist|done].
  - unfold add_command. destruct (dict_get role t) as [r|] eqn:Hr; [|done].
    destruct (list_mem command (commands r)) eqn:Hin; [done|].
    destruct (Hentry role r Hr). apply dict_set_Forall; [done|]. simpl. eauto.
  - unfold remove_command. destruct (dict_get role t) as [r|] eqn:Hr; [|done].
    destruct (list_remove command (commands r)) as [l|] eqn:Hrm; [|done].
    destruct (Hentry role r Hr). apply dict_set_Forall; [done|]. simpl.
    split; [done|by eapply list_remove_sublist].
  - unfold retag. destruct (dict_get role t) as [r|] eqn:Hr; [|done].
    destruct (Hentry role r Hr). by apply dict_set_Forall.
  - done.
  - unfold set_toppers, with_top5, dict_mem.
    destruct (dict_get "top5" t) as [r|] eqn:Hr.
    + rewrite Hr. destruct (Hentry _ r Hr). by apply dict_set_Forall.
    + rewrite dict_get_set_eq. apply dict_set_Forall.
      * apply dict_set_Forall; [done|]. simpl. split; constructor.
      * simpl. split; [done|constructor].
Qed.

(** X3. No role function introduces a duplicate: from a role table whose
    entries have duplicate-free ids and duplicate-free commands, any calls
    of the role functions lead to such a table again, as long as the lists
    handed to [update_toppers], which are stored unchecked, are
    duplicate-free themselves. *)
Theorem role_store_keeps_sets (calls : list role_call) (w : World)
    (Hunique : members_and_commands_unique (role_table w))
    (Hcalls : Forall brings_no_duplicates calls) :
  members_and_commands_unique (role_table (after_calls calls w)).
Proof.
  rewrite after_calls_table. revert Hunique. generalize (role_table w) as t.
  induction Hcalls as [|c calls Hc Hcalls IH]; intros t Ht; simpl; [done|].
  apply IH. by apply table_after_unique.
Qed.

Lemma role_store_keeps_sets_witness :
  let w := boot (Some [])
             [("mods", mkRole "mods" [1; 1; 1]%Z ["kick"] ["pb-1"])] [] [] in
  let calls := [AddPlayerRole "mods" "pb-1"; AddCommandRole "mods" "kick";
                UpdateToppers ["pb-1"; "pb-2"]; AddPlayerRole "top5" "pb-2"] in
  members_and_commands_unique (role_table w) /\
  Forall brings_no_duplicates calls /\
  members_and_commands_unique (role_table (after_calls calls w)).
Proof.
  intros w calls.
  assert (NoDup ["pb-1"; "pb-2"]) as Hlist
    by (apply (bool_decide_unpack _); vm_compute; exact I).
  assert (members_and_commands_unique (role_table w)) as Hunique.
  { constructor; [|constructor]. simpl.
    split; apply (bool_decide_unpack _); vm_compute; exact I. }
  assert (Forall brings_no_duplicates calls) as Hcalls
    by (repeat first [exact Hlist | exact I | constructor]).
  split; [exact Hunique|]. split; [exact Hcalls|].
  exact (role_store_keeps_sets calls w Hunique Hcalls).
Defined.

(** The update the source leaves unchecked: [update_toppers] with a list
    that repeats an id stores the repetition. *)
Example update_toppers_stores_duplicates :
  role_table (final (update_toppers ["a"; "a"] (boot (Some []) [] [] []))) =
  [("top5", mkRole "top5" [1; 1; 1]%Z [] ["a"; "a"])].
Proof. reflexivity. Qed.

(** ** The role functions one by one *)

(** X4. [create_role] on a name the role table lacks adds the role last in
    the iteration order, with the name as its tag, the colour [1, 1, 1]
    and no commands and ids, and writes the table to roles.json; on a name
    the table has it changes nothing observable, so an existing role is
    never reset. *)
Theorem create_role_cases (role : string) (w : World) :
  (dict_get role (role_table w) = None ->
     exists w',
       create_role role w = (Ret tt, w') /\
       role_table w' = role_table w ++ [(role, mkRole role [1; 1; 1]%Z [] [])] /\
       roles_json w' = role_table w') /\
  (forall r, dict_get role (role_table w) = Some r ->
     exists w', create_role role w = (Ret tt, w') /\ observe w' = observe w).
Proof.
  split.
  - intros Hr.
    destruct (get_roles_run w) as (h & l & Hget & Hl).
    destruct (store_and_commit h l _
                (dict_set role (mkRole role [1; 1; 1]%Z [] []) (role_table w))
                w Hl (dict_set_not_empty _ _ _))
      as (w' & Hrun & Htab & Hjson & _).
    exists w'. split; [|split; [by rewrite Htab, dict_set_new|congruence]].
    unfold create_role, bind at 1. rewrite Hget.
    unfold bind at 1, deref at 1, gets at 1, table_at. world_simpl.
    rewrite Hl. simpl. by rewrite (proj2 (dict_mem_false _ _) Hr).
  - intros r Hr. destruct (get_roles_run w) as (h & l & Hget & Hl).
    eexists. split.
    + unfold create_role, bind. rewrite Hget.
      unfold deref, gets, table_at. world_simpl. rewrite Hl. simpl.
      by rewrite (proj2 (dict_mem_get _ _) (ex_intro _ r Hr)).
    + by apply observe_get_roles.
Qed.

Lemma create_role_cases_witness :
  let w := boot (Some [])
             [("mods", mkRole "mods" [0; 1; 0]%Z ["kick"] ["pb-1"])] [] [] in
  dict_get "vip" (role_table w) = None /\
  dict_get "mods" (role_table w) =
    Some (mkRole "mods" [0; 1; 0]%Z ["kick"] ["pb-1"]) /\
  role_table (final (create_role "vip" w)) =
    [("mods", mkRole "mods" [0; 1; 0]%Z ["kick"] ["pb-1"]);
     ("vip", mkRole "vip" [1; 1; 1]%Z [] [])] /\
  observe (final (create_role "mods" w)) = observe w.
Proof.
  intros w.
  pose proof (create_role_cases "vip" w) as (Hnew & _).
  pose proof (create_role_cases "mods" w) as (_ & Hold).
  split; [reflexivity|]. split; [reflexivity|]. split.
  - destruct (Hnew eq_refl) as (w' & Hrun & Htab & _).
    rewrite Hrun. unfold final. simpl snd. by rewrite Htab.
  - destruct (Hold _ eq_refl) as (w' & Hrun & Hobs). by rewrite Hrun.
Defined.

(** X5. [remove_command_role] never raises. When the role is in the role
    table and lists the command, one occurrence of it is removed, the table
    is written to roles.json, and the status returned is
    ["command added to " + role], the one [add_command_role] returns after
    adding. Otherwise the status is ["command not exists"] and nothing
    observable changes. *)
Theorem remove_command_role_cases (role command : string) (w : World) :
  (forall r, dict_get role (role_table w) = Some r -> command ∈ commands r ->
     exists remaining w',
       remove_command_role role command w =
         (Ret ("command added to " +:+ role), w') /\
       role_table w' =
         dict_set role (with_commands remaining r) (role_table w) /\
       roles_json w' = role_table w' /\
       commands r ≡ₚ command :: remaining) /\
  (dict_get role (role_table w) = None ->
     exists w',
       remove_command_role role command w = (Ret "command not exists", w') /\
       observe w' = observe w) /\
  (forall r, dict_get role (role_table w) = Some r -> command ∉ commands r ->
     exists w',
       remove_command_role role command w = (Ret "command not exists", w') /\
       observe w' = observe w) /\
  (forall e, result (remove_command_role role command w) <> Raise e).
Proof.
  destruct (get_roles_run w) as (h & l & Hget & Hl).
  split; [|split; [|split]].
  - intros r Hr Hin.
    destruct (list_remove command (commands r)) as [remaining|] eqn:Hrm;
      [|by apply list_remove_None in Hrm].
    destruct (store_and_commit h l _
                (dict_set role (with_commands remaining r) (role_table w)) w Hl
                (dict_set_not_empty _ _ _))
      as (w' & Hrun & Htab & Hjson & _).
    exists remaining, w'.
    split; [|split; [exact Htab|split; [congruence|]]].
    + unfold remove_command_role, bind at 1. rewrite Hget.
      unfold bind at 1, deref, gets, table_at. world_simpl. rewrite Hl. simpl.
      rewrite (proj2 (dict_mem_get _ _) (ex_intro _ r Hr)).
      unfold bind at 1. rewrite (getitem_Some _ _ _ _ Hr).
      rewrite (proj2 (list_mem_elem _ _) Hin), Hrm.
      unfold bind in Hrun |- *. simpl in Hrun |- *.
      destruct (commit_roles l _) as [[[]|e] w2]; [|done].
      by injection Hrun as <-.
    + by apply list_remove_Some_perm.
  - intros Hr. eexists. split.
    + unfold remove_command_role, bind. rewrite Hget.
      unfold deref, gets, table_at. world_simpl. rewrite Hl. simpl.
      by rewrite (proj2 (dict_mem_false _ _) Hr).
    + by apply observe_get_roles.
  - intros r Hr Hout. eexists. split.
    + unfold remove_command_role, bind. rewrite Hget.
      unfold deref, gets, table_at. world_simpl. rewrite Hl. simpl.
      rewrite (proj2 (dict_mem_get _ _) (ex_intro _ r Hr)).
      rewrite (getitem_Some _ _ _ _ Hr).
      by rewrite (proj2 (list_mem_not_elem _ _) Hout).
    + by apply observe_get_roles.
  - intros e.
    destruct (remove_command_role_step role command w) as (w' & -> & _).
    unfold result. simpl.
    destruct (dict_get role (role_table w)) as [r|]; [|done].
    by destruct (list_mem command (commands r)).
Qed.

Lemma remove_command_role_cases_witness :
  let w := boot (Some [])
             [("mods", mkRole "mods" [1; 1; 1]%Z ["kick"; "ban"] [])] [] [] in
  dict_get "mods" (role_table w) =
    Some (mkRole "mods" [1; 1; 1]%Z ["kick"; "ban"] []) /\
  ("kick" ∈ ["kick"; "ban"]) /\ ("end" ∉ ["kick"; "ban"]) /\
  dict_get "fake" (role_table w) = None /\
  result (remove_command_role "mods" "kick" w) = Ret "command added to mods" /\
  result (remove_command_role "mods" "end" w) = Ret "command not exists" /\
  result (remove_command_role "fake" "kick" w) = Ret "command not exists".
Proof.
  intros w.
  assert ("kick" ∈ ["kick"; "ban"]) as Hin by (apply list_mem_elem; reflexivity).
  assert ("end" ∉ ["kick"; "ban"]) as Hout
    by (apply list_mem_not_elem; reflexivity).
  pose proof (remove_command_role_cases "mods" "kick" w) as (Hremoved & _).
  pose proof (remove_command_role_cases "mods" "end" w) as (_ & _ & Hmissing & _).
  pose proof (remove_command_role_cases "fake" "kick" w) as (_ & Hunknown & _).
  split; [reflexivity|]. split; [exact Hin|]. split; [exact Hout|].
  split; [reflexivity|]. split; [|split].
  - destruct (Hremoved _ eq_refl Hin) as (remaining & w' & Hrun & _).
    by rewrite Hrun.
  - destruct (Hmissing _ eq_refl Hout) as (w' & Hrun & _). by rewrite Hrun.
  - destruct (Hunknown eq_refl) as (w' & Hrun & _). by rewrite Hrun.
Defined.

(** Changing a role's tag changes nobody's roles. *)
Lemma retag_same_holders (role new_tag account_id : string) (t : dict Role) :
  List.filter
    (fun k => match dict_get k (retag role new_tag t) with
              | Some r => list_mem account_id (ids r)
              | None => false
              end) (dict_keys (retag role new_tag t)) =
  List.filter
    (fun k => match dict_get k t with
              | Some r => list_mem account_id (ids r)
              | None => false
              end) (dict_keys t).
Proof.
  unfold retag. destruct (dict_get role t) as [r|] eqn:Hr; [|done].
  rewrite dict_set_keys by (apply dict_mem_get; eauto).
  apply filter_ext. intros k.
  destruct (String.eqb_spec role k) as [<-|Hne].
  - by rewrite dict_get_set_eq, Hr.
  - by rewrite dict_get_set_ne.
Qed.

(** X6. [change_role_tag] on a role of the role table replaces the tag and
    nothing else of the entry, writes the table to roles.json and returns
    ["tag changed"]; [get_player_roles] then answers for every account as
    it did before. On an unknown role it returns ["role not exists"] and
    changes nothing observable. *)
Theorem change_role_tag_cases (role new_tag : string) (w : World) :
  (forall r, dict_get role (role_table w) = Some r ->
     exists w',
       change_role_tag role new_tag w = (Ret "tag changed", w') /\
       role_table w' =
         dict_set role (mkRole new_tag (tagcolor r) (commands r) (ids r))
           (role_table w) /\
       roles_json w' = role_table w' /\
       forall account_id,
         result (get_player_roles account_id w') =
         result (get_player_roles account_id w)) /\
  (dict_get role (role_table w) = None ->
     exists w',
       change_role_tag role new_tag w = (Ret "role not exists", w') /\
       observe w' = observe w).
Proof.
  destruct (get_roles_run w) as (h & l & Hget & Hl). split.
  - intros r Hr.
    destruct (store_and_commit h l _
                (dict_set role (with_tag new_tag r) (role_table w)) w Hl
                (dict_set_not_empty _ _ _))
      as (w' & Hrun & Htab & Hjson & _).
    exists w'. split; [|split; [exact Htab|split; [congruence|]]].
    + unfold change_role_tag, bind at 1. rewrite Hget.
      unfold bind at 1, deref, gets, table_at. world_simpl. rewrite Hl. simpl.
      rewrite (proj2 (dict_mem_get _ _) (ex_intro _ r Hr)).
      unfold bind at 1. rewrite (getitem_Some _ _ _ _ Hr).
      unfold bind in Hrun |- *. simpl in Hrun |- *.
      destruct (commit_roles l _) as [[[]|e] w2]; [|done].
      by injection Hrun as <-.
    + intros account_id.
      destruct (get_player_roles_step account_id w') as (w1 & -> & _).
      destruct (get_player_roles_step account_id w) as (w2 & -> & _).
      unfold result. simpl. f_equal. rewrite Htab.
      pose proof (retag_same_holders role new_tag account_id (role_table w))
        as Hsame.
      unfold retag in Hsame. by rewrite Hr in Hsame.
  - intros Hr. eexists. split.
    + unfold change_role_tag, bind. rewrite Hget.
      unfold deref, gets, table_at. world_simpl. rewrite Hl. simpl.
      by rewrite (proj2 (dict_mem_false _ _) Hr).
    + by apply observe_get_roles.
Qed.

Lemma change_role_tag_cases_witness :
  let w := boot (Some [])
             [("mods", mkRole "mods" [0; 1; 0]%Z ["kick"] ["pb-1"])] [] [] in
  dict_get "mods" (role_table w) =
    Some (mkRole "mods" [0; 1; 0]%Z ["kick"] ["pb-1"]) /\
  dict_get "fake" (role_table w) = None /\
  (exists w',
     change_role_tag "mods" "MOD" w = (Ret "tag changed", w') /\
     role_table w' = [("mods", mkRole "MOD" [0; 1; 0]%Z ["kick"] ["pb-1"])]) /\
  result (change_role_tag "fake" "MOD" w) = Ret "role not exists".
Proof.
  intros w.
  pose proof (change_role_tag_cases "mods" "MOD" w) as (Hknown & _).
  pose proof (change_role_tag_cases "fake" "MOD" w) as (_ & Hunknown).
  split; [reflexivity|]. split; [reflexivity|]. split.
  - destruct (Hknown _ eq_refl) as (w' & Hrun & Htab & _).
    exists w'. split; [exact Hrun|exact Htab].
  - destruct (Hunknown eq_refl) as (w' & Hrun & _). by rewrite Hrun.
Defined.

Lemma list_remove_last x l : x ∉ l -> list_remove x (l ++ [x]) = Some l.
Proof.
  induction l as [|y l IH]; simpl; intros Hx.
  - by rewrite String.eqb_refl.
  - destruct (String.eqb_spec x y) as [->|Hne]; [destruct Hx; left|].
    rewrite IH; [done|]. intros Hin. apply Hx. by right.
Qed.

Lemma with_ids_same (r : Role) : with_ids (ids r) r = r.
Proof. by destruct r. Qed.

(** X7. Adding an account to a role that does not have it and removing it
    again brings the role table back to what it was, with the same ids in
    the same order, and leaves roles.json holding that table; the removal
    reports ["removed from " + role]. *)
Theorem add_then_remove_player_role (role account_id : string) (w : World)
    (r : Role)
    (Hrole : dict_get role (role_table w) = Some r)
    (Hnew : account_id ∉ ids r) :
  exists w1 w2,
    add_player_role role account_id w = (Ret tt, w1) /\
    remove_player_role role account_id w1 =
      (Ret ("removed from " +:+ role), w2) /\
    role_table w2 = role_table w /\
    roles_json w2 = role_table w.
Proof.
  destruct (add_player_role_step role account_id w) as (w1 & Hadd & Ht1 & _).
  destruct (remove_player_role_step role account_id w1)
    as (w2 & Hrm & Ht2 & Hj2 & _).
  unfold add_member in Ht1. rewrite Hrole in Ht1.
  rewrite (proj2 (list_mem_not_elem _ _) Hnew) in Ht1.
  assert (dict_get role (role_table w1) =
          Some (with_ids (ids r ++ [account_id]) r)) as Hr1
    by (by rewrite Ht1, dict_get_set_eq).
  assert (remove_member role account_id (role_table w1) = role_table w) as Hback.
  { unfold remove_member. rewrite Hr1. simpl ids.
    rewrite (list_remove_last _ _ Hnew). rewrite Ht1, dict_set_set.
    change (with_ids (ids r) (with_ids (ids r ++ [account_id]) r))
      with (with_ids (ids r) r).
    rewrite with_ids_same. by apply dict_set_same. }
  rewrite Hr1 in Hrm. simpl ids in Hrm. rewrite (list_remove_last _ _ Hnew) in Hrm.
  rewrite Hback in Ht2, Hj2.
  exists w1, w2. split; [exact Hadd|]. split; [exact Hrm|]. split; [exact Ht2|].
  destruct Hj2 as [Hj | [Hsame _]]; [exact Hj|].
  exfalso. rewrite <- Hsame, Hrole in Hr1. injection Hr1 as Hr1.
  apply Hnew. rewrite (f_equal ids Hr1). simpl.
  apply elem_of_app. right. left.
Qed.

Lemma add_then_remove_player_role_witness :
  let w := boot (Some [])
             [("mods", mkRole "mods" [1; 1; 1]%Z [] ["pb-1"; "pb-2"])] [] [] in
  dict_get "mods" (role_table w) =
    Some (mkRole "mods" [1; 1; 1]%Z [] ["pb-1"; "pb-2"]) /\
  ("pb-3" ∉ ["pb-1"; "pb-2"]) /\
  exists w1 w2,
    add_player_role "mods" "pb-3" w = (Ret tt, w1) /\
    remove_player_role "mods" "pb-3" w1 = (Ret "removed from mods", w2) /\
    role_table w2 = role_table w /\
    roles_json w2 = role_table w.
Proof.
  intros w.
  assert ("pb-3" ∉ ["pb-1"; "pb-2"]) as Hnew
    by (apply list_mem_not_elem; reflexivity).
  split; [reflexivity|]. split; [exact Hnew|].
  exact (add_then_remove_player_role "mods" "pb-3" w _ eq_refl Hnew).
Defined.

(** What [get_player_roles] lists, read off the role table. *)
Lemma get_player_roles_lists (account_id role : string) (w : World) :
  exists roles w',
    get_player_roles account_id w = (Ret roles, w') /\
    (role ∈ roles <->
     exists r, dict_get role (role_table w) = Some r /\ account_id ∈ ids r).
Proof.
  destruct (get_player_roles_step account_id w) as (w' & Hrun & _).
  eexists _, w'. split; [exact Hrun|].
  rewrite list_elem_of_In, filter_In, <- list_elem_of_In. split.
  - intros [_ Hsome]. destruct (dict_get role (role_table w)) as [r|]; [|done].
    exists r. split; [done|]. by apply list_mem_elem.
  - intros (r & Hr & Hin). split.
    + apply dict_get_keys, dict_mem_get. eauto.
    + rewrite Hr. by apply list_mem_elem.
Qed.

(** X8. [get_player_roles] follows the membership the other functions
    set: after [add_player_role(role, account_id)] on a role of the table
    it lists the role for the account, and after a
    [remove_player_role(role, account_id)] that found the account among
    duplicate-free ids it no longer does. *)
Theorem get_player_roles_after_update (role account_id : string) (w : World)
    (r : Role) (Hrole : dict_get role (role_table w) = Some r) :
  (exists w1 roles w2,
     add_player_role role account_id w = (Ret tt, w1) /\
     get_player_roles account_id w1 = (Ret roles, w2) /\
     role ∈ roles) /\
  (account_id ∈ ids r -> NoDup (ids r) ->
   exists status w1 roles w2,
     remove_player_role role account_id w = (Ret status, w1) /\
     get_player_roles account_id w1 = (Ret roles, w2) /\
     role ∉ roles).
Proof.
  split.
  - destruct (add_player_role_step role account_id w) as (w1 & Hadd & Ht1 & _).
    destruct (get_player_roles_lists account_id role w1)
      as (roles & w2 & Hget & Hlist).
    exists w1, roles, w2. split; [exact Hadd|]. split; [exact Hget|].
    apply Hlist. rewrite Ht1. unfold add_member. rewrite Hrole.
    destruct (list_mem account_id (ids r)) eqn:Hin.
    + exists r. split; [done|]. by apply list_mem_elem.
    + eexists. rewrite dict_get_set_eq. split; [reflexivity|]. simpl.
      apply elem_of_app. right. left.
  - intros Hin Hnd.
    destruct (remove_player_role_step role account_id w) as (w1 & Hrm & Ht1 & _).
    destruct (get_player_roles_lists account_id role w1)
      as (roles & w2 & Hget & Hlist).
    rewrite Hrole in Hrm. unfold remove_member in Ht1. rewrite Hrole in Ht1.
    destruct (list_remove account_id (ids r)) as [remaining|] eqn:Hrem;
      [|by apply list_remove_None in Hrem].
    eexists _, w1, roles, w2. split; [exact Hrm|]. split; [exact Hget|].
    intros Hlisted. apply Hlist in Hlisted as (r1 & Hr1 & Hin1).
    rewrite Ht1, dict_get_set_eq in Hr1. injection Hr1 as <-. simpl in Hin1.
    by destruct (list_remove_NoDup _ _ _ Hnd Hrem).
Qed.

Lemma get_player_roles_after_update_witness :
  let w := boot (Some [])
             [("vip", mkRole "vip" [1; 1; 1]%Z [] ["pb-1"]);
              ("mods", mkRole "mods" [1; 1; 1]%Z [] ["pb-2"])] [] [] in
  dict_get "mods" (role_table w) = Some (mkRole "mods" [1; 1; 1]%Z [] ["pb-2"]) /\
  (exists w1 roles w2,
     add_player_role "mods" "pb-1" w = (Ret tt, w1) /\
     get_player_roles "pb-1" w1 = (Ret roles, w2) /\
     "mods" ∈ roles) /\
  (exists status w1 roles w2,
     remove_player_role "mods" "pb-2" w = (Ret status, w1) /\
     get_player_roles "pb-2" w1 = (Ret roles, w2) /\
     "mods" ∉ roles).
Proof.
  intros w. split; [reflexivity|].
  pose proof (get_player_roles_after_update "mods" "pb-1" w _ eq_refl)
    as (Hadded & _).
  pose proof (get_player_roles_after_update "mods" "pb-2" w _ eq_refl)
    as (_ & Hremoved).
  split; [exact Hadded|]. apply Hremoved.
  - apply list_mem_elem. reflexivity.
  - apply (bool_decide_unpack _). vm_compute. exact I.
Defined.

(** X9. After [remove_command_role(role, command)] followed by
    [add_command_role(role, command)] on a role of the table, the role
    lists the command, whether or not it listed it before; the tag, the
    colour and the ids of the role are what they were. *)
Theorem remove_then_add_command_role (role command : string) (w : World)
    (r : Role) (Hrole : dict_get role (role_table w) = Some r) :
  exists status1 w1 status2 w2 r',
    remove_command_role role command w = (Ret status1, w1) /\
    add_command_role role command w1 = (Ret status2, w2) /\
    dict_get role (role_table w2) = Some r' /\
    command ∈ commands r' /\
    tag r' = tag r /\ tagcolor r' = tagcolor r /\ ids r' = ids r.
Proof.
  destruct (remove_command_role_step role command w) as (w1 & Hrm & Ht1 & _).
  destruct (add_command_role_step role command w1) as (w2 & Hadd & Ht2 & _).
  rewrite Hrole in Hrm.
  assert (exists r1, dict_get role (role_table w1) = Some r1 /\
                     tag r1 = tag r /\ tagcolor r1 = tagcolor r /\
                     ids r1 = ids r) as (r1 & Hr1 & Htag & Hcol & Hids).
  { rewrite Ht1. unfold remove_command. rewrite Hrole.
    destruct (list_remove command (commands r)) as [l|].
    - eexists. by rewrite dict_get_set_eq.
    - by exists r. }
  rewrite Hr1 in Hadd.
  assert (exists r2, dict_get role (role_table w2) = Some r2 /\
                     command ∈ commands r2 /\
                     tag r2 = tag r /\ tagcolor r2 = tagcolor r /\
                     ids r2 = ids r) as (r2 & Hr2 & Hin & Hrest).
  { rewrite Ht2. unfold add_command. rewrite Hr1.
    destruct (list_mem command (commands r1)) eqn:Hc.
    - exists r1. split; [done|]. split; [by apply list_mem_elem|done].
    - eexists. rewrite dict_get_set_eq. split; [reflexivity|]. simpl.
      split; [|done]. apply elem_of_app. right. left. }
  assert (exists status1, remove_command_role role command w = (Ret status1, w1))
    as [status1 Hrm'] by (destruct (list_mem command (commands r)); eauto).
  assert (exists status2, add_command_role role command w1 = (Ret status2, w2))
    as [status2 Hadd'] by (destruct (list_mem command (commands r1)); eauto).
  exists status1, w1, status2, w2, r2. done.
Qed.

Lemma remove_then_add_command_role_witness :
  let w := boot (Some [])
             [("mods", mkRole "mods" [1; 1; 1]%Z ["kick"; "ban"] ["pb-1"])]
             [] [] in
  dict_get "mods" (role_table w) =
    Some (mkRole "mods" [1; 1; 1]%Z ["kick"; "ban"] ["pb-1"]) /\
  exists status1 w1 status2 w2 r',
    remove_command_role "mods" "kick" w = (Ret status1, w1) /\
    add_command_role "mods" "kick" w1 = (Ret status2, w2) /\
    dict_get "mods" (role_table w2) = Some r' /\
    "kick" ∈ commands r'.
Proof.
  intros w. split; [reflexivity|].
  destruct (remove_then_add_command_role "mods" "kick" w _ eq_refl)
    as (s1 & w1 & s2 & w2 & r' & Hrm & Hadd & Hr' & Hin & _).
  exists s1, w1, s2, w2, r'. done.
Defined.

(** X10. On a role table that is not empty, [update_toppers] replaces the
    ids of "top5" by the given list, whatever they were (no merge); it
    keeps the tag, the colour and the commands of an existing "top5" and
    creates the role with [create_role]'s defaults otherwise; it leaves
    every other role as it was and writes the table to roles.json. *)
Theorem update_toppers_replaces (topper_list : list string) (w : World)
    (Hnonempty : dict_is_empty (role_table w) = false) :
  exists w' top5,
    update_toppers topper_list w = (Ret tt, w') /\
    dict_get "top5" (role_table w') = Some top5 /\
    ids top5 = topper_list /\
    (forall r, dict_get "top5" (role_table w) = Some r ->
               top5 = mkRole (tag r) (tagcolor r) (commands r) topper_list) /\
    (dict_get "top5" (role_table w) = None ->
     top5 = mkRole "top5" [1; 1; 1]%Z [] topper_list) /\
    (forall other, other <> "top5" ->
       dict_get other (role_table w') = dict_get other (role_table w)) /\
    roles_json w' = role_table w'.
Proof.
  destruct (update_toppers_nonempty topper_list w Hnonempty)
    as (w' & Hrun & Htab & Hjson & _).
  destruct (with_top5_get (role_table w)) as (r0 & Hr0 & Hnew & Hold).
  exists w', (with_ids topper_list r0).
  assert (role_table w' =
          dict_set "top5" (with_ids topper_list r0) (with_top5 (role_table w)))
    as Htab' by (rewrite Htab; unfold set_toppers; by rewrite Hr0).
  split; [exact Hrun|]. split; [by rewrite Htab', dict_get_set_eq|].
  split; [done|]. split; [|split; [|split; [|exact Hjson]]].
  - intros r Hr. by rewrite (Hold r Hr).
  - intros Hr. by rewrite (Hnew Hr).
  - intros other Hne. rewrite Htab', dict_get_set_ne by done.
    unfold with_top5. destruct (dict_mem "top5" (role_table w)); [done|].
    by rewrite dict_get_set_ne.
Qed.

Lemma update_toppers_replaces_witness :
  let w := boot (Some [])
             [("top5", mkRole "TOP" [1; 0; 0]%Z ["gift"] ["old-1"; "old-2"]);
              ("mods", mkRole "mods" [1; 1; 1]%Z [] ["pb-1"])] [] [] in
  dict_is_empty (role_table w) = false /\
  exists w',
    update_toppers ["a"; "b"] w = (Ret tt, w') /\
    role_table w' =
      [("top5", mkRole "TOP" [1; 0; 0]%Z ["gift"] ["a"; "b"]);
       ("mods", mkRole "mods" [1; 1; 1]%Z [] ["pb-1"])] /\
    roles_json w' = role_table w'.
Proof.
  intros w. split; [reflexivity|].
  destruct (update_toppers_replaces ["a"; "b"] w eq_refl)
    as (w' & top5 & Hrun & _ & _ & _ & _ & _ & Hjson).
  exists w'. split; [exact Hrun|]. split; [|exact Hjson].
  rewrite update_toppers_run in Hrun. vm_compute in Hrun.
  by injection Hrun as <-.
Defined.

(** X11. Two calls of [update_toppers] with the same list always settle:
    from any world, the second call leaves the role table as the first one
    left it, with "top5" holding exactly the list, and leaves roles.json
    holding that table, also when the first call started from an empty
    role table and wrote no ids. *)
Theorem update_toppers_settles (topper_list : list string) (w : World) :
  exists w1 w2 top5,
    update_toppers topper_list w = (Ret tt, w1) /\
    update_toppers topper_list w1 = (Ret tt, w2) /\
    role_table w2 = role_table w1 /\
    roles_json w2 = role_table w2 /\
    dict_get "top5" (role_table w2) = Some top5 /\
    ids top5 = topper_list.
Proof.
  destruct (update_toppers_twice topper_list w)
    as (w1 & w2 & Hrun1 & Hrun2 & Htab & Hjson & (top5 & Htop5 & Hids) & _).
  exists w1, w2, top5. done.
Qed.

(** ** The cache of the role table *)

(** X12. Once [CacheData.roles] holds a non-empty table, roles.json is not
    read again: whatever roles.json is replaced by behind the module's
    back, every sequence of calls of the role functions leads to the same
    role table as it would have otherwise. *)
Theorem cached_roles_hide_storage (calls : list role_call) (w : World)
    (other : dict Role)
    (Hcached : dict_is_empty (table_at (CacheData_roles w) w) = false) :
  role_table (set_roles_json other w) = role_table w /\
  role_table (after_calls calls (set_roles_json other w)) =
  role_table (after_calls calls w).
Proof.
  assert (role_table (set_roles_json other w) = role_table w) as Hsame.
  { unfold role_table, table_at in *. world_simpl. by rewrite Hcached. }
  split; [exact Hsame|]. by rewrite !after_calls_table, Hsame.
Qed.

Lemma cached_roles_hide_storage_witness :
  let w := final (create_role "mods" (boot (Some []) [] [] [])) in
  dict_is_empty (table_at (CacheData_roles w) w) = false /\
  role_table
    (after_calls [AddPlayerRole "mods" "pb-1"; GetPlayerRoles "pb-1"]
       (set_roles_json [("vip", mkRole "vip" [1; 1; 1]%Z [] ["pb-1"])] w)) =
  [("mods", mkRole "mods" [1; 1; 1]%Z [] ["pb-1"])].
Proof.
  intros w. split; [reflexivity|].
  rewrite (proj2 (cached_roles_hide_storage
                    [AddPlayerRole "mods" "pb-1"; GetPlayerRoles "pb-1"] w
                    [("vip", mkRole "vip" [1; 1; 1]%Z [] ["pb-1"])] eq_refl)).
  rewrite after_calls_table. reflexivity.
Defined.

(** X13. As long as roles.json holds the empty mapping, [get_roles] caches
    nothing: each call loads the document again, so the first non-empty
    content written to roles.json, by whomever, is what the next call
    returns. *)
Theorem empty_roles_are_reloaded (w : World) (written : dict Role)
    (Hempty : role_table w = []) :
  exists l w1,
    get_roles w = (Ret l, w1) /\
    role_table w1 = [] /\
    exists l' w2,
      get_roles (set_roles_json written w1) = (Ret l', w2) /\
      table_at l' w2 = written.
Proof.
  destruct (role_table_empty w Hempty) as [Hcache Hdoc].
  rewrite (get_roles_miss w Hcache). eexists _, _. split; [reflexivity|].
  assert (table_at (length (heap w))
            (set_CacheData_roles (length (heap w))
               (set_heap (heap w ++ [roles_json w]) w)) = []) as Hfresh.
  { unfold table_at. world_simpl. rewrite list_lookup_middle by done.
    by rewrite Hdoc. }
  split.
  - unfold role_table. world_simpl. rewrite Hfresh. simpl. exact Hdoc.
  - rewrite get_roles_miss.
    + eexists _, _. split; [reflexivity|].
      unfold table_at. world_simpl. by rewrite list_lookup_middle.
    + unfold table_at. world_simpl. rewrite list_lookup_middle by done.
      by rewrite Hdoc.
Qed.

Lemma empty_roles_are_reloaded_witness :
  let w := boot (Some []) [] [] [] in
  role_table w = [] /\
  exists l w1,
    get_roles w = (Ret l, w1) /\
    role_table w1 = [].
Proof.
  intros w. split; [reflexivity|].
  destruct (empty_roles_are_reloaded w
              [("vip", mkRole "vip" [1; 1; 1]%Z [] [])] eq_refl)
    as (l & w1 & Hrun & Hempty & _).
  exists l, w1. done.
Defined.

(** ** Profiles *)

Lemma get_info_run (account_id : string) (w : World) (stored : dict Profile) :
  profiles_json w = Some stored ->
  get_info account_id w = (Ret (dict_get account_id stored), w).
Proof.
  intros Hdoc. unfold get_info, bind, OpenJson.load_profiles, gets.
  rewrite Hdoc. unfold dict_mem, getitem.
  by destruct (dict_get account_id stored).
Qed.

(** X14. [add_profile] stores a fresh entry for the account whatever was
    stored for it before: an account that was banned or muted, or had
    linked profiles or a spam count, is registered anew, unbanned and
    unmuted. No other account's entry changes, and [serverdata.clients]
    gets the same entry for the account with a warn count of 0, unverified
    and a rejoin count of 1. *)
Theorem add_profile_overwrites
    (account_id display_string current_name : string) (account_age : Z)
    (w : World) (stored : dict Profile)
    (Hdoc : profiles_json w = Some stored) :
  exists w' p c,
    add_profile account_id display_string current_name account_age w =
      (Ret tt, w') /\
    get_info account_id w' = (Ret (Some p), w') /\
    p = mkProfile (DStr display_string) [] current_name false false account_age
          (registerOn p) true 0%Z (lastSpam p) 0%Z 0%Z /\
    dict_get account_id (serverdata_clients w') = Some c /\
    c = mkClient p 0%Z (lastWarned c) false 1%Z (lastJoin c) /\
    (forall other, other <> account_id ->
       result (get_info other w') = result (get_info other w) /\
       dict_get other (serverdata_clients w') =
       dict_get other (serverdata_clients w)) /\
    roles_json w' = roles_json w /\ custom_json w' = custom_json w /\
    whitelist_json w' = whitelist_json w.
Proof.
  unfold add_profile, bind, OpenJson.load_profiles, gets,
    commit_profiles, OpenJson.dump_profiles, modify, time_time.
  rewrite Hdoc. world_simpl.
  unfold getitem. rewrite dict_get_set_eq. unfold ret. world_simpl.
  eexists _, _, _. split; [reflexivity|].
  split; [erewrite get_info_run by reflexivity; by rewrite dict_get_set_eq|].
  split; [reflexivity|]. world_simpl. rewrite dict_get_set_eq.
  split; [reflexivity|]. split; [reflexivity|]. split; [|done].
  intros other Hne. split.
  - rewrite (get_info_run other w stored Hdoc).
    erewrite get_info_run by reflexivity.
    unfold result. simpl. by rewrite dict_get_set_ne.
  - by rewrite dict_get_set_ne.
Qed.

Lemma add_profile_overwrites_witness :
  let banned := mkProfile (DList ["Al"; "Alice"]) ["kid"] "al" true true 30%Z
                  5%Z false 7%Z 9%Z 0%Z 0%Z in
  let w := boot (Some [("pb-1", banned)]) [] [] [] in
  profiles_json w = Some [("pb-1", banned)] /\
  exists w',
    add_profile "pb-1" "Alice" "al" 31 w = (Ret tt, w') /\
    result (get_info "pb-1" w') =
      Ret (Some (mkProfile (DStr "Alice") [] "al" false false 31%Z 0%Z true
                   0%Z 1%Z 0%Z 0%Z)).
Proof.
  intros banned w. split; [reflexivity|].
  destruct (add_profile_overwrites "pb-1" "Alice" "al" 31 w _ eq_refl)
    as (w' & p & c & Hrun & _).
  exists w'. split; [exact Hrun|].
  vm_compute in Hrun. by injection Hrun as <-.
Defined.

(** X15. [update_spam] on an account of the profile document stores the
    given count and time for it, leaves its other fields and every other
    account as they were, and writes the document; on an unknown account
    it does nothing. *)
Theorem update_spam_cases
    (account_id : string) (spam_count : Z) (last_spam : timestamp)
    (w : World) (stored : dict Profile)
    (Hdoc : profiles_json w = Some stored) :
  (forall p, dict_get account_id stored = Some p ->
     exists w',
       update_spam account_id spam_count last_spam w = (Ret tt, w') /\
       get_info account_id w' =
         (Ret (Some (mkProfile (display_string p) (profiles p) (name p) (isBan p)
                       (isMuted p) (accountAge p) (registerOn p)
                       (canStartKickVote p) spam_count last_spam
                       (totaltimeplayer p) (lastseen p))), w') /\
       forall other, other <> account_id ->
         result (get_info other w') = result (get_info other w)) /\
  (dict_get account_id stored = None ->
     update_spam account_id spam_count last_spam w = (Ret tt, w)).
Proof.
  unfold update_spam, get_profiles, bind, OpenJson.load_profiles, gets.
  rewrite Hdoc. unfold dict_mem, getitem. split.
  - intros p Hp. rewrite Hp. unfold ret at 1. cbv beta iota zeta.
    rewrite dict_get_set_eq.
    unfold ret, commit_profiles, OpenJson.dump_profiles, modify.
    eexists. split; [reflexivity|]. rewrite dict_set_set. split.
    + erewrite get_info_run by reflexivity. by rewrite dict_get_set_eq.
    + intros other Hne. rewrite (get_info_run other w stored Hdoc).
      erewrite get_info_run by reflexivity.
      unfold result. simpl. by rewrite dict_get_set_ne.
  - intros Hp. by rewrite Hp.
Qed.

Lemma update_spam_cases_witness :
  let p := mkProfile (DStr "Alice") [] "al" false false 30%Z 0%Z true 0%Z 1%Z
             0%Z 0%Z in
  let w := boot (Some [("pb-1", p)]) [] [] [] in
  profiles_json w = Some [("pb-1", p)] /\
  dict_get "pb-1" [("pb-1", p)] = Some p /\
  dict_get "pb-9" [("pb-1", p)] = None /\
  result (get_info "pb-1" (final (update_spam "pb-1" 3%Z 77%Z w))) =
    Ret (Some (mkProfile (DStr "Alice") [] "al" false false 30%Z 0%Z true 3%Z
                 77%Z 0%Z 0%Z)) /\
  update_spam "pb-9" 3%Z 77%Z w = (Ret tt, w).
Proof.
  intros p w.
  pose proof (update_spam_cases "pb-1" 3%Z 77%Z w _ eq_refl) as (Hknown & _).
  pose proof (update_spam_cases "pb-9" 3%Z 77%Z w _ eq_refl) as (_ & Hunknown).
  split; [reflexivity|]. split; [reflexivity|]. split; [reflexivity|].
  split; [|exact (Hunknown eq_refl)].
  destruct (Hknown p eq_refl) as (w' & Hrun & Hget & _).
  rewrite Hrun. unfold final. simpl snd. by rewrite Hget.
Defined.

(** *** [update_profile] on an account of the document *)

Lemma with_profiles_same (p : Profile) : with_profiles (profiles p) p = p.
Proof. by destruct p. Qed.

Lemma with_name_same (p : Profile) : with_name (name p) p = p.
Proof. by destruct p. Qed.

(** The loop of [update_profile] over [allprofiles]. *)
Lemma update_profile_loop (account_id : string) (allprofiles : list string)
    (stored : dict Profile) (p : Profile) (w : World) :
  dict_get account_id stored = Some p ->
  for_acc allprofiles
    (fun profiles profile =>
       let* p := getitem account_id profiles in
       if list_mem profile (item_profiles p) then ret profiles
       else ret (dict_set account_id
                   (with_profiles (item_profiles p ++ [profile]) p) profiles))
    stored w =
  (Ret (dict_set account_id
          (with_profiles (merge_profiles allprofiles (profiles p)) p) stored), w).
Proof.
  revert stored p. induction allprofiles as [|x l IH]; intros stored p Hp; simpl.
  - by rewrite with_profiles_same, dict_set_same.
  - unfold bind at 1, bind at 1. rewrite (getitem_Some _ _ _ _ Hp).
    unfold item_profiles. destruct (list_mem x (profiles p)); unfold ret at 1.
    + by apply IH.
    + rewrite (IH _ (with_profiles (profiles p ++ [x]) p))
        by apply dict_get_set_eq.
      by rewrite dict_set_set.
Qed.

(** [update_profile] on an account whose stored display strings are a
    list. *)
Lemma update_profile_run_list (account_id : string)
    (display_string : option string) (allprofiles : option (list string))
    (new_name : option string) (w : World) (stored : dict Profile)
    (p : Profile) (known : list string) :
  profiles_json w = Some stored ->
  dict_get account_id stored = Some p ->
  item_display_string p = DList known ->
  update_profile account_id display_string allprofiles new_name w =
    (Ret tt,
     set_profiles_json
       (Some (dict_set account_id
                (updated_profile display_string allprofiles new_name known p)
                stored)) w).
Proof.
  intros Hdoc Hp Hknown.
  unfold update_profile, bind at 1, OpenJson.load_profiles, gets. rewrite Hdoc.
  cbv beta iota.
  assert (exists p1,
            (match display_string with
             | Some ds =>
                 if dict_mem account_id stored then
                   let* p := getitem account_id stored in
                   match item_display_string p with
                   | DList l =>
                       if list_mem ds l then ret stored
                       else ret (dict_set account_id
                                   (with_display_string (DList (l ++ [ds])) p)
                                   stored)
                   | DStr s =>
                       if str_contains ds s then ret stored
                       else raise AttributeError
                   end
                 else ret stored
             | None => ret stored
             end) w = (Ret (dict_set account_id p1 stored), w) /\
            p1 = with_display_string
                   (DList (history_with display_string known)) p)
    as (p1 & Hfirst & Hp1).
  { exists (with_display_string (DList (history_with display_string known)) p).
    split; [|done].
    assert (dict_set account_id (with_display_string (DList known) p) stored
            = stored) as Hsame.
    { apply dict_set_same. rewrite Hp. f_equal. destruct p.
      unfold item_display_string in Hknown. simpl in *. by rewrite Hknown. }
    destruct display_string as [ds|]; unfold history_with.
    - rewrite (proj2 (dict_mem_get _ _) (ex_intro _ p Hp)).
      unfold bind. rewrite (getitem_Some _ _ _ _ Hp). rewrite Hknown.
      destruct (list_mem ds known); [|done]. unfold ret. by rewrite Hsame.
    - unfold ret. by rewrite Hsame. }
  unfold bind at 1. rewrite Hfirst.
  assert ((match allprofiles with
           | Some l =>
               for_acc l
                 (fun profiles profile =>
                    let* p := getitem account_id profiles in
                    if list_mem profile (item_profiles p) then ret profiles
                    else ret (dict_set account_id
                                (with_profiles (item_profiles p ++ [profile]) p)
                                profiles))
                 (dict_set account_id p1 stored)
           | None => ret (dict_set account_id p1 stored)
           end) w =
          (Ret (dict_set account_id
                  (with_profiles
                     (merge_profiles (default [] allprofiles) (profiles p1)) p1)
                  stored), w)) as Hsecond.
  { destruct allprofiles as [l|]; simpl.
    - rewrite (update_profile_loop account_id l _ p1) by apply dict_get_set_eq.
      by rewrite dict_set_set.
    - unfold ret. by rewrite with_profiles_same. }
  unfold bind at 1. rewrite Hsecond. clear Hsecond.
  set (p2 := with_profiles _ p1).
  assert ((match new_name with
           | Some n =>
               let* p := getitem account_id (dict_set account_id p2 stored) in
               ret (dict_set account_id (with_name n p)
                      (dict_set account_id p2 stored))
           | None => ret (dict_set account_id p2 stored)
           end) w =
          (Ret (dict_set account_id (with_name (default (name p2) new_name) p2)
                  stored), w)) as Hthird.
  { destruct new_name as [n|].
    - unfold bind. rewrite (getitem_Some _ _ p2) by apply dict_get_set_eq.
      unfold ret. by rewrite dict_set_set.
    - unfold ret. change (default (name p2) None) with (name p2).
      by rewrite with_name_same. }
  unfold bind at 1. rewrite Hthird.
  unfold commit_profiles, OpenJson.dump_profiles, modify.
  subst p2 p1. reflexivity.
Qed.

Lemma merge_profiles_prefix (l known : list string) :
  known `prefix_of` merge_profiles l known.
Proof.
  revert known. induction l as [|x l IH]; intros known; simpl; [done|].
  destruct (list_mem x known); [apply IH|].
  etrans; [|apply IH]. by apply prefix_app_r.
Qed.

Lemma merge_profiles_elem (l known : list string) (x : string) :
  x ∈ merge_profiles l known <-> x ∈ known \/ x ∈ l.
Proof.
  revert known. induction l as [|y l IH]; intros known; simpl.
  - split; [by left|]. intros [H|H]; [done|inversion H].
  - destruct (list_mem y known) eqn:Hy; rewrite IH.
    + apply list_mem_elem in Hy. rewrite elem_of_cons.
      split; [intros [H|H]; auto|]. intros [H|[->|H]]; auto.
    + rewrite elem_of_app, list_elem_of_singleton, elem_of_cons.
      split; [intros [[H|H]|H]; auto|]. intros [H|[H|H]]; auto.
Qed.

Lemma merge_profiles_NoDup (l known : list string) :
  NoDup known -> NoDup (merge_profiles l known).
Proof.
  revert known. induction l as [|y l IH]; intros known Hnd; simpl; [done|].
  destruct (list_mem y known) eqn:Hy; apply IH; [done|].
  apply NoDup_app. split; [done|]. split; [|apply NoDup_singleton].
  intros x Hx Hx'. apply list_elem_of_singleton in Hx' as ->.
  by apply list_mem_not_elem in Hy.
Qed.

Lemma merge_profiles_absorb (l known : list string) :
  (forall x, x ∈ l -> x ∈ known) -> merge_profiles l known = known.
Proof.
  induction l as [|y l IH]; intros Hall; simpl; [done|].
  rewrite (proj2 (list_mem_elem y known)) by (apply Hall; left).
  apply IH. intros x Hx. apply Hall. by right.
Qed.

Lemma history_with_twice (ds : option string) (known : list string) :
  history_with ds (history_with ds known) = history_with ds known.
Proof.
  destruct ds as [ds|]; simpl; [|done].
  destruct (list_mem ds known) eqn:Hin; [by rewrite Hin|].
  assert (list_mem ds (known ++ [ds]) = true) as ->; [|done].
  apply list_mem_elem, elem_of_app. right. left.
Qed.

Lemma history_with_NoDup (ds : option string) (known : list string) :
  NoDup known -> NoDup (history_with ds known).
Proof.
  intros Hnd. destruct ds as [ds|]; simpl; [|done].
  destruct (list_mem ds known) eqn:Hin; [done|].
  apply NoDup_app. split; [done|]. split; [|apply NoDup_singleton].
  intros x Hx Hx'. apply list_elem_of_singleton in Hx' as ->.
  by apply list_mem_not_elem in Hin.
Qed.

(** X16. [update_profile] on an account whose stored display strings are a
    list merges what it is given: the display string is appended unless the
    list has it, each of [allprofiles] is appended in turn unless the
    linked profiles have it by then, the name is replaced if one is given.
    What was recorded stays, in place; lists that were duplicate-free stay
    duplicate-free, also when [allprofiles] repeats an entry; the flags, the
    counters and every other account are untouched; the document is
    written. *)
Theorem update_profile_merges (account_id : string) (ds : option string)
    (allprofiles : option (list string)) (new_name : option string)
    (w : World) (stored : dict Profile) (p : Profile) (known : list string)
    (Hdoc : profiles_json w = Some stored)
    (Hp : dict_get account_id stored = Some p)
    (Hknown : display_string p = DList known) :
  exists w' p',
    update_profile account_id ds allprofiles new_name w = (Ret tt, w') /\
    get_info account_id w' = (Ret (Some p'), w') /\
    p' = updated_profile ds allprofiles new_name known p /\
    known `prefix_of` history (display_string p') /\
    (forall d, ds = Some d -> d ∈ history (display_string p')) /\
    profiles p `prefix_of` profiles p' /\
    (forall x, x ∈ profiles p' <->
               x ∈ profiles p \/ x ∈ default [] allprofiles) /\
    (NoDup known -> NoDup (history (display_string p'))) /\
    (NoDup (profiles p) -> NoDup (profiles p')) /\
    (forall other, other <> account_id ->
       result (get_info other w') = result (get_info other w)).
Proof.
  rewrite (update_profile_run_list account_id ds allprofiles new_name w stored
             p known Hdoc Hp Hknown).
  eexists _, _. split; [reflexivity|].
  split; [erewrite get_info_run by reflexivity; by rewrite dict_get_set_eq|].
  split; [reflexivity|]. simpl.
  split; [|split; [|split; [|split; [|split; [|split]]]]].
  - destruct ds as [d|]; simpl; [|done].
    destruct (list_mem d known); [done|]. by apply prefix_app_r.
  - intros d ->. simpl. destruct (list_mem d known) eqn:Hin.
    + by apply list_mem_elem.
    + apply elem_of_app. right. left.
  - apply merge_profiles_prefix.
  - intros x. apply merge_profiles_elem.
  - apply history_with_NoDup.
  - apply merge_profiles_NoDup.
  - intros other Hne. rewrite (get_info_run other w stored Hdoc).
    erewrite get_info_run by reflexivity.
    unfold result. simpl. by rewrite dict_get_set_ne.
Qed.

Lemma update_profile_merges_witness :
  let p := mkProfile (DList ["Al"]) ["kid"] "al" true false 30%Z 0%Z true 2%Z
             1%Z 0%Z 0%Z in
  let w := boot (Some [("pb-1", p)]) [] [] [] in
  profiles_json w = Some [("pb-1", p)] /\
  dict_get "pb-1" [("pb-1", p)] = Some p /\
  display_string p = DList ["Al"] /\
  exists w',
    update_profile "pb-1" (Some "Alice") (Some ["kid"; "pro"; "pro"]) None w =
      (Ret tt, w') /\
    result (get_info "pb-1" w') =
      Ret (Some (mkProfile (DList ["Al"; "Alice"]) ["kid"; "pro"] "al" true
                   false 30%Z 0%Z true 2%Z 1%Z 0%Z 0%Z)).
Proof.
  intros p w. split; [reflexivity|]. split; [reflexivity|].
  split; [reflexivity|].
  destruct (update_profile_merges "pb-1" (Some "Alice")
              (Some ["kid"; "pro"; "pro"]) None w _ p ["Al"]
              eq_refl eq_refl eq_refl)
    as (w' & p' & Hrun & Hget & -> & _).
  exists w'. split; [exact Hrun|]. by rewrite Hget.
Defined.

(** X17. Calling [update_profile] a second time with the same arguments
    changes nothing: the second call writes the document the first one
    wrote. *)
Theorem update_profile_idempotent (account_id : string) (ds : option string)
    (allprofiles : option (list string)) (new_name : option string)
    (w : World) (stored : dict Profile) (p : Profile) (known : list string)
    (Hdoc : profiles_json w = Some stored)
    (Hp : dict_get account_id stored = Some p)
    (Hknown : display_string p = DList known) :
  exists w',
    update_profile account_id ds allprofiles new_name w = (Ret tt, w') /\
    update_profile account_id ds allprofiles new_name w' = (Ret tt, w').
Proof.
  rewrite (update_profile_run_list account_id ds allprofiles new_name w stored
             p known Hdoc Hp Hknown).
  eexists. split; [reflexivity|].
  erewrite (update_profile_run_list account_id ds allprofiles new_name _ _
              (updated_profile ds allprofiles new_name known p)
              (history_with ds known));
    [|reflexivity|apply dict_get_set_eq|reflexivity].
  rewrite dict_set_set.
  assert (updated_profile ds allprofiles new_name (history_with ds known)
            (updated_profile ds allprofiles new_name known p) =
          updated_profile ds allprofiles new_name known p) as ->.
  { unfold updated_profile. simpl. rewrite history_with_twice.
    rewrite (merge_profiles_absorb (default [] allprofiles)).
    - by destruct new_name.
    - intros x Hx. apply merge_profiles_elem. by right. }
  reflexivity.
Qed.

Lemma update_profile_idempotent_witness :
  let p := mkProfile (DList ["Al"]) ["kid"] "al" true false 30%Z 0%Z true 2%Z
             1%Z 0%Z 0%Z in
  let w := boot (Some [("pb-1", p)]) [] [] [] in
  profiles_json w = Some [("pb-1", p)] /\
  dict_get "pb-1" [("pb-1", p)] = Some p /\
  display_string p = DList ["Al"] /\
  exists w',
    update_profile "pb-1" (Some "Alice") (Some ["pro"]) (Some "alice") w =
      (Ret tt, w') /\
    update_profile "pb-1" (Some "Alice") (Some ["pro"]) (Some "alice") w' =
      (Ret tt, w').
Proof.
  intros p w. split; [reflexivity|]. split; [reflexivity|].
  split; [reflexivity|].
  exact (update_profile_idempotent "pb-1" (Some "Alice") (Some ["pro"])
           (Some "alice") w _ p ["Al"] eq_refl eq_refl eq_refl).
Defined.

(** [update_profile] with a display string on an account whose stored
    display string is a [str]. *)
Lemma update_profile_run_str (account_id ds : string)
    (allprofiles : option (list string)) (new_name : option string)
    (w : World) (stored : dict Profile) (p : Profile) (s : string) :
  profiles_json w = Some stored ->
  dict_get account_id stored = Some p ->
  item_display_string p = DStr s ->
  (str_contains ds s = false ->
   update_profile account_id (Some ds) allprofiles new_name w =
     (Raise AttributeError, w)) /\
  (str_contains ds s = true ->
   update_profile account_id (Some ds) None None w =
     (Ret tt, set_profiles_json (Some stored) w)).
Proof.
  intros Hdoc Hp Hs.
  split; intros Hsub;
    unfold update_profile, bind at 1, OpenJson.load_profiles, gets;
    rewrite Hdoc; cbv beta iota;
    rewrite (proj2 (dict_mem_get _ _) (ex_intro _ p Hp));
    unfold bind at 1, bind at 1;
    rewrite (getitem_Some _ _ _ _ Hp), Hs, Hsub; reflexivity.
Qed.

(** What [add_profile] leaves in profiles.json. *)
Lemma add_profile_run
    (account_id display_string current_name : string) (account_age : Z)
    (w : World) (stored : dict Profile) :
  profiles_json w = Some stored ->
  exists w' p,
    add_profile account_id display_string current_name account_age w =
      (Ret tt, w') /\
    profiles_json w' = Some (dict_set account_id p stored) /\
    item_display_string p = DStr display_string.
Proof.
  intros Hdoc.
  unfold add_profile, bind, OpenJson.load_profiles, gets,
    commit_profiles, OpenJson.dump_profiles, modify, time_time.
  rewrite Hdoc. world_simpl.
  unfold getitem. rewrite dict_get_set_eq. unfold ret. world_simpl.
  eexists _, _. split; [reflexivity|]. split; reflexivity.
Qed.

(** X18. [add_profile] stores the display string it is given, a [str], and
    [update_profile] appends to the stored value as to a list. So after
    [add_profile], an [update_profile] for the account with a display
    string that does not occur in the stored one raises [AttributeError]
    before anything is written, whatever its other arguments; with one
    that occurs in it, as a substring, it returns and records nothing. *)
Theorem update_profile_after_add_profile
    (account_id display_string current_name ds : string) (account_age : Z)
    (w : World) (stored : dict Profile)
    (Hdoc : profiles_json w = Some stored) :
  exists w1,
    add_profile account_id display_string current_name account_age w =
      (Ret tt, w1) /\
    (str_contains ds display_string = false ->
     forall allprofiles new_name,
       update_profile account_id (Some ds) allprofiles new_name w1 =
         (Raise AttributeError, w1)) /\
    (str_contains ds display_string = true ->
     exists w2 p,
       update_profile account_id (Some ds) None None w1 = (Ret tt, w2) /\
       get_info account_id w2 = (Ret (Some p), w2) /\
       item_display_string p = DStr display_string /\
       profiles_json w2 = profiles_json w1).
Proof.
  destruct (add_profile_run account_id display_string current_name
              account_age w stored Hdoc)
    as (w1 & p & Hrun & Hdoc1 & Hs).
  exists w1. split; [exact Hrun|].
  set (stored1 := dict_set account_id p stored) in *.
  assert (dict_get account_id stored1 = Some p) as Hp1
    by apply dict_get_set_eq.
  destruct (update_profile_run_str account_id ds None None w1 stored1 p
              display_string Hdoc1 Hp1 Hs) as [_ Hkept].
  split.
  - intros Hsub allprofiles new_name.
    by apply (update_profile_run_str account_id ds allprofiles new_name w1
                stored1 p display_string Hdoc1 Hp1 Hs).
  - intros Hsub. eexists _, p. split; [exact (Hkept Hsub)|].
    split; [erewrite get_info_run by reflexivity; by rewrite Hp1|].
    split; [exact Hs|]. by rewrite Hdoc1.
Qed.

Lemma update_profile_after_add_profile_witness :
  let w := boot (Some []) [] [] [] in
  profiles_json w = Some [] /\
  str_contains "Bob" "Alice" = false /\
  exists w1,
    add_profile "pb-1" "Alice" "al" 30 w = (Ret tt, w1) /\
    update_profile "pb-1" (Some "Bob") None None w1 = (Raise AttributeError, w1).
Proof.
  intros w. split; [reflexivity|]. split; [reflexivity|].
  destruct (update_profile_after_add_profile "pb-1" "Alice" "al" "Bob" 30
              w [] eq_refl) as (w1 & Hrun & Hraises & _).
  exists w1. split; [exact Hrun|]. exact (Hraises eq_refl None None).
Defined.

(** *** [ban_player], [mute] and [unmute] *)

(** X19. [ban_player], [mute] and [unmute] write nothing themselves. For an
    account of the profile document each starts one thread and returns
    with the world as it was; the thread's job, whenever it runs, replaces
    the whole of profiles.json by the document read at the call with the
    one flag changed, so whatever was written to profiles.json in between
    is lost. For an unknown account no thread is started. *)
Theorem flag_updates_are_deferred (account_id : string) (w : World)
    (stored : dict Profile) (Hdoc : profiles_json w = Some stored) :
  (forall p, dict_get account_id stored = Some p ->
     exists ban_job mute_job unmute_job,
       ban_player account_id w = (Ret [ban_job], w) /\
       mute account_id w = (Ret [mute_job], w) /\
       unmute account_id w = (Ret [unmute_job], w) /\
       forall later,
         ban_job later =
           (Ret tt,
            set_profiles_json
              (Some (dict_set account_id (with_isBan true p) stored)) later) /\
         mute_job later =
           (Ret tt,
            set_profiles_json
              (Some (dict_set account_id (with_isMuted true p) stored)) later) /\
         unmute_job later =
           (Ret tt,
            set_profiles_json
              (Some (dict_set account_id (with_isMuted false p) stored)) later)) /\
  (dict_get account_id stored = None ->
     ban_player account_id w = (Ret [], w) /\
     mute account_id w = (Ret [], w) /\
     unmute account_id w = (Ret [], w)).
Proof.
  unfold ban_player, mute, unmute, get_profiles, bind,
    OpenJson.load_profiles, gets.
  rewrite Hdoc. unfold dict_mem, getitem. split.
  - intros p ->. eexists _, _, _. repeat split.
  - intros ->. done.
Qed.

Lemma flag_updates_are_deferred_witness :
  let p := mkProfile (DStr "Alice") [] "al" false false 30%Z 0%Z true 0%Z 1%Z
             0%Z 0%Z in
  let w := boot (Some [("pb-1", p)]) [] [] [] in
  profiles_json w = Some [("pb-1", p)] /\
  dict_get "pb-1" [("pb-1", p)] = Some p /\
  dict_get "pb-9" [("pb-1", p)] = None /\
  (exists ban_job,
     ban_player "pb-1" w = (Ret [ban_job], w) /\
     result (get_info "pb-1" w) = Ret (Some p) /\
     result (get_info "pb-1" (final (ban_job w))) =
       Ret (Some (with_isBan true p))) /\
  ban_player "pb-9" w = (Ret [], w).
Proof.
  intros p w.
  pose proof (flag_updates_are_deferred "pb-1" w _ eq_refl) as (Hknown & _).
  pose proof (flag_updates_are_deferred "pb-9" w _ eq_refl) as (_ & Hunknown).
  split; [reflexivity|]. split; [reflexivity|]. split; [reflexivity|].
  split; [|exact (proj1 (Hunknown eq_refl))].
  destruct (Hknown p eq_refl)
    as (ban_job & mute_job & unmute_job & Hban & _ & _ & Hjobs).
  exists ban_job. split; [exact Hban|]. split; [reflexivity|].
  destruct (Hjobs w) as (-> & _). reflexivity.
Defined.

(** X20. Two flag updates started from the same document overwrite each
    other. When [ban_player] and [mute] for an account are both called
    before either thread has written, the thread that writes last decides:
    if it is the one of [mute], the account ends up muted and not banned;
    if it is the one of [ban_player], banned and not muted. When the first
    thread writes before the second call, both flags are set. *)
Theorem concurrent_flag_updates_lose_one (account_id : string) (w : World)
    (stored : dict Profile) (p : Profile)
    (Hdoc : profiles_json w = Some stored)
    (Hp : dict_get account_id stored = Some p) :
  exists ban_job mute_job,
    (ban_player account_id w = (Ret [ban_job], w) /\
     mute account_id w = (Ret [mute_job], w)) /\
    get_info account_id (final (mute_job (final (ban_job w)))) =
      (Ret (Some (with_isMuted true p)),
       final (mute_job (final (ban_job w)))) /\
    get_info account_id (final (ban_job (final (mute_job w)))) =
      (Ret (Some (with_isBan true p)),
       final (ban_job (final (mute_job w)))) /\
    exists mute_job' w',
      mute account_id (final (ban_job w)) = (Ret [mute_job'], final (ban_job w)) /\
      mute_job' (final (ban_job w)) = (Ret tt, w') /\
      get_info account_id w' =
        (Ret (Some (with_isMuted true (with_isBan true p))), w').
Proof.
  unfold ban_player, mute, get_profiles, bind, OpenJson.load_profiles, gets.
  rewrite Hdoc. unfold dict_mem, getitem. rewrite Hp.
  eexists _, _. split; [split; reflexivity|].
  unfold commit_profiles, OpenJson.dump_profiles, modify, final, ret.
  world_simpl. rewrite dict_get_set_eq.
  split; [erewrite get_info_run by reflexivity; by rewrite dict_get_set_eq|].
  split; [erewrite get_info_run by reflexivity; by rewrite dict_get_set_eq|].
  eexists _, _. split; [reflexivity|]. split; [reflexivity|].
  erewrite get_info_run by reflexivity. by rewrite dict_set_set, dict_get_set_eq.
Qed.

Lemma concurrent_flag_updates_lose_one_witness :
  let p := mkProfile (DStr "Alice") [] "al" false false 30%Z 0%Z true 0%Z 1%Z
             0%Z 0%Z in
  let w := boot (Some [("pb-1", p)]) [] [] [] in
  profiles_json w = Some [("pb-1", p)] /\
  dict_get "pb-1" [("pb-1", p)] = Some p /\
  exists ban_job mute_job,
    ban_player "pb-1" w = (Ret [ban_job], w) /\
    mute "pb-1" w = (Ret [mute_job], w) /\
    result (get_info "pb-1" (final (mute_job (final (ban_job w))))) =
      Ret (Some (mkProfile (DStr "Alice") [] "al" false true 30%Z 0%Z true 0%Z
                   1%Z 0%Z 0%Z)).
Proof.
  intros p w. split; [reflexivity|]. split; [reflexivity|].
  destruct (concurrent_flag_updates_lose_one "pb-1" w _ p eq_refl eq_refl)
    as (ban_job & mute_job & [Hban Hmute] & Hlast & _).
  exists ban_job, mute_job. split; [exact Hban|]. split; [exact Hmute|].
  by rewrite Hlast.
Defined.

(** ** Custom effects and tags *)

Section DictPop.
Context {V : Type}.
Implicit Types (k : string) (v : V) (d : dict V).

Lemma dict_pop_None k d : dict_pop k d = None <-> dict_get k d = None.
Proof.
  induction d as [|[k' v'] d IH]; simpl; [done|].
  destruct (String.eqb k k'); [done|].
  rewrite <- IH. destruct (dict_pop k d); simpl; split; done.
Qed.

Lemma dict_pop_get_ne k k' d d' :
  dict_pop k d = Some d' -> k' <> k -> dict_get k' d' = dict_get k' d.
Proof.
  revert d'. induction d as [|[k0 v0] d IH]; simpl; [done|]. intros d'.
  destruct (String.eqb_spec k k0) as [->|Hk].
  - intros [= ->] Hne. by destruct (String.eqb_spec k' k0).
  - destruct (dict_pop k d) as [d0|]; simpl; [|done].
    intros [= <-] Hne. simpl. destruct (String.eqb k' k0); [done|]. by apply IH.
Qed.

(** With distinct keys, the popped key is gone. *)
Lemma dict_pop_get_eq k d d' :
  NoDup (dict_keys d) -> dict_pop k d = Some d' -> dict_get k d' = None.
Proof.
  revert d'. induction d as [|[k0 v0] d IH]; simpl; [done|]. intros d' Hnd.
  apply NoDup_cons in Hnd as [Hk0 Hnd].
  destruct (String.eqb_spec k k0) as [->|Hk].
  - intros [= ->]. apply dict_mem_false.
    destruct (dict_mem k0 d') eqn:E; [|done].
    by apply dict_get_keys in E.
  - destruct (dict_pop k d) as [d0|]; simpl; [|done].
    intros [= <-]. simpl. destruct (String.eqb_spec k k0); [done|]. by apply IH.
Qed.

Lemma dict_pop_set_new k v d :
  dict_get k d = None -> dict_pop k (dict_set k v d) = Some d.
Proof.
  induction d as [|[k' v'] d IH]; simpl.
  - by rewrite String.eqb_refl.
  - destruct (String.eqb k k') eqn:E; [done|]. simpl. rewrite E.
    intros H. by rewrite IH.
Qed.

End DictPop.

Lemma remove_effect_run (account_id : string) (w : World) :
  remove_effect account_id w =
    match dict_get "customeffects" (custom_table w) with
    | Some effects =>
        match dict_pop account_id effects with
        | Some effects' =>
            let c := dict_set "customeffects" effects' (custom_table w) in
            (Ret tt, set_custom_json c (set_CacheData_custom c w))
        | None => (Raise KeyError, w)
        end
    | None => (Raise KeyError, w)
    end.
Proof.
  unfold remove_effect, bind at 1. rewrite get_custom_run.
  unfold bind at 1, getitem.
  destruct (dict_get "customeffects" (custom_table w)) as [effects|]; [|done].
  cbv beta iota delta [ret]. by destruct (dict_pop account_id effects).
Qed.

Lemma remove_tag_run (account_id : string) (w : World) :
  remove_tag account_id w =
    match dict_get "customtag" (custom_table w) with
    | Some tags =>
        match dict_pop account_id tags with
        | Some tags' =>
            let c := dict_set "customtag" tags' (custom_table w) in
            (Ret tt, set_custom_json c (set_CacheData_custom c w))
        | None => (Raise KeyError, w)
        end
    | None => (Raise KeyError, w)
    end.
Proof.
  unfold remove_tag, bind at 1. rewrite get_custom_run.
  unfold bind at 1, getitem.
  destruct (dict_get "customtag" (custom_table w)) as [tags|]; [|done].
  cbv beta iota delta [ret]. by destruct (dict_pop account_id tags).
Qed.

(** X21. [remove_effect] for an account that has an effect removes it,
    keeps the effects of the other accounts and all tags, and makes the
    result both [CacheData.custom] and the content of custom.json. For an
    account without an effect, and when the table has no "customeffects"
    key, it raises [KeyError] and the world is as it was. *)
Theorem remove_effect_cases (account_id : string) (w : World) :
  (forall effects effect,
     dict_get "customeffects" (custom_table w) = Some effects ->
     dict_get account_id effects = Some effect ->
     exists w' effects',
       remove_effect account_id w = (Ret tt, w') /\
       CacheData_custom w' = dict_set "customeffects" effects' (custom_table w) /\
       custom_json w' = CacheData_custom w' /\
       (forall other, other <> account_id ->
          dict_get other effects' = dict_get other effects) /\
       (NoDup (dict_keys effects) -> dict_get account_id effects' = None) /\
       dict_get "customtag" (CacheData_custom w') =
       dict_get "customtag" (custom_table w)) /\
  (forall effects,
     dict_get "customeffects" (custom_table w) = Some effects ->
     dict_get account_id effects = None ->
     remove_effect account_id w = (Raise KeyError, w)) /\
  (dict_get "customeffects" (custom_table w) = None ->
   remove_effect account_id w = (Raise KeyError, w)).
Proof.
  rewrite remove_effect_run. split; [|split].
  - intros effects effect -> Hhas.
    destruct (dict_pop account_id effects) as [effects'|] eqn:Hpop;
      [|apply dict_pop_None in Hpop; congruence].
    eexists _, effects'. split; [reflexivity|]. world_simpl.
    split; [done|]. split; [done|]. split; [|split].
    + intros other Hne. by apply (dict_pop_get_ne account_id).
    + intros Hnd. by apply (dict_pop_get_eq account_id effects).
    + by rewrite dict_get_set_ne.
  - intros effects -> Hnone.
    by rewrite (proj2 (dict_pop_None _ _) Hnone).
  - by intros ->.
Qed.

Lemma remove_effect_cases_witness :
  let w := boot (Some []) []
             [("customeffects", [("p0", "ice"); ("p1", "fire")]);
              ("customtag", [("p0", "champ")])] [] in
  dict_get "customeffects" (custom_table w) =
    Some [("p0", "ice"); ("p1", "fire")] /\
  dict_get "p0" [("p0", "ice"); ("p1", "fire")] = Some "ice" /\
  dict_get "p9" [("p0", "ice"); ("p1", "fire")] = None /\
  (exists w',
     remove_effect "p0" w = (Ret tt, w') /\
     custom_json w' =
       [("customeffects", [("p1", "fire")]); ("customtag", [("p0", "champ")])]) /\
  remove_effect "p9" w = (Raise KeyError, w).
Proof.
  intros w.
  pose proof (remove_effect_cases "p0" w) as (Hhas & _).
  pose proof (remove_effect_cases "p9" w) as (_ & Hnone & _).
  split; [reflexivity|]. split; [reflexivity|]. split; [reflexivity|].
  split; [|exact (Hnone _ eq_refl eq_refl)].
  destruct (Hhas _ _ eq_refl eq_refl) as (w' & effects' & Hrun & _).
  exists w'. split; [exact Hrun|].
  rewrite remove_effect_run in Hrun. vm_compute in Hrun. by injection Hrun as <-.
Defined.

(** X22. [remove_tag] for an account that has a tag removes it, keeps the
    tags of the other accounts and all effects, and makes the result both
    [CacheData.custom] and the content of custom.json. For an account
    without a tag, and when the table has no "customtag" key, it raises
    [KeyError] and the world is as it was. *)
Theorem remove_tag_cases (account_id : string) (w : World) :
  (forall tags tag,
     dict_get "customtag" (custom_table w) = Some tags ->
     dict_get account_id tags = Some tag ->
     exists w' tags',
       remove_tag account_id w = (Ret tt, w') /\
       CacheData_custom w' = dict_set "customtag" tags' (custom_table w) /\
       custom_json w' = CacheData_custom w' /\
       (forall other, other <> account_id ->
          dict_get other tags' = dict_get other tags) /\
       (NoDup (dict_keys tags) -> dict_get account_id tags' = None) /\
       dict_get "customeffects" (CacheData_custom w') =
       dict_get "customeffects" (custom_table w)) /\
  (forall tags,
     dict_get "customtag" (custom_table w) = Some tags ->
     dict_get account_id tags = None ->
     remove_tag account_id w = (Raise KeyError, w)) /\
  (dict_get "customtag" (custom_table w) = None ->
   remove_tag account_id w = (Raise KeyError, w)).
Proof.
  rewrite remove_tag_run. split; [|split].
  - intros tags tag -> Hhas.
    destruct (dict_pop account_id tags) as [tags'|] eqn:Hpop;
      [|apply dict_pop_None in Hpop; congruence].
    eexists _, tags'. split; [reflexivity|]. world_simpl.
    split; [done|]. split; [done|]. split; [|split].
    + intros other Hne. by apply (dict_pop_get_ne account_id).
    + intros Hnd. by apply (dict_pop_get_eq account_id tags).
    + by rewrite dict_get_set_ne.
  - intros tags -> Hnone.
    by rewrite (proj2 (dict_pop_None _ _) Hnone).
  - by intros ->.
Qed.

Lemma remove_tag_cases_witness :
  let w := boot (Some []) []
             [("customeffects", [("p0", "ice")]);
              ("customtag", [("p0", "champ"); ("p1", "pro")])] [] in
  dict_get "customtag" (custom_table w) =
    Some [("p0", "champ"); ("p1", "pro")] /\
  dict_get "p1" [("p0", "champ"); ("p1", "pro")] = Some "pro" /\
  dict_get "p9" [("p0", "champ"); ("p1", "pro")] = None /\
  (exists w',
     remove_tag "p1" w = (Ret tt, w') /\
     custom_json w' =
       [("customeffects", [("p0", "ice")]); ("customtag", [("p0", "champ")])]) /\
  remove_tag "p9" w = (Raise KeyError, w).
Proof.
  intros w.
  pose proof (remove_tag_cases "p1" w) as (Hhas & _).
  pose proof (remove_tag_cases "p9" w) as (_ & Hnone & _).
  split; [reflexivity|]. split; [reflexivity|]. split; [reflexivity|].
  split; [|exact (Hnone _ eq_refl eq_refl)].
  destruct (Hhas _ _ eq_refl eq_refl) as (w' & tags' & Hrun & _).
  exists w'. split; [exact Hrun|].
  rewrite remove_tag_run in Hrun. vm_compute in Hrun. by injection Hrun as <-.
Defined.

Lemma custom_table_written (c : Custom) (w : World) :
  dict_is_empty c = false ->
  custom_table (set_custom_json c (set_CacheData_custom c w)) = c.
Proof. intros Hc. unfold custom_table. world_simpl. by rewrite Hc. Qed.

(** X23. Setting an effect for an account that has none and removing it
    again gives back the table [get_custom] saw before the two calls, as
    [CacheData.custom] and as the content of custom.json. *)
Theorem set_then_remove_effect (effect account_id : string) (w : World)
    (effects : dict string)
    (Hkey : dict_get "customeffects" (custom_table w) = Some effects)
    (Hnew : dict_get account_id effects = None) :
  exists w1 w2,
    set_effect effect account_id w = (Ret tt, w1) /\
    remove_effect account_id w1 = (Ret tt, w2) /\
    CacheData_custom w2 = custom_table w /\
    custom_json w2 = custom_table w.
Proof.
  rewrite set_effect_run, Hkey. cbv zeta.
  eexists _, _. split; [reflexivity|].
  rewrite remove_effect_run.
  rewrite !custom_table_written by apply dict_set_not_empty.
  rewrite dict_get_set_eq, (dict_pop_set_new _ _ _ Hnew).
  cbv zeta. rewrite dict_set_set, (dict_set_same _ _ _ Hkey).
  split; [reflexivity|]. done.
Qed.

Lemma set_then_remove_effect_witness :
  let w := boot (Some []) []
             [("customeffects", [("p0", "ice")]); ("customtag", [])] [] in
  dict_get "customeffects" (custom_table w) = Some [("p0", "ice")] /\
  dict_get "p1" [("p0", "ice")] = None /\
  exists w1 w2,
    set_effect "fire" "p1" w = (Ret tt, w1) /\
    remove_effect "p1" w1 = (Ret tt, w2) /\
    custom_json w2 = [("customeffects", [("p0", "ice")]); ("customtag", [])].
Proof.
  intros w. split; [reflexivity|]. split; [reflexivity|].
  destruct (set_then_remove_effect "fire" "p1" w _ eq_refl eq_refl)
    as (w1 & w2 & Hset & Hremove & _ & Hjson).
  exists w1, w2. split; [exact Hset|]. split; [exact Hremove|]. exact Hjson.
Defined.

(** X24. [set_effect] touches one entry: the effects of the other accounts
    and everything under the other keys of the table, the tags among them,
    are what [get_custom] saw before, and a later [set_effect] for the same
    account replaces the effect, so an account has one effect at most.
    When the table has no "customeffects" key, [set_effect] raises
    [KeyError] and the world is as it was. *)
Theorem set_effect_touches_one_entry (effect account_id : string) (w : World) :
  (forall effects,
     dict_get "customeffects" (custom_table w) = Some effects ->
     exists w' effects',
       set_effect effect account_id w = (Ret tt, w') /\
       dict_get "customeffects" (custom_table w') = Some effects' /\
       dict_get account_id effects' = Some effect /\
       (forall other, other <> account_id ->
          dict_get other effects' = dict_get other effects) /\
       (forall key, key <> "customeffects" ->
          dict_get key (custom_table w') = dict_get key (custom_table w)) /\
       forall effect2,
         exists w'' effects'',
           set_effect effect2 account_id w' = (Ret tt, w'') /\
           dict_get "customeffects" (custom_table w'') = Some effects'' /\
           dict_get account_id effects'' = Some effect2 /\
           dict_keys effects'' = dict_keys effects') /\
  (dict_get "customeffects" (custom_table w) = None ->
   set_effect effect account_id w = (Raise KeyError, w)).
Proof.
  split.
  - intros effects Hkey. rewrite set_effect_run, Hkey. cbv zeta.
    eexists _, (dict_set account_id effect effects). split; [reflexivity|].
    rewrite custom_table_written by apply dict_set_not_empty.
    split; [apply dict_get_set_eq|]. split; [apply dict_get_set_eq|].
    split; [intros other Hne; by apply dict_get_set_ne|].
    split; [intros key Hne; by apply dict_get_set_ne|].
    intros effect2. rewrite set_effect_run.
    rewrite custom_table_written by apply dict_set_not_empty.
    rewrite dict_get_set_eq. cbv zeta.
    eexists _, _. split; [reflexivity|].
    rewrite custom_table_written by apply dict_set_not_empty.
    split; [apply dict_get_set_eq|]. split; [apply dict_get_set_eq|].
    apply dict_set_keys, dict_mem_get. eexists. apply dict_get_set_eq.
  - intros Hkey. by rewrite set_effect_run, Hkey.
Qed.

Lemma set_effect_touches_one_entry_witness :
  let w := boot (Some []) []
             [("customeffects", [("p0", "ice")]); ("customtag", [("p0", "champ")])]
             [] in
  dict_get "customeffects" (custom_table w) = Some [("p0", "ice")] /\
  dict_get "customeffects" (custom_table (boot (Some []) [] [] [])) = None /\
  (exists w',
     set_effect "fire" "p0" w = (Ret tt, w') /\
     custom_table w' =
       [("customeffects", [("p0", "fire")]); ("customtag", [("p0", "champ")])]) /\
  set_effect "fire" "p0" (boot (Some []) [] [] []) =
    (Raise KeyError, boot (Some []) [] [] []).
Proof.
  intros w.
  pose proof (set_effect_touches_one_entry "fire" "p0" w) as (Hkey & _).
  pose proof (set_effect_touches_one_entry "fire" "p0" (boot (Some []) [] [] []))
    as (_ & Hnokey).
  split; [reflexivity|]. split; [reflexivity|]. split; [|exact (Hnokey eq_refl)].
  destruct (Hkey _ eq_refl) as (w' & effects' & Hrun & _).
  exists w'. split; [exact Hrun|].
  rewrite set_effect_run in Hrun. vm_compute in Hrun. by injection Hrun as <-.
Defined.

(** X25. [commit_c] writes [CacheData.custom] as it is. In a process in
    which no write to the custom table has happened it is empty, so
    [commit_c] replaces custom.json by the empty mapping: [get_custom] then
    returns the empty mapping, and [set_effect], [set_tag], [remove_effect]
    and [remove_tag] raise [KeyError]. *)
Theorem commit_c_before_any_write (w : World)
    (Hcold : CacheData_custom w = []) :
  exists w',
    commit_c w = (Ret tt, w') /\
    custom_json w' = [] /\
    get_custom w' = (Ret [], w') /\
    (forall effect account_id,
       set_effect effect account_id w' = (Raise KeyError, w')) /\
    (forall tag account_id,
       set_tag tag account_id w' = (Raise KeyError, w')) /\
    (forall account_id, remove_effect account_id w' = (Raise KeyError, w')) /\
    (forall account_id, remove_tag account_id w' = (Raise KeyError, w')).
Proof.
  unfold commit_c, bind, gets, OpenJson.dump_custom, modify. rewrite Hcold.
  eexists. split; [reflexivity|]. world_simpl. split; [reflexivity|].
  assert (custom_table (set_custom_json [] w) = []) as Htable
    by (unfold custom_table; world_simpl; by rewrite Hcold).
  split; [by rewrite get_custom_run, Htable|].
  split; [intros; by rewrite set_effect_run, Htable|].
  split; [intros; by rewrite set_tag_run, Htable|].
  split; [intros; by rewrite remove_effect_run, Htable|].
  intros; by rewrite remove_tag_run, Htable.
Qed.

Lemma commit_c_before_any_write_witness :
  let w := boot (Some []) []
             [("customeffects", [("p0", "ice")]); ("customtag", [])] [] in
  CacheData_custom w = [] /\
  result (get_custom w) =
    Ret [("customeffects", [("p0", "ice")]); ("customtag", [])] /\
  exists w',
    commit_c w = (Ret tt, w') /\
    get_custom w' = (Ret [], w') /\
    set_effect "fire" "p1" w' = (Raise KeyError, w').
Proof.
  intros w. split; [reflexivity|]. split; [reflexivity|].
  destruct (commit_c_before_any_write w eq_refl)
    as (w' & Hrun & _ & Hget & Hset & _).
  exists w'. split; [exact Hrun|]. split; [exact Hget|]. exact (Hset "fire" "p1").
Defined.

(** ** The cache of the custom table across the module *)

(** *** What leaves [CacheData.custom] alone *)

Lemma keeps_ret {A} (a : A) : keeps_custom_cache (ret a).
Proof. by intros w. Qed.

Lemma keeps_raise {A} (e : exn) : keeps_custom_cache (@raise A e).
Proof. by intros w. Qed.

Lemma keeps_gets {A} (f : World -> A) : keeps_custom_cache (gets f).
Proof. by intros w. Qed.

Lemma keeps_modify (g : World -> World) :
  (forall w, CacheData_custom (g w) = CacheData_custom w) ->
  keeps_custom_cache (modify g).
Proof. intros Hg w. apply Hg. Qed.

Lemma keeps_bind {A B} (m : M A) (k : A -> M B) :
  keeps_custom_cache m -> (forall a, keeps_custom_cache (k a)) ->
  keeps_custom_cache (bind m k).
Proof.
  intros Hm Hk w. specialize (Hm w). unfold bind, final in *.
  destruct (m w) as [[a|e] w1]; simpl in *; [|exact Hm].
  rewrite <- Hm. apply Hk.
Qed.

Lemma keeps_getitem {V} (k : string) (d : dict V) : keeps_custom_cache (getitem k d).
Proof. unfold getitem. by destruct (dict_get k d). Qed.

Lemma keeps_for_each {A} (l : list A) (body : A -> M unit) :
  (forall x, keeps_custom_cache (body x)) ->
  keeps_custom_cache (for_each l body).
Proof.
  intros Hbody. induction l as [|x l IH]; simpl; [apply keeps_ret|].
  apply keeps_bind; [apply Hbody|]. by intros _.
Qed.

Lemma keeps_for_acc {A S} (l : list A) (body : S -> A -> M S) (acc : S) :
  (forall acc x, keeps_custom_cache (body acc x)) ->
  keeps_custom_cache (for_acc l body acc).
Proof.
  intros Hbody. revert acc. induction l as [|x l IH]; intros acc; simpl.
  - apply keeps_ret.
  - apply keeps_bind; [apply Hbody|]. intros acc'. apply IH.
Qed.

Lemma keeps_time_time : keeps_custom_cache time_time.
Proof. by intros w. Qed.

Lemma keeps_load_roles : keeps_custom_cache OpenJson.load_roles.
Proof. by intros w. Qed.

(** Take a function apart down to the reads and writes it is made of. *)
Ltac keeps_custom :=
  unfold deref, assign, print, commit_profiles, get_profiles,
    OpenJson.load_profiles, OpenJson.dump_profiles, OpenJson.format_roles,
    OpenJson.load_whitelist;
  repeat first
    [ apply keeps_ret
    | apply keeps_raise
    | apply keeps_gets
    | apply keeps_getitem
    | apply keeps_time_time
    | apply keeps_load_roles
    | apply keeps_modify; intros ?; reflexivity
    | apply keeps_bind; [|intros ?]
    | apply keeps_for_each; intros ?
    | apply keeps_for_acc; intros ? ?
    | progress cbv zeta
    | match goal with
      | |- keeps_custom_cache (match ?x with _ => _ end) => destruct x
      end ].

Lemma keeps_commit_roles (data : loc) : keeps_custom_cache (commit_roles data).
Proof. unfold commit_roles. keeps_custom. Qed.

Lemma keeps_get_roles : keeps_custom_cache get_roles.
Proof. unfold get_roles. keeps_custom. Qed.

Lemma keeps_create_role (role : string) : keeps_custom_cache (create_role role).
Proof.
  unfold create_role.
  apply keeps_bind; [apply keeps_get_roles|]. intros roles. keeps_custom.
Qed.

Lemma keeps_call_role (c : role_call) : keeps_custom_cache (call_role c).
Proof.
  destruct c as [role | role account_id | role account_id | role command
                 | role command | role new_tag | account_id | topper_list];
    simpl;
    unfold add_player_role, remove_player_role, add_command_role,
      remove_command_role, change_role_tag, get_player_roles, update_toppers;
    try apply keeps_create_role;
    (apply keeps_bind; [|intros ?]);
    repeat (apply keeps_bind; [apply keeps_get_roles|intros ?]);
    keeps_custom;
    try apply keeps_commit_roles; try apply keeps_create_role.
Qed.

(** Only the functions of the custom store touch [CacheData.custom]. *)
Lemma call_module_keeps_custom_cache (c : module_call) (w : World) :
  (forall cc, c <> CallCustom cc) ->
  CacheData_custom (call_module c w) = CacheData_custom w.
Proof.
  intros Hc.
  destruct c as [cc | rc | account_id | | document
                 | account_id shown current_name account_age
                 | account_id shown | account_id shown allprofiles new_name
                 | account_id | account_id | account_id
                 | account_id spam_count last_spam | data | |];
    simpl call_module.
  - by destruct (Hc cc).
  - apply keeps_call_role.
  - revert w. change (keeps_custom_cache (get_info account_id)).
    unfold get_info. keeps_custom.
  - revert w. change (keeps_custom_cache get_profiles). keeps_custom.
  - revert w. change (keeps_custom_cache (commit_profiles document)).
    keeps_custom.
  - revert w.
    change (keeps_custom_cache
              (add_profile account_id shown current_name account_age)).
    unfold add_profile. keeps_custom.
  - revert w. change (keeps_custom_cache (update_display_string account_id shown)).
    unfold update_display_string. keeps_custom.
  - revert w.
    change (keeps_custom_cache
              (update_profile account_id shown allprofiles new_name)).
    unfold update_profile. keeps_custom.
  - revert w. change (keeps_custom_cache (ban_player account_id)).
    unfold ban_player. keeps_custom.
  - revert w. change (keeps_custom_cache (mute account_id)).
    unfold mute. keeps_custom.
  - revert w. change (keeps_custom_cache (unmute account_id)).
    unfold unmute. keeps_custom.
  - revert w. change (keeps_custom_cache (update_spam account_id spam_count last_spam)).
    unfold update_spam. keeps_custom.
  - apply keeps_commit_roles.
  - apply keeps_get_roles.
  - revert w. change (keeps_custom_cache load_white_list).
    unfold load_white_list. keeps_custom.
Qed.

(** *** What a write to the custom table survives *)

Lemma cached_under_table (key account_id value : string) (w : World) :
  cached_under key account_id value w ->
  custom_table w = CacheData_custom w /\
  dict_is_empty (CacheData_custom w) = false.
Proof.
  intros (entries & Hkey & _). unfold custom_table.
  by destruct (CacheData_custom w).
Qed.

Lemma cached_under_same_cache (key account_id value : string) (w w' : World) :
  CacheData_custom w' = CacheData_custom w ->
  cached_under key account_id value w -> cached_under key account_id value w'.
Proof. unfold cached_under. by intros ->. Qed.

Lemma call_custom_keeps_effect (account_id effect : string) (c : custom_call)
    (w : World) :
  spares_effect account_id (CallCustom c) ->
  cached_under "customeffects" account_id effect w ->
  cached_under "customeffects" account_id effect (final (call_custom c w)).
Proof.
  intros Hc Hw. destruct (cached_under_table _ _ _ _ Hw) as [Htable _].
  destruct Hw as (entries & Hkey & Hentry). unfold cached_under.
  destruct c as [| e2 b | t b | b | b |]; simpl in *.
  - rewrite final_then_ret, get_custom_run. by exists entries.
  - rewrite set_effect_run, Htable, Hkey. cbv zeta. unfold final. world_simpl.
    exists (dict_set b e2 entries).
    by rewrite dict_get_set_eq, dict_get_set_ne.
  - rewrite set_tag_run, Htable.
    destruct (dict_get "customtag" (CacheData_custom w)) as [tags|];
      [|by exists entries].
    cbv zeta. unfold final. world_simpl. exists entries.
    by rewrite dict_get_set_ne.
  - rewrite remove_effect_run, Htable, Hkey.
    destruct (dict_pop b entries) as [entries'|] eqn:Hpop; [|by exists entries].
    cbv zeta. unfold final. world_simpl. exists entries'.
    rewrite dict_get_set_eq. split; [done|].
    rewrite (dict_pop_get_ne b account_id entries entries' Hpop); [done|].
    congruence.
  - rewrite remove_tag_run, Htable.
    destruct (dict_get "customtag" (CacheData_custom w)) as [tags|];
      [|by exists entries].
    destruct (dict_pop b tags) as [tags'|]; [|by exists entries].
    cbv zeta. unfold final. world_simpl. exists entries.
    by rewrite dict_get_set_ne.
  - by exists entries.
Qed.

Lemma call_custom_keeps_tag (account_id tag : string) (c : custom_call)
    (w : World) :
  spares_tag account_id (CallCustom c) ->
  cached_under "customtag" account_id tag w ->
  cached_under "customtag" account_id tag (final (call_custom c w)).
Proof.
  intros Hc Hw. destruct (cached_under_table _ _ _ _ Hw) as [Htable _].
  destruct Hw as (entries & Hkey & Hentry). unfold cached_under.
  destruct c as [| e2 b | t b | b | b |]; simpl in *.
  - rewrite final_then_ret, get_custom_run. by exists entries.
  - rewrite set_effect_run, Htable.
    destruct (dict_get "customeffects" (CacheData_custom w)) as [effects|];
      [|by exists entries].
    cbv zeta. unfold final. world_simpl. exists entries.
    by rewrite dict_get_set_ne.
  - rewrite set_tag_run, Htable, Hkey. cbv zeta. unfold final. world_simpl.
    exists (dict_set b t entries).
    by rewrite dict_get_set_eq, dict_get_set_ne.
  - rewrite remove_effect_run, Htable.
    destruct (dict_get "customeffects" (CacheData_custom w)) as [effects|];
      [|by exists entries].
    destruct (dict_pop b effects) as [effects'|]; [|by exists entries].
    cbv zeta. unfold final. world_simpl. exists entries.
    by rewrite dict_get_set_ne.
  - rewrite remove_tag_run, Htable, Hkey.
    destruct (dict_pop b entries) as [entries'|] eqn:Hpop; [|by exists entries].
    cbv zeta. unfold final. world_simpl. exists entries'.
    rewrite dict_get_set_eq. split; [done|].
    rewrite (dict_pop_get_ne b account_id entries entries' Hpop); [done|].
    congruence.
  - by exists entries.
Qed.

(** An effect that is cached stays cached, for the same account, through
    any calls of the module other than [set_effect] and [remove_effect]
    for that account. *)
Lemma after_module_calls_keep_effect (account_id effect : string)
    (calls : list module_call) (w : World) :
  Forall (spares_effect account_id) calls ->
  cached_under "customeffects" account_id effect w ->
  cached_under "customeffects" account_id effect (after_module_calls calls w).
Proof.
  intros Hcalls. revert w.
  induction Hcalls as [|c calls Hc Hcalls IH]; intros w Hw; simpl; [done|].
  apply IH. destruct c as [cc| | | | | | | | | | | | | |];
    try (eapply cached_under_same_cache; [|exact Hw];
         by apply call_module_keeps_custom_cache).
  by apply call_custom_keeps_effect.
Qed.

Lemma after_module_calls_keep_tag (account_id tag : string)
    (calls : list module_call) (w : World) :
  Forall (spares_tag account_id) calls ->
  cached_under "customtag" account_id tag w ->
  cached_under "customtag" account_id tag (after_module_calls calls w).
Proof.
  intros Hcalls. revert w.
  induction Hcalls as [|c calls Hc Hcalls IH]; intros w Hw; simpl; [done|].
  apply IH. destruct c as [cc| | | | | | | | | | | | | |];
    try (eapply cached_under_same_cache; [|exact Hw];
         by apply call_module_keeps_custom_cache).
  by apply call_custom_keeps_tag.
Qed.

Lemma get_custom_cached (key account_id value : string) (w : World) :
  cached_under key account_id value w ->
  get_custom w = (Ret (CacheData_custom w), w).
Proof.
  intros Hw. rewrite get_custom_run.
  by destruct (cached_under_table _ _ _ _ Hw) as [-> _].
Qed.

(** C1, amended. In every state of the process:
    - when [CacheData.custom] is empty, [get_custom] returns the content of
      custom.json and leaves the state, [CacheData.custom] included, as it
      was;
    - starting from an empty [CacheData.custom], the only calls of the
      module that can leave it non-empty are the writes [set_effect],
      [set_tag], [remove_effect] and [remove_tag];
    - [set_effect] and [set_tag] return normally whenever the table
      [get_custom] yields has the key they assign under, and when they
      return, [CacheData.custom] is non-empty, equals what was written to
      custom.json and maps the account to the given string;
    - from then on every [get_custom] returns [CacheData.custom], which
      still maps the account to that string, whatever functions of the
      module are called in between, returning or raising, as long as none
      of them is a [set_effect] or [remove_effect] (after [set_tag]: a
      [set_tag] or [remove_tag]) for the same account. *)
Theorem custom_cache_contract (w : World) :
  (CacheData_custom w = [] -> get_custom w = (Ret (custom_json w), w)) /\
  (forall c,
     CacheData_custom w = [] ->
     CacheData_custom (final (call_custom c w)) <> [] ->
     is_write c = true) /\
  (forall c,
     CacheData_custom w = [] ->
     CacheData_custom (call_module c w) <> [] ->
     exists cc, c = CallCustom cc /\ is_write cc = true) /\
  (forall effect account_id,
     (forall effects, dict_get "customeffects" (custom_table w) = Some effects ->
        exists w', set_effect effect account_id w = (Ret tt, w')) /\
     (forall w', set_effect effect account_id w = (Ret tt, w') ->
        CacheData_custom w' <> [] /\
        custom_json w' = CacheData_custom w' /\
        (exists effects,
           dict_get "customeffects" (CacheData_custom w') = Some effects /\
           dict_get account_id effects = Some effect) /\
        (forall n,
           get_custom_times n w' =
             (Ret (replicate n (CacheData_custom w')), w')) /\
        forall calls,
          Forall (spares_effect account_id) calls ->
          get_custom (after_module_calls calls w') =
            (Ret (CacheData_custom (after_module_calls calls w')),
             after_module_calls calls w') /\
          exists effects,
            dict_get "customeffects"
              (CacheData_custom (after_module_calls calls w')) = Some effects /\
            dict_get account_id effects = Some effect)) /\
  (forall tag account_id,
     (forall tags, dict_get "customtag" (custom_table w) = Some tags ->
        exists w', set_tag tag account_id w = (Ret tt, w')) /\
     (forall w', set_tag tag account_id w = (Ret tt, w') ->
        CacheData_custom w' <> [] /\
        custom_json w' = CacheData_custom w' /\
        (exists tags,
           dict_get "customtag" (CacheData_custom w') = Some tags /\
           dict_get account_id tags = Some tag) /\
        (forall n,
           get_custom_times n w' =
             (Ret (replicate n (CacheData_custom w')), w')) /\
        forall calls,
          Forall (spares_tag account_id) calls ->
          get_custom (after_module_calls calls w') =
            (Ret (CacheData_custom (after_module_calls calls w')),
             after_module_calls calls w') /\
          exists tags,
            dict_get "customtag"
              (CacheData_custom (after_module_calls calls w')) = Some tags /\
            dict_get account_id tags = Some tag)).
Proof.
  assert (forall c,
            CacheData_custom w = [] ->
            CacheData_custom (final (call_custom c w)) <> [] ->
            is_write c = true) as Hwrites.
  { intros c Hc Hpop. destruct c; try reflexivity; exfalso; apply Hpop.
    - simpl. unfold bind. by rewrite get_custom_run.
    - by rewrite <- Hc. }
  split; [|split; [exact Hwrites|split; [|split]]].
  - intros Hc. rewrite get_custom_run. unfold custom_table. by rewrite Hc.
  - intros c Hc Hpop.
    destruct c as [cc| | | | | | | | | | | | | |];
      try (exfalso; apply Hpop;
           by rewrite call_module_keeps_custom_cache).
    exists cc. split; [done|]. by apply Hwrites.
  - intros effect account_id. rewrite set_effect_run. split.
    + intros effects ->. by eexists.
    + intros w'. destruct (dict_get "customeffects" (custom_table w))
        as [effects|]; [|done].
      cbv zeta. intros [= <-].
      set (w' := set_custom_json _ _).
      assert (cached_under "customeffects" account_id effect w') as Hcached.
      { exists (dict_set account_id effect effects). subst w'. world_simpl.
        by rewrite !dict_get_set_eq. }
      destruct (cached_under_table _ _ _ _ Hcached) as [_ Hne].
      split; [by intros E; rewrite E in Hne|]. split; [done|].
      split; [exact Hcached|]. split.
      * intros n. by rewrite get_custom_times_cached.
      * intros calls Hcalls.
        pose proof (after_module_calls_keep_effect account_id effect calls w'
                      Hcalls Hcached) as Hlater.
        split; [by eapply get_custom_cached|exact Hlater].
  - intros tag account_id. rewrite set_tag_run. split.
    + intros tags ->. by eexists.
    + intros w'. destruct (dict_get "customtag" (custom_table w))
        as [tags|]; [|done].
      cbv zeta. intros [= <-].
      set (w' := set_custom_json _ _).
      assert (cached_under "customtag" account_id tag w') as Hcached.
      { exists (dict_set account_id tag tags). subst w'. world_simpl.
        by rewrite !dict_get_set_eq. }
      destruct (cached_under_table _ _ _ _ Hcached) as [_ Hne].
      split; [by intros E; rewrite E in Hne|]. split; [done|].
      split; [exact Hcached|]. split.
      * intros n. by rewrite get_custom_times_cached.
      * intros calls Hcalls.
        pose proof (after_module_calls_keep_tag account_id tag calls w'
                      Hcalls Hcached) as Hlater.
        split; [by eapply get_custom_cached|exact Hlater].
Qed.

Lemma custom_cache_contract_witness :
  let w := boot (Some []) []
             [("customeffects", [("p0", "ice")]); ("customtag", [])] [] in
  let calls := [CallCustom (SetTag "pro" "p1"); CallRole (CreateRole "mods");
                CallCustom (RemoveEffect "p0"); CallCustom (RemoveEffect "p9");
                CallCustom (SetEffect "smoke" "p2"); CallCustom GetCustom;
                AddProfile "pb-1" "Alice" "al" 30%Z; CallCustom CommitC] in
  CacheData_custom w = [] /\
  Forall (spares_effect "p1") calls /\
  get_custom w = (Ret (custom_json w), w) /\
  exists w',
    set_effect "fire" "p1" w = (Ret tt, w') /\
    get_custom_times 3 w' =
      (Ret (replicate 3
              [("customeffects", [("p0", "ice"); ("p1", "fire")]);
               ("customtag", [])]), w') /\
    result (get_custom (after_module_calls calls w')) =
      Ret [("customeffects", [("p1", "fire"); ("p2", "smoke")]);
           ("customtag", [("p1", "pro")])].
Proof.
  intros w calls.
  assert (Forall (spares_effect "p1") calls) as Hcalls
    by (repeat first [exact I | discriminate | constructor]).
  pose proof (custom_cache_contract w) as (Hread & _ & _ & Heffect & _).
  split; [reflexivity|]. split; [exact Hcalls|]. split; [exact (Hread eq_refl)|].
  destruct (Heffect "fire" "p1") as [Hruns Hafter].
  destruct (Hruns [("p0", "ice")] eq_refl) as (w' & Hrun).
  exists w'. split; [exact Hrun|].
  destruct (Hafter w' Hrun) as (_ & _ & _ & Hreads & Hlater).
  destruct (Hlater calls Hcalls) as [Hget _].
  rewrite set_effect_run in Hrun. simpl in Hrun. injection Hrun as <-.
  split.
  - rewrite (Hreads 3). reflexivity.
  - rewrite Hget. reflexivity.
Defined.

(** The calls the contract leaves out do undo the write: a
    [remove_effect] or a second [set_effect] for the account between the
    write and the read changes what the read returns for it. *)
Example later_write_for_the_account_shows :
  let w := boot (Some []) []
             [("customeffects", [("p0", "ice")]); ("customtag", [])] [] in
  result ((set_effect "fire" "p1" ;;; remove_effect "p1" ;;; get_custom) w) =
    Ret [("customeffects", [("p0", "ice")]); ("customtag", [])] /\
  result ((set_effect "fire" "p1" ;;; set_effect "ice" "p1" ;;; get_custom) w) =
    Ret [("customeffects", [("p0", "ice"); ("p1", "ice")]); ("customtag", [])].
Proof. split; reflexivity. Qed.
